(** * Document analysis: normalisation, intent resolution and filtering

    A shallow embedding of the pure decision logic of the [documents]
    package (ai_extraction.py, ai_filters.py, intent.py, processing.py)
    together with the properties its specification states about it.

    Conventions of the embedding.
    - A Python [str] is a [string]; its characters are read as the code
      points 0..255.
    - A Python [int] is a [Z], a Python [float] is a [spec_float] at the
      binary64 format (53 bits of precision, emax = 1024).
    - A JSON-like Python object is a [value]; a [dict] keeps its items in
      insertion order, as Python's does.
    - A call that may raise returns a [result]; the exceptions that matter
      are the three built-in ones the code meets.
    - [str(v)] refuses to print an integer of more than 4300 digits, alone
      or inside a list or dict, and raises [ValueError]: [Py.str] is the
      call, [Py.py_str] the text it returns and [Py.printable] tells the
      values it prints.  The text cleaners are written over [py_str]: what
      is proved of them is about the value a call returns, and a statement
      that a call returns asks for a printable input. *)

From Stdlib Require Import ZArith QArith Bool List Lia.
From Stdlib Require Import Ascii String.
From Stdlib Require Import DecimalString DecimalPos.
From Stdlib Require Import SpecFloat.
Import ListNotations.

Close Scope Q_scope.
Local Open Scope string_scope.
Local Open Scope list_scope.
Local Open Scope bool_scope.
Local Open Scope nat_scope.

Set Implicit Arguments.
Set Warnings "-register-all".

(* ================================================================== *)
(** * Results of calls that may raise *)

Inductive exn : Type := TypeError | ValueError | OverflowError.

Inductive result (A : Type) : Type :=
| Ok (a : A)
| Raise (e : exn).

Arguments Ok {A} a.
Arguments Raise {A} e.

Definition bind {A B : Type} (r : result A) (k : A -> result B) : result B :=
  match r with
  | Ok a => k a
  | Raise e => Raise e
  end.

Notation "x <- c ;; k" := (bind c (fun x => k))
  (at level 61, c at next level, right associativity).

(* ================================================================== *)
(** * Text: the [str] methods the code calls *)

Module Str.

(** [str.isspace] on one character, for the code points below 256:
    TAB..CR, FS..US, SPACE, NEL and NBSP. *)
Definition is_space (c : ascii) : bool :=
  let n := nat_of_ascii c in
  ((9 <=? n) && (n <=? 13)) || ((28 <=? n) && (n <=? 32))
  || (n =? 133) || (n =? 160).

Definition space : ascii := " "%char.

(** [str.lower] on one character: A..Z, and the upper-case letters of
    the Latin-1 block (U+00C0..U+00DE but the multiplication sign). *)
Definition lower_char (c : ascii) : ascii :=
  let n := nat_of_ascii c in
  if ((65 <=? n) && (n <=? 90))
     || ((192 <=? n) && (n <=? 222) && negb (n =? 215))
  then ascii_of_nat (n + 32) else c.

Fixpoint lower (s : string) : string :=
  match s with
  | "" => ""
  | String c r => String (lower_char c) (lower r)
  end.

Definition is_empty (s : string) : bool :=
  match s with "" => true | _ => false end.

(** [s.split()]: the maximal runs of characters that are not white
    space. *)
Fixpoint split (s : string) : list string :=
  match s with
  | "" => []
  | String c r =>
      if is_space c then split r
      else match r with
           | "" => [String c ""]
           | String d _ =>
               if is_space d then String c "" :: split r
               else match split r with
                    | w :: ws => String c w :: ws
                    | [] => [String c ""]
                    end
           end
  end.

(** [sep.join(ws)] *)
Definition join (sep : string) (ws : list string) : string :=
  String.concat sep ws.

Fixpoint lstrip (s : string) : string :=
  match s with
  | "" => ""
  | String c r => if is_space c then lstrip r else s
  end.

Fixpoint rstrip (s : string) : string :=
  match s with
  | "" => ""
  | String c r =>
      let r' := rstrip r in
      if is_space c && is_empty r' then "" else String c r'
  end.

Definition strip (s : string) : string := rstrip (lstrip s).

(** [s[:n]] for [n >= 0] *)
Fixpoint take (n : nat) (s : string) : string :=
  match n, s with
  | O, _ => ""
  | _, "" => ""
  | S k, String c r => String c (take k r)
  end.

(** [s.startswith(p)] *)
Fixpoint startswith (p s : string) : bool :=
  match p, s with
  | "", _ => true
  | String a p', String b s' => Ascii.eqb a b && startswith p' s'
  | _, "" => false
  end.

(** [p in s] *)
Fixpoint contains (p s : string) : bool :=
  startswith p s
  || match s with
     | "" => false
     | String _ r => contains p r
     end.

(** [s.replace(a, b)] for one-character [a] *)
Fixpoint replace_char (a : ascii) (b : string) (s : string) : string :=
  match s with
  | "" => ""
  | String c r =>
      if Ascii.eqb c a then (b ++ replace_char a b r)%string
      else String c (replace_char a b r)
  end.

Fixpoint has_char (a : ascii) (s : string) : bool :=
  match s with
  | "" => false
  | String c r => Ascii.eqb c a || has_char a r
  end.

(** [re.sub(r"\s+", " ", s)] *)
Fixpoint collapse_ws (s : string) : string :=
  match s with
  | "" => ""
  | String c r =>
      if is_space c then
        match r with
        | String d _ => if is_space d then collapse_ws r
                        else String space (collapse_ws r)
        | "" => String space ""
        end
      else String c (collapse_ws r)
  end.

(** ["".join(ch for ch in s if keep(ch))] *)
Fixpoint filter (keep : ascii -> bool) (s : string) : string :=
  match s with
  | "" => ""
  | String c r => if keep c then String c (filter keep r) else filter keep r
  end.

(** [x in xs] for a collection of strings *)
Fixpoint mem (x : string) (xs : list string) : bool :=
  match xs with
  | [] => false
  | y :: ys => String.eqb x y || mem x ys
  end.

End Str.

(* ================================================================== *)
(** * Python objects and the built-in conversions the code calls *)

Module Py.

(** What [json.loads] can produce, and what the code is handed. *)
Inductive value : Type :=
| VNone
| VBool (b : bool)
| VInt (z : Z)
| VFloat (f : spec_float)
| VStr (s : string)
| VList (xs : list value)
| VDict (items : list (string * value)).

Definition dict := list (string * value).

(** ** Decimal digits *)

Definition is_digit (c : ascii) : bool :=
  let n := nat_of_ascii c in (48 <=? n) && (n <=? 57).

Definition digit_val (c : ascii) : Z := Z.of_nat (nat_of_ascii c - 48).

(** The value of a run of digits, read after the value [acc]. *)
Fixpoint digits_val (acc : Z) (s : string) : Z :=
  match s with
  | "" => acc
  | String c r => digits_val (10 * acc + digit_val c)%Z r
  end.

Fixpoint all_digits (s : string) : bool :=
  match s with
  | "" => true
  | String c r => is_digit c && all_digits r
  end.

(** The longest prefix of digits, and what follows it. *)
Fixpoint span_digits (s : string) : string * string :=
  match s with
  | "" => ("", "")
  | String c r =>
      if is_digit c
      then let (d, rest) := span_digits r in (String c d, rest)
      else ("", s)
  end.

(** PEP 515: an underscore may stand between two digits only; the text
    without its underscores, or [None] when one is misplaced.
    [prev] tells whether the previous character was a digit. *)
Fixpoint drop_underscores (prev : bool) (s : string) : option string :=
  match s with
  | "" => Some ""
  | String c r =>
      if Ascii.eqb c "_" then
        match r with
        | String d _ =>
            if prev && is_digit d then drop_underscores false r else None
        | "" => None
        end
      else option_map (String c) (drop_underscores (is_digit c) r)
  end.

(** An optional sign: whether it is a minus, and the rest. *)
Definition split_sign (s : string) : bool * string :=
  match s with
  | String "-" r => (true, r)
  | String "+" r => (false, r)
  | _ => (false, s)
  end.

Definition Z_repr (z : Z) : string := NilEmpty.string_of_int (Z.to_int z).

(** ** [int(x)] *)

(** The white space [int] and [float] skip around a number: TAB..CR and
    SPACE, and NEL and NBSP, which they read as spaces; not FS..US, which
    [str.strip] removes. *)
Definition is_num_space (c : ascii) : bool :=
  let n := nat_of_ascii c in
  ((9 <=? n) && (n <=? 13)) || (n =? 32) || (n =? 133) || (n =? 160).

Fixpoint num_lstrip (s : string) : string :=
  match s with
  | "" => ""
  | String c r => if is_num_space c then num_lstrip r else s
  end.

Fixpoint num_rstrip (s : string) : string :=
  match s with
  | "" => ""
  | String c r =>
      let r' := num_rstrip r in
      if is_num_space c && Str.is_empty r' then "" else String c r'
  end.

Definition num_strip (s : string) : string := num_rstrip (num_lstrip s).

(** [sys.int_info.default_max_str_digits]: the digits [int] reads from a
    text and [str] prints of an integer. *)
Definition max_str_digits : nat := 4300.

(** [int(s)] for a text: white space around, a sign, digits, no more of
    them than [max_str_digits]. *)
Definition int_of_str (s : string) : option Z :=
  match drop_underscores false (num_strip s) with
  | None => None
  | Some t =>
      let (neg, body) := split_sign t in
      if Str.is_empty body || negb (all_digits body) then None
      else if max_str_digits <? String.length body then None
      else let n := digits_val 0 body in
           Some (if neg then (- n)%Z else n)
  end.

(** [int(f)] for a float: the integer part, towards zero. *)
Definition int_of_float (f : spec_float) : result Z :=
  match f with
  | S754_zero _ => Ok 0%Z
  | S754_infinity _ => Raise OverflowError
  | S754_nan => Raise ValueError
  | S754_finite s m e =>
      let a := match e with
               | Zneg k => Z.shiftr (Zpos m) (Zpos k)
               | _ => Z.shiftl (Zpos m) e
               end in
      Ok (if s then (- a)%Z else a)
  end.

Definition py_int (v : value) : result Z :=
  match v with
  | VNone => Raise TypeError
  | VBool b => Ok (if b then 1 else 0)%Z
  | VInt z => Ok z
  | VFloat f => int_of_float f
  | VStr s => match int_of_str s with
              | Some z => Ok z
              | None => Raise ValueError
              end
  | VList _ => Raise TypeError
  | VDict _ => Raise TypeError
  end.

(** ** [float(x)] *)

Definition prec : Z := 53.
Definition emax : Z := 1024.

Definition float_zero : spec_float := S754_zero false.
Definition float_one : spec_float :=
  Eval vm_compute in binary_normalize prec emax 1 0 false.

(** The double nearest to [(-1)^neg * m * 10^e10]. *)
Definition float_of_decimal (neg : bool) (m : Z) (e10 : Z) : spec_float :=
  match m with
  | Zpos p =>
      match e10 with
      | Zneg k =>
          SFdiv prec emax (S754_finite neg p 0)
                (S754_finite false (Pos.pow 10 k) 0)
      | _ => binary_normalize prec emax
               (if neg then - (m * 10 ^ e10) else m * 10 ^ e10)%Z 0 neg
      end
  | _ => S754_zero neg
  end.

(** The digits and exponent of an unsigned decimal literal
    [digits [. digits] [e [sign] digits]], at least one digit in the
    mantissa: the integer [m] and [e10] with value [m * 10^e10]. *)
Definition parse_decimal_literal (s : string) : option (Z * Z) :=
  let (ip, r1) := span_digits s in
  let (fp, r2) := match r1 with
                  | String "." r => span_digits r
                  | _ => ("", r1)
                  end in
  if Str.is_empty ip && Str.is_empty fp then None
  else
    let m := digits_val 0 (ip ++ fp) in
    let shift := Z.of_nat (String.length fp) in
    match r2 with
    | "" => Some (m, (- shift)%Z)
    | String c r =>
        if Ascii.eqb c "e" || Ascii.eqb c "E" then
          let (eneg, ed) := split_sign r in
          if Str.is_empty ed || negb (all_digits ed) then None
          else let ev := digits_val 0 ed in
               Some (m, ((if eneg then - ev else ev) - shift)%Z)
        else None
    end.

(** [float(s)] for a text. *)
Definition float_of_str (s : string) : option spec_float :=
  let t := num_strip s in
  let (neg, body) := split_sign t in
  let low := Str.lower body in
  if String.eqb low "inf" || String.eqb low "infinity"
  then Some (S754_infinity neg)
  else if String.eqb low "nan" then Some S754_nan
  else match drop_underscores false body with
       | None => None
       | Some b =>
           match parse_decimal_literal b with
           | Some (m, e10) => Some (float_of_decimal neg m e10)
           | None => None
           end
       end.

(** [float(z)] for an int: the nearest double, [OverflowError] beyond
    the largest one. *)
Definition float_of_int (z : Z) : result spec_float :=
  match binary_normalize prec emax z 0 false with
  | S754_infinity _ => Raise OverflowError
  | f => Ok f
  end.

Definition py_float (v : value) : result spec_float :=
  match v with
  | VNone => Raise TypeError
  | VBool b => Ok (if b then float_one else float_zero)
  | VInt z => float_of_int z
  | VFloat f => Ok f
  | VStr s => match float_of_str s with
              | Some f => Ok f
              | None => Raise ValueError
              end
  | VList _ => Raise TypeError
  | VDict _ => Raise TypeError
  end.

(** ** [repr(x)] and [str(x)] *)

Definition uint_repr (z : Z) : string := Z_repr (Z.abs z).

Fixpoint zeros (n : nat) : string :=
  match n with
  | O => ""
  | S k => String "0" (zeros k)
  end.

(** The digits of [s] without the zeros at its end. *)
Fixpoint drop_trailing_zeros (s : string) : string :=
  match s with
  | "" => ""
  | String c r =>
      let r' := drop_trailing_zeros r in
      if Ascii.eqb c "0" && Str.is_empty r' then "" else String c r'
  end.

(** The least [k] below [fuel] with [num * 10^k >= den], counted from
    [k]. *)
Fixpoint scale_up (fuel : nat) (num den : Z) (k : Z) : Z :=
  match fuel with
  | O => k
  | S fuel' =>
      if (den <=? num)%Z then k
      else scale_up fuel' (10 * num)%Z den (k + 1)%Z
  end.

(** The position of the decimal point of [num / den > 0]: the [t] with
    [10^(t-1) <= num/den < 10^t]. *)
Definition decimal_point (num den : Z) : Z :=
  if (den <=? num)%Z
  then Z.of_nat (String.length (uint_repr (num / den)))
  else (1 - scale_up 400 num den 0)%Z.

(** The [n]-digit decimals next to [num/den], below and above, as
    [(D, q)] for [D * 10^q], and which of them reads back as [x]; the
    chosen one is the nearer of those that do. *)
Definition shortest_at (x : spec_float) (num den t : Z) (n : nat)
  : option (Z * Z) :=
  let q := (t - Z.of_nat n)%Z in
  let (a, b) := match q with
                | Zneg k => (num * Zpos (Pos.pow 10 k), den)%Z
                | _ => (num, den * 10 ^ q)%Z
                end in
  let lo := (a / b)%Z in
  let rem := (a mod b)%Z in
  let hi := (lo + 1)%Z in
  let ok d := SFeqb (float_of_decimal false d q) x in
  let nearer_lo :=
    match (2 * rem ?= b)%Z with
    | Lt => true
    | Gt => false
    | Eq => Z.even lo
    end in
  match ok lo, ok hi with
  | true, true => Some (if nearer_lo then lo else hi, q)
  | true, false => Some (lo, q)
  | false, true => Some (hi, q)
  | false, false => None
  end.

Fixpoint shortest_from (fuel : nat) (x : spec_float) (num den t : Z)
         (n : nat) : Z * Z :=
  match shortest_at x num den t n with
  | Some r => r
  | None =>
      match fuel with
      | O => let q := (t - Z.of_nat n)%Z in
             (match q with
              | Zneg k => (num * Zpos (Pos.pow 10 k)) / den
              | _ => num / (den * 10 ^ q)
              end, q)%Z
      | S fuel' => shortest_from fuel' x num den t (S n)
      end
  end.

(** The exponent of the scientific form: a sign and two digits at
    least. *)
Definition exp_repr (e : Z) : string :=
  let d := uint_repr e in
  ((if (e <? 0)%Z then "-" else "+")
    ++ (if (String.length d <? 2)%nat then "0" ++ d else d))%string.

(** [repr(f)] of a float: the shortest decimal that reads back as [f],
    in positional form when the decimal point lies within the digits or
    up to 16 places right and 3 places left of them, in scientific form
    otherwise. *)
Definition float_repr (f : spec_float) : string :=
  match f with
  | S754_nan => "nan"
  | S754_infinity s => if s then "-inf" else "inf"
  | S754_zero s => if s then "-0.0" else "0.0"
  | S754_finite s m e =>
      let (num, den) := match e with
                        | Zneg k => (Zpos m, Zpos (Pos.pow 2 k))
                        | _ => (Zpos m * 2 ^ e, 1)%Z
                        end in
      let t := decimal_point num den in
      let (D, q) := shortest_from 16 (S754_finite false m e) num den t 1 in
      let all := uint_repr D in
      let ds := drop_trailing_zeros all in
      let decpt := (q + Z.of_nat (String.length all))%Z in
      let nd := String.length ds in
      let body :=
        if (16 <? decpt)%Z || (decpt <? -3)%Z then
          (match ds with
           | String c "" => String c ""
           | String c r => String c ("." ++ r)
           | "" => "0"
           end ++ "e" ++ exp_repr (decpt - 1))%string
        else if (decpt <=? 0)%Z then
          ("0." ++ zeros (Z.to_nat (- decpt)) ++ ds)%string
        else if (Z.of_nat nd <=? decpt)%Z then
          (ds ++ zeros (Z.to_nat decpt - nd)%nat ++ ".0")%string
        else
          (Str.take (Z.to_nat decpt) ds ++ "."
             ++ String.substring (Z.to_nat decpt) (nd - Z.to_nat decpt)%nat ds)%string
      in
      ((if s then "-" else "") ++ body)%string
  end.

Definition hex_digit (n : nat) : ascii :=
  ascii_of_nat (if n <? 10 then 48 + n else 87 + n).

(** One character of a text inside [repr]: [quote] is the delimiter in
    use. *)
Definition backslash : ascii := ascii_of_nat 92.

Definition escape_char (quote : ascii) (c : ascii) : string :=
  let n := nat_of_ascii c in
  let esc (x : ascii) := String backslash (String x "") in
  if Ascii.eqb c quote || Ascii.eqb c backslash then esc c
  else if n =? 9 then esc "t"%char
  else if n =? 10 then esc "n"%char
  else if n =? 13 then esc "r"%char
  else if (n <? 32) || ((127 <=? n) && (n <=? 160)) || (n =? 173)
  then String backslash
         (String "x" (String (hex_digit (n / 16))
                        (String (hex_digit (n mod 16)) "")))
  else String c "".

Fixpoint escape (quote : ascii) (s : string) : string :=
  match s with
  | "" => ""
  | String c r => (escape_char quote c ++ escape quote r)%string
  end.

Definition squote : ascii := "'"%char.
Definition dquote : ascii := ascii_of_nat 34.

(** [repr(s)] of a text: single quotes, unless the text has a single
    quote and no double quote. *)
Definition str_repr (s : string) : string :=
  let q := if Str.has_char squote s && negb (Str.has_char dquote s)
           then dquote else squote in
  String q (escape q s ++ String q "")%string.

Fixpoint py_repr (v : value) : string :=
  match v with
  | VNone => "None"
  | VBool b => if b then "True" else "False"
  | VInt z => Z_repr z
  | VFloat f => float_repr f
  | VStr s => str_repr s
  | VList xs => ("[" ++ Str.join ", " (map py_repr xs) ++ "]")%string
  | VDict items =>
      ("{" ++ Str.join ", "
         (map (fun kv => (str_repr (fst kv) ++ ": " ++ py_repr (snd kv))%string)
              items)
       ++ "}")%string
  end.

(** [str(v)] *)
Definition py_str (v : value) : string :=
  match v with
  | VStr s => s
  | _ => py_repr v
  end.

(** The integers [str] prints have [max_str_digits] digits at most. *)
Definition str_limit : Z := (10 ^ Z.of_nat max_str_digits)%Z.

(** The values [str] and [repr] print: no integer in them reaches
    [str_limit]. *)
Fixpoint printable (v : value) : bool :=
  match v with
  | VInt z => (Z.abs z <? str_limit)%Z
  | VList xs => forallb printable xs
  | VDict items => forallb (fun kv => printable (snd kv)) items
  | _ => true
  end.

(** [str(v)] *)
Definition str (v : value) : result string :=
  if printable v then Ok (py_str v) else Raise ValueError.

(** ** Shape tests and truth *)

(** [d.get(k)]: the value stored under [k], [None] when there is
    none. *)
Fixpoint dict_get (d : dict) (k : string) : value :=
  match d with
  | [] => VNone
  | (k', v) :: rest => if String.eqb k k' then v else dict_get rest k
  end.

(** [bool(v)] *)
Definition truthy (v : value) : bool :=
  match v with
  | VNone => false
  | VBool b => b
  | VInt z => negb (z =? 0)%Z
  | VFloat (S754_zero _) => false
  | VFloat _ => true
  | VStr s => negb (Str.is_empty s)
  | VList xs => match xs with [] => false | _ => true end
  | VDict d => match d with [] => false | _ => true end
  end.

End Py.

(* ================================================================== *)
(** * ai_extraction.py: the payload normaliser *)

Module ai_extraction.
Import Py.

Definition DOC_TYPE_CHOICES : list string :=
  ["curriculo"; "contrato"; "nota_fiscal"; "boleto"; "fatura"; "recibo";
   "comprovante"; "outro"].
Definition SENIORITY_CHOICES : list string :=
  ["junior"; "pleno"; "senior"; "lead"; "unknown"].
Definition SKILL_LEVEL_CHOICES : list string :=
  ["unknown"; "basic"; "intermediate"; "advanced"].

(** [x or default] for texts *)
Definition or_default (x default : string) : string :=
  if Str.is_empty x then default else x.

Definition _clean_text (value : value) (max_len : nat) : string :=
  match value with
  | VNone => ""
  | _ =>
      let cleaned := Str.strip (Str.join " " (Str.split (py_str value))) in
      if negb (max_len =? 0) && (max_len <? String.length cleaned)
      then Str.rstrip (Str.take max_len cleaned)
      else cleaned
  end.

Definition _clean_optional_text (value : value) (max_len : nat)
  : option string :=
  let cleaned := _clean_text value max_len in
  if Str.is_empty cleaned then None else Some cleaned.

Definition _clean_int (value : value) (min_value max_value : Z)
  : result (option Z) :=
  match value with
  | VNone => Ok None
  | _ =>
      match py_int value with
      | Raise TypeError => Ok None
      | Raise ValueError => Ok None
      | Raise e => Raise e
      | Ok parsed =>
          if (parsed <? min_value)%Z || (max_value <? parsed)%Z
          then Ok None
          else Ok (Some parsed)
      end
  end.

Definition _clean_float (value : value) : result spec_float :=
  match py_float value with
  | Raise TypeError => Ok float_zero
  | Raise ValueError => Ok float_zero
  | Raise e => Raise e
  | Ok parsed =>
      if SFltb parsed float_zero then Ok float_zero
      else if SFltb float_one parsed then Ok float_one
      else Ok parsed
  end.

(** The loop of [_clean_list]: [cleaned] and [seen] are its two
    accumulators. *)
Fixpoint _clean_list_loop (max_items max_len : nat) (values : list value)
         (cleaned seen : list string) : list string :=
  match values with
  | [] => cleaned
  | raw :: rest =>
      let text := _clean_text raw max_len in
      if Str.is_empty text
      then _clean_list_loop max_items max_len rest cleaned seen
      else
        let lowered := Str.lower text in
        if Str.mem lowered seen
        then _clean_list_loop max_items max_len rest cleaned seen
        else
          let cleaned' := cleaned ++ [text] in
          if max_items <=? List.length cleaned' then cleaned'
          else _clean_list_loop max_items max_len rest cleaned'
                                (lowered :: seen)
  end.

Definition _clean_list (values : value) (max_items max_len : nat)
  : list string :=
  match values with
  | VList xs => _clean_list_loop max_items max_len xs [] []
  | _ => []
  end.

(** [level not in CHOICES] falls back on ["unknown"], and so on. *)
Definition choice (choices : list string) (default : string)
           (raw : value) (max_len : nat) : string :=
  let x := or_default (Str.lower (_clean_text raw max_len)) default in
  if Str.mem x choices then x else default.

Definition as_dict (v : value) : dict :=
  match v with VDict d => d | _ => [] end.

Definition as_list (v : value) : list value :=
  match v with VList xs => xs | _ => [] end.

(** [_truncate_text(text, max_chars=...)] for a text. *)
Definition _truncate_text (text : string) (max_chars : Z) : string * bool :=
  let normalized := Str.strip text in
  if (max_chars <=? 0)%Z then (normalized, false)
  else if (Z.of_nat (String.length normalized) <=? max_chars)%Z
       then (normalized, false)
       else (Str.take (Z.to_nat max_chars) normalized, true).

Definition _normalize_skill (raw : value) : option dict :=
  match raw with
  | VDict d =>
      let name := _clean_text (dict_get d "name") 120 in
      if Str.is_empty name then None
      else
        let level := choice SKILL_LEVEL_CHOICES "unknown"
                            (dict_get d "level") 20 in
        let evidence := _clean_text (dict_get d "evidence") 220 in
        if Str.is_empty evidence then None
        else Some [("name", VStr name); ("level", VStr level);
                   ("evidence", VStr evidence)]
  | _ => None
  end.

Definition opt_str (o : option string) : value :=
  match o with Some s => VStr s | None => VNone end.

Definition opt_int (o : option Z) : value :=
  match o with Some z => VInt z | None => VNone end.

Definition _normalize_education (raw : value) : option dict :=
  match raw with
  | VDict d =>
      let degree := _clean_optional_text (dict_get d "degree") 160 in
      let institution :=
        _clean_optional_text (dict_get d "institution") 160 in
      let evidence := _clean_text (dict_get d "evidence") 220 in
      if Str.is_empty evidence then None
      else Some [("degree", opt_str degree);
                 ("institution", opt_str institution);
                 ("evidence", VStr evidence)]
  | _ => None
  end.

Definition _normalize_keyword_evidence (raw : value) : option dict :=
  match raw with
  | VDict d =>
      let term := _clean_text (dict_get d "term") 120 in
      let evidence := _clean_text (dict_get d "evidence") 220 in
      if Str.is_empty term || Str.is_empty evidence then None
      else Some [("term", VStr term); ("evidence", VStr evidence)]
  | _ => None
  end.

(** The three loops of [normalize_ai_payload] over skills, education
    and keywords_evidence are one loop up to the item normaliser and
    the cap: append what normalises to a non-empty dict, stop once the
    cap is reached. *)
Fixpoint collect (normalize : value -> option dict) (cap : nat)
         (items : list value) (acc : list value) : list value :=
  match items with
  | [] => acc
  | item :: rest =>
      let acc' := match normalize item with
                  | Some (kv :: d) => acc ++ [VDict (kv :: d)]
                  | _ => acc
                  end in
      if cap <=? List.length acc' then acc'
      else collect normalize cap rest acc'
  end.

Definition normalize_ai_payload (payload : value) : result value :=
  let payload := as_dict payload in
  let person_raw := as_dict (dict_get payload "person") in
  let exp_raw := as_dict (dict_get payload "experience") in
  let confidence_raw := as_dict (dict_get payload "confidence") in
  let doc_type :=
    choice DOC_TYPE_CHOICES "outro" (dict_get payload "doc_type") 40 in
  let seniority :=
    choice SENIORITY_CHOICES "unknown" (dict_get exp_raw "seniority") 20 in
  let skills :=
    collect _normalize_skill 30 (as_list (dict_get payload "skills")) [] in
  let education :=
    collect _normalize_education 20
            (as_list (dict_get payload "education")) [] in
  let keywords_evidence :=
    collect _normalize_keyword_evidence 40
            (as_list (dict_get payload "keywords_evidence")) [] in
  age <- _clean_int (dict_get person_raw "age_estimate_years") 0 120 ;;
  years <- _clean_int (dict_get exp_raw "years_estimate") 0 60 ;;
  overall <- _clean_float (dict_get confidence_raw "overall") ;;
  Ok (VDict
    [("doc_type", VStr doc_type);
     ("person", VDict
        [("name",
           opt_str (_clean_optional_text (dict_get person_raw "name") 160));
         ("emails",
           VList (map VStr (_clean_list (dict_get person_raw "emails") 10 120)));
         ("phones",
           VList (map VStr (_clean_list (dict_get person_raw "phones") 10 32)));
         ("location",
           opt_str (_clean_optional_text (dict_get person_raw "location") 160));
         ("age_estimate_years", opt_int age);
         ("age_evidence",
           opt_str (_clean_optional_text
                      (dict_get person_raw "age_evidence") 220))]);
     ("experience", VDict
        [("years_estimate", opt_int years);
         ("years_evidence",
           opt_str (_clean_optional_text
                      (dict_get exp_raw "years_evidence") 220));
         ("seniority", VStr seniority);
         ("roles",
           VList (map VStr (_clean_list (dict_get exp_raw "roles") 20 120)));
         ("companies",
           VList (map VStr (_clean_list (dict_get exp_raw "companies") 20 120)))]);
     ("skills", VList skills);
     ("education", VList education);
     ("keywords_evidence", VList keywords_evidence);
     ("confidence", VDict [("overall", VFloat overall)])]).

End ai_extraction.

(* ================================================================== *)
(** * ai_filters.py: the search blob and the semantic filters *)

Module ai_filters.
Import Py.

(** What the filters are handed: a dict, or an object with attributes
    (a [Document] row, a [SimpleNamespace] in the tests). *)
Inductive doc_or_json : Type :=
| IsDict (d : dict)
| IsObject (attrs : dict).

Fixpoint find_attr (attrs : dict) (name : string) : option value :=
  match attrs with
  | [] => None
  | (k, v) :: rest => if String.eqb name k then Some v else find_attr rest name
  end.

(** [getattr(o, name, default)]; a dict has none of the attributes the
    code asks for. *)
Definition getattr (o : doc_or_json) (name : string) (default : value)
  : value :=
  match o with
  | IsDict _ => default
  | IsObject attrs =>
      match find_attr attrs name with
      | Some v => v
      | None => default
      end
  end.

Definition _as_dict (v : value) : dict :=
  match v with VDict d => d | _ => [] end.

Definition _as_list (v : value) : list value :=
  match v with VList xs => xs | _ => [] end.

Definition _clean_text (value : value) (max_len : nat) : string :=
  match value with
  | VNone => ""
  | _ =>
      let cleaned := Str.strip (Str.join " " (Str.split (py_str value))) in
      if negb (max_len =? 0) && (max_len <? String.length cleaned)
      then Str.rstrip (Str.take max_len cleaned)
      else cleaned
  end.

Definition _safe_int (value : value) (min_value max_value : Z)
  : result (option Z) :=
  match value with
  | VNone => Ok None
  | _ =>
      match py_int value with
      | Raise TypeError => Ok None
      | Raise ValueError => Ok None
      | Raise e => Raise e
      | Ok parsed =>
          if (parsed <? min_value)%Z || (max_value <? parsed)%Z
          then Ok None
          else Ok (Some parsed)
      end
  end.

Definition get_ai_payload (doc : doc_or_json) : dict :=
  let source := match doc with
                | IsDict d => VDict d
                | IsObject _ => getattr doc "extracted_json" (VDict [])
                end in
  _as_dict (dict_get (_as_dict source) "ai").

(** [yield value] when the cleaned text is not empty *)
Definition chunk (v : value) (max_len : nat) : list string :=
  let text := _clean_text v max_len in
  if Str.is_empty text then [] else [text].

(** The chunks of one record, for the keys given in order. *)
Definition chunks_of (d : dict) (keys : list string) (max_len : nat)
  : list string :=
  flat_map (fun key => chunk (dict_get d key) max_len) keys.

(** The generator [_iter_search_chunks], as the list it yields. *)
Definition _iter_search_chunks (ai_payload : dict) : list string :=
  match ai_payload with
  | [] => []
  | _ =>
      let person := _as_dict (dict_get ai_payload "person") in
      let experience := _as_dict (dict_get ai_payload "experience") in
      chunk (dict_get ai_payload "doc_type") 80
      ++ chunks_of person ["name"; "location"; "age_evidence"] 220
      ++ flat_map (fun field =>
                     flat_map (fun v => chunk v 120)
                              (_as_list (dict_get person field)))
                  ["emails"; "phones"]
      ++ chunks_of experience ["seniority"; "years_evidence"] 220
      ++ match dict_get experience "years_estimate" with
         | VNone => []
         | years_estimate => [py_str years_estimate]
         end
      ++ flat_map (fun field =>
                     flat_map (fun v => chunk v 120)
                              (_as_list (dict_get experience field)))
                  ["roles"; "companies"]
      ++ flat_map (fun skill =>
                     chunks_of (_as_dict skill)
                               ["name"; "level"; "evidence"] 220)
                  (_as_list (dict_get ai_payload "skills"))
      ++ flat_map (fun entry =>
                     chunks_of (_as_dict entry)
                               ["degree"; "institution"; "evidence"] 220)
                  (_as_list (dict_get ai_payload "education"))
      ++ flat_map (fun entry =>
                     chunks_of (_as_dict entry) ["term"; "evidence"] 220)
                  (_as_list (dict_get ai_payload "keywords_evidence"))
  end.

(** [x or y] on objects *)
Definition py_or (x y : value) : value := if truthy x then x else y.

(** The bounds of [document_passes_ranges], each one optional. *)
Record ranges : Type := {
  experience_min_years : option Z;
  experience_max_years : option Z;
  age_min_years : option Z;
  age_max_years : option Z;
  exclude_unknowns : bool
}.

(** The body of [document_passes_ranges] once the two values are
    resolved: four blocks in a row, each of which may return [False]. *)
Definition passes_ranges (experience_value age_value : option Z)
           (r : ranges) : bool :=
  let age_max :=
    match age_max_years r with
    | Some bound =>
        match age_value with
        | None => if exclude_unknowns r then false else true
        | Some v => if (bound <? v)%Z then false else true
        end
    | None => true
    end in
  let age_min :=
    match age_min_years r with
    | Some bound =>
        match age_value with
        | None => if exclude_unknowns r then false else age_max
        | Some v => if (v <? bound)%Z then false else age_max
        end
    | None => age_max
    end in
  let experience_max :=
    match experience_max_years r with
    | Some bound =>
        match experience_value with
        | None => if exclude_unknowns r then false else age_min
        | Some v => if (bound <? v)%Z then false else age_min
        end
    | None => age_min
    end in
  match experience_min_years r with
  | Some bound =>
      match experience_value with
      | None => if exclude_unknowns r then false else experience_max
      | Some v => if (v <? bound)%Z then false else experience_max
      end
  | None => experience_max
  end.

(** [s[:k]] for any integer [k]: the end is counted from the right when
    [k] is negative. *)
Definition slice_to (k : Z) (s : string) : string :=
  if (0 <=? k)%Z then Str.take (Z.to_nat k) s
  else Str.take (String.length s - Z.to_nat (- k)) s.

(** [_truncate(text, max_len=...)] for a text and [max_len >= 0]. *)
Definition _truncate (text : string) (max_len : nat) : string :=
  let clean := _clean_text (VStr text) (Nat.max (max_len * 4) max_len) in
  if String.length clean <=? max_len then clean
  else (Str.rstrip (slice_to (Z.of_nat max_len - 3) clean) ++ "...")%string.

Section WithServices.

(** [services._normalize_for_match]: the module is not part of the
    sources at hand, the filters only call it. *)
Variable _normalize_for_match : value -> string.

(** The inner function [_append] of [_build_evidence_index], as the
    entries it adds. *)
Definition _append (label : value) (evidence : value)
  : list (string * string) :=
  let evidence_text := _clean_text evidence 300 in
  if Str.is_empty evidence_text then []
  else
    let label_text := _clean_text label 180 in
    let searchable :=
      _normalize_for_match
        (VStr (label_text ++ " " ++ evidence_text)%string) in
    if Str.is_empty searchable then []
    else [(searchable, evidence_text)].

Definition _build_evidence_index (ai_payload : dict)
  : list (string * string) :=
  let experience := _as_dict (dict_get ai_payload "experience") in
  let person := _as_dict (dict_get ai_payload "person") in
  _append (VStr ("experience " ++ py_str (dict_get experience "seniority"))%string)
          (dict_get experience "years_evidence")
  ++ _append (VStr "age person") (dict_get person "age_evidence")
  ++ flat_map (fun item =>
                 let entry := _as_dict item in
                 _append (py_or (dict_get entry "term") (VStr "keyword"))
                         (dict_get entry "evidence"))
              (_as_list (dict_get ai_payload "keywords_evidence"))
  ++ flat_map (fun item =>
                 let entry := _as_dict item in
                 _append (py_or (dict_get entry "name") (VStr "skill"))
                         (dict_get entry "evidence"))
              (_as_list (dict_get ai_payload "skills"))
  ++ flat_map (fun item =>
                 let entry := _as_dict item in
                 let label :=
                   Str.strip
                     (py_str (py_or (dict_get entry "degree") (VStr ""))
                      ++ " "
                      ++ py_str (py_or (dict_get entry "institution")
                                       (VStr "")))%string in
                 _append (VStr (if Str.is_empty label then "education"
                                else label))
                         (dict_get entry "evidence"))
              (_as_list (dict_get ai_payload "education")).

(** The first evidence of the index whose searchable text contains
    [term]. *)
Fixpoint first_hit (term : string) (index : list (string * string))
  : option string :=
  match index with
  | [] => None
  | (searchable, evidence) :: rest =>
      if Str.contains term searchable then Some evidence
      else first_hit term rest
  end.

(** The two nested loops of [find_evidence_snippet]. *)
Fixpoint first_term_hit (terms : list string)
         (index : list (string * string)) : option string :=
  match terms with
  | [] => None
  | term :: rest =>
      match first_hit term index with
      | Some evidence => Some evidence
      | None => first_term_hit rest index
      end
  end.

Definition find_evidence_snippet (doc : doc_or_json) (terms : list string)
           (max_len : nat) (use_first_if_no_term : bool) : string :=
  let ai_payload := get_ai_payload doc in
  match ai_payload with
  | [] => ""
  | _ =>
      let evidence_index := _build_evidence_index ai_payload in
      match evidence_index with
      | [] => ""
      | first :: _ =>
          match first_term_hit terms evidence_index with
          | Some evidence => _truncate evidence max_len
          | None =>
              if use_first_if_no_term then _truncate (snd first) max_len
              else ""
          end
      end
  end.

(** The loop of [build_ai_search_blob]. *)
Fixpoint blob_loop (todo : list string) (chunks seen : list string)
  : list string :=
  match todo with
  | [] => chunks
  | c :: rest =>
      let normalized := _normalize_for_match (VStr c) in
      if Str.is_empty normalized || Str.mem normalized seen
      then blob_loop rest chunks seen
      else blob_loop rest (chunks ++ [normalized]) (normalized :: seen)
  end.

Definition build_ai_search_blob (ai_payload : value) : string :=
  Str.join " "
    (blob_loop (_iter_search_chunks (_as_dict ai_payload)) [] []).

Definition _build_document_blob (doc : doc_or_json) : string :=
  let ai_blob := build_ai_search_blob (VDict (get_ai_payload doc)) in
  let text_blob :=
    _clean_text (getattr doc "text_content_norm" (VStr "")) 0 in
  let text_blob :=
    if Str.is_empty text_blob then
      let raw_text :=
        py_or (py_or (getattr doc "text_content" (VStr ""))
                     (getattr doc "extracted_text" (VStr "")))
              (VStr "") in
      _normalize_for_match raw_text
    else text_blob in
  if negb (Str.is_empty ai_blob) && negb (Str.is_empty text_blob)
  then (ai_blob ++ " " ++ text_blob)%string
  else if Str.is_empty ai_blob then text_blob else ai_blob.

Definition document_matches_terms (doc : doc_or_json)
           (terms : list string) (mode : string) : bool :=
  match terms with
  | [] => true
  | _ =>
      let blob := _build_document_blob doc in
      if Str.is_empty blob then false
      else if String.eqb mode "any"
           then existsb (fun term => Str.contains term blob) terms
           else forallb (fun term => Str.contains term blob) terms
  end.

Definition document_matches_excludes (doc : doc_or_json)
           (exclude_terms : list string) : bool :=
  match exclude_terms with
  | [] => false
  | _ =>
      let blob := _build_document_blob doc in
      if Str.is_empty blob then false
      else existsb (fun term => Str.contains term blob) exclude_terms
  end.

Definition resolve_experience_years (doc : doc_or_json)
  : result (option Z) :=
  let ai_payload := get_ai_payload doc in
  let experience := _as_dict (dict_get ai_payload "experience") in
  ai_value <- _safe_int (dict_get experience "years_estimate") 0 60 ;;
  match ai_value with
  | Some v => Ok (Some v)
  | None =>
      _safe_int (getattr doc "extracted_experience_years" VNone) 0 60
  end.

Definition resolve_age_years (doc : doc_or_json) : result (option Z) :=
  let ai_payload := get_ai_payload doc in
  let person := _as_dict (dict_get ai_payload "person") in
  ai_value <- _safe_int (dict_get person "age_estimate_years") 0 120 ;;
  match ai_value with
  | Some v => Ok (Some v)
  | None => _safe_int (getattr doc "extracted_age_years" VNone) 0 120
  end.

Definition document_passes_ranges (doc : doc_or_json) (r : ranges)
  : result bool :=
  experience_value <- resolve_experience_years doc ;;
  age_value <- resolve_age_years doc ;;
  Ok (passes_ranges experience_value age_value r).

Definition document_passes_semantic_filters (doc : doc_or_json)
           (terms : list string) (mode : string)
           (exclude_terms : list string) (r : ranges) : result bool :=
  if negb (document_matches_terms doc terms mode) then Ok false
  else if document_matches_excludes doc exclude_terms then Ok false
  else
    passed <- document_passes_ranges doc r ;;
    if negb passed then Ok false else Ok true.

End WithServices.

End ai_filters.

(* ================================================================== *)
(** * difflib: the similarity ratio of two texts *)

Module difflib.

Fixpoint common_prefix (a b : string) : nat :=
  match a, b with
  | String x a', String y b' =>
      if Ascii.eqb x y then S (common_prefix a' b') else 0
  | _, _ => 0
  end.

(** [s[n:]] *)
Fixpoint drop (n : nat) (s : string) : string :=
  match n, s with
  | O, _ => s
  | _, "" => ""
  | S k, String _ r => drop k r
  end.

(** The best block [(i, j, k)] so far, improved by the blocks that
    start at [i] in the first text and at [j], [j+1], ... in the
    second: a block replaces the best one only when it is longer. *)
Fixpoint scan_b (a b : string) (i j : nat) (best : nat * nat * nat)
  : nat * nat * nat :=
  let k := common_prefix a b in
  let best' := if snd best <? k then (i, j, k) else best in
  match b with
  | "" => best'
  | String _ b' => scan_b a b' i (S j) best'
  end.

Fixpoint scan_a (a b : string) (i : nat) (best : nat * nat * nat)
  : nat * nat * nat :=
  let best' := scan_b a b i 0 best in
  match a with
  | "" => best'
  | String _ a' => scan_a a' b (S i) best'
  end.

(** [find_longest_match]: the longest common block, the earliest in
    the first text and then in the second among the longest. *)
Definition find_longest_match (a b : string) : nat * nat * nat :=
  scan_a a b 0 (0, 0, 0).

(** The total size of the matching blocks: the longest block, then the
    same to its left and to its right. *)
Fixpoint matches (fuel : nat) (a b : string) : nat :=
  match fuel with
  | O => 0
  | S fuel' =>
      let '(i, j, k) := find_longest_match a b in
      if k =? 0 then 0
      else k + matches fuel' (Str.take i a) (Str.take j b)
             + matches fuel' (drop (i + k) a) (drop (j + k) b)
  end.

(** [SequenceMatcher(None, a, b).ratio()] as the exact quotient
    [2 * matches / (len(a) + len(b))], 1 for two empty texts.  The
    junk heuristic, which difflib turns on for a second text of 200
    characters or more, is left out. *)
Definition ratio (a b : string) : Q :=
  let total := String.length a + String.length b in
  match total with
  | O => 1%Q
  | _ => (Z.of_nat (2 * matches (S (String.length a)) a b)
          # Pos.of_nat total)%Q
  end.

End difflib.

(* ================================================================== *)
(** * intent.py: resolving a label to a builtin field *)

Module intent.

Record ResolvedIntent : Type := {
  kind : string;
  builtin_key : string;
  inferred_type : string;
  anchors : list string;
  match_strategy : string;
  confidence : Q
}.

(** The scores are kept as exact quotients; 0.84 is 21/25. *)
Definition FUZZY_THRESHOLD : Q := (84 # 100)%Q.

Definition Qltb (x y : Q) : bool := negb (Qle_bool y x).

(** A dict with text keys, in insertion order: [d[k] = v] *)
Fixpoint dict_set {A : Type} (d : list (string * A)) (k : string) (v : A)
  : list (string * A) :=
  match d with
  | [] => [(k, v)]
  | (k', v') :: rest =>
      if String.eqb k k' then (k', v) :: rest
      else (k', v') :: dict_set rest k v
  end.

(** [d[k]] when [k in d] *)
Fixpoint dict_find {A : Type} (d : list (string * A)) (k : string)
  : option A :=
  match d with
  | [] => None
  | (k', v) :: rest => if String.eqb k k' then Some v else dict_find rest k
  end.

Definition candidate : Type := string * string * string.

Section WithCatalog.

(** [intent_catalog.SYNONYM_MAP] and [intent_catalog.TYPE_BY_BUILTIN]:
    the catalogue is not part of the sources at hand; the items of
    each table in its order. *)
Variable SYNONYM_MAP : list (string * string).
Variable TYPE_BY_BUILTIN : list (string * string).

(** [unicodedata.normalize("NFKD", s)] and
    [unicodedata.combining(ch) != 0] *)
Variable NFKD : string -> string.
Variable combining : ascii -> bool.

(** [SequenceMatcher(None, a, b).ratio()] *)
Variable ratio : string -> string -> Q.

Definition _normalize_label (value : string) : string :=
  let raw := Str.lower (Str.strip value) in
  let normalized := NFKD raw in
  let stripped := Str.filter (fun ch => negb (combining ch)) normalized in
  Str.collapse_ws stripped.

Definition any_in (terms : list string) (normalized : string) : bool :=
  existsb (fun term => Str.contains term normalized) terms.

Definition _infer_type (normalized : string) (builtin_key : string)
  : string :=
  if negb (Str.is_empty builtin_key) then
    match dict_find TYPE_BY_BUILTIN builtin_key with
    | Some t => t
    | None => "text"
    end
  else if Str.contains "cnpj" normalized then "cnpj"
  else if Str.contains "cpf" normalized then "cpf"
  else if Str.contains "barra" normalized
          || Str.contains "linha" normalized
          || Str.contains "barcode" normalized then "barcode"
  else if Str.contains "vencimento" normalized
          || Str.contains "data" normalized then "date"
  else if any_in ["valor"; "total"; "juros"; "multa"; "preco"] normalized
       then "money"
  else if Str.contains "cep" normalized then "postal"
  else if any_in ["endereco"; "logradouro"; "rua"; "avenida"] normalized
       then "address"
  else if any_in ["numero"; "n "; "no "; "matricula"; "cliente"] normalized
       then "id"
  else "text".

Definition _build_builtin_candidates
           (builtin_fields : list (string * string)) : list candidate :=
  flat_map
    (fun field =>
       let key := fst field in
       let label := snd field in
       let key_norm := _normalize_label key in
       let label_norm := _normalize_label label in
       (if negb (Str.is_empty key_norm)
        then [(key_norm, key, "exact")] else [])
       ++ (if negb (Str.is_empty label_norm)
           then [(label_norm, key, "label")] else []))
    builtin_fields
  ++ map (fun entry =>
            (_normalize_label (fst entry), snd entry, "synonym"))
         SYNONYM_MAP.

(** The first label of the field with this key, [""] when there is
    none. *)
Fixpoint builtin_label_of (builtin_key : string)
         (builtin_fields : list (string * string)) : string :=
  match builtin_fields with
  | [] => ""
  | (key, field_label) :: rest =>
      if String.eqb key builtin_key then field_label
      else builtin_label_of builtin_key rest
  end.

(** The last loop of [_build_anchors]. *)
Fixpoint unique_anchors (anchors : list string) (seen : list string)
  : list string :=
  match anchors with
  | [] => []
  | anchor :: rest =>
      let norm := _normalize_label anchor in
      if Str.is_empty norm || Str.mem norm seen
      then unique_anchors rest seen
      else anchor :: unique_anchors rest (norm :: seen)
  end.

Definition _build_anchors (label builtin_key : string)
           (builtin_fields : list (string * string)) : list string :=
  let label_value := Str.strip label in
  let builtin_label := builtin_label_of builtin_key builtin_fields in
  let anchors :=
    (if negb (Str.is_empty label_value) then [label_value] else [])
    ++ (if negb (Str.is_empty builtin_label) then [builtin_label] else [])
    ++ map fst (filter (fun entry => String.eqb (snd entry) builtin_key)
                       SYNONYM_MAP) in
  unique_anchors anchors [].

Definition resolve_intent_with_llm (label : string)
  : option ResolvedIntent := None.

(** The dict comprehension of [resolve_intent]: the candidates are
    stored one after the other under their normalised text. *)
Definition exact_lookup_of (candidates : list candidate)
  : list (string * (string * string)) :=
  fold_left (fun d (c : candidate) =>
               dict_set d (fst (fst c)) (snd (fst c), snd c))
            candidates [].

(** One turn of the fuzzy loop on the state
    [(best_key, best_score, best_strategy)]. *)
Definition fuzzy_step (normalized : string) (best : string * Q * string)
           (c : candidate) : string * Q * string :=
  let score := ratio normalized (fst (fst c)) in
  if Qltb (snd (fst best)) score
  then (snd (fst c), score, snd c)
  else best.

Definition fuzzy_best (normalized : string) (candidates : list candidate)
  : string * Q * string :=
  fold_left (fuzzy_step normalized) candidates ("", 0%Q, "").

Definition custom_intent (label normalized : string) : ResolvedIntent :=
  {| kind := "custom";
     builtin_key := "";
     inferred_type := _infer_type normalized "";
     anchors := if negb (Str.is_empty (Str.strip label))
                then [Str.strip label] else [];
     match_strategy := "custom";
     confidence := 0%Q |}.

Definition resolve_intent (label : string)
           (builtin_fields : list (string * string)) (allow_llm : bool)
  : ResolvedIntent :=
  let normalized := _normalize_label label in
  if Str.is_empty normalized then
    {| kind := "custom"; builtin_key := ""; inferred_type := "text";
       anchors := []; match_strategy := "empty"; confidence := 0%Q |}
  else
    let candidates := _build_builtin_candidates builtin_fields in
    let exact_lookup := exact_lookup_of candidates in
    match dict_find exact_lookup normalized with
    | Some (key, strategy) =>
        {| kind := "builtin";
           builtin_key := key;
           inferred_type := _infer_type normalized key;
           anchors := _build_anchors label key builtin_fields;
           match_strategy := strategy;
           confidence := 1%Q |}
    | None =>
        let '(best_key, best_score, best_strategy) :=
          fuzzy_best normalized candidates in
        if negb (Str.is_empty best_key)
           && Qle_bool FUZZY_THRESHOLD best_score
        then
          {| kind := "builtin";
             builtin_key := best_key;
             inferred_type := _infer_type normalized best_key;
             anchors := _build_anchors label best_key builtin_fields;
             match_strategy := "fuzzy";
             confidence := best_score |}
        else
          match (if allow_llm then resolve_intent_with_llm label
                 else None) with
          | Some llm_result => llm_result
          | None => custom_intent label normalized
          end
    end.

End WithCatalog.

End intent.

(* ================================================================== *)
(** * processing.py: the decimal money parser of the field applier *)

Module processing.
Import Py.

(** A [decimal.Decimal]: sign, coefficient and exponent, or one of the
    special values. *)
Inductive Decimal : Type :=
| DFinite (sign : bool) (coefficient : Z) (exponent : Z)
| DInfinity (sign : bool)
| DNaN (sign : bool) (signaling : bool) (payload : Z).

(** The default context of the decimal module. *)
Definition context_prec : Z := 28.
Definition context_Emax : Z := 999999.

Definition num_digits (c : Z) : Z := Z.of_nat (String.length (uint_repr c)).

(** [Decimal(s)]: [None] stands for [InvalidOperation]. *)
Definition Decimal_of_str (s : string) : option Decimal :=
  let t := Str.filter (fun c => negb (Ascii.eqb c "_")) (Str.strip s) in
  let (neg, body) := split_sign t in
  let low := Str.lower body in
  if String.eqb low "inf" || String.eqb low "infinity"
  then Some (DInfinity neg)
  else if Str.startswith "nan" low && all_digits (difflib.drop 3 low)
  then Some (DNaN neg false (digits_val 0 (difflib.drop 3 low)))
  else if Str.startswith "snan" low && all_digits (difflib.drop 4 low)
  then Some (DNaN neg true (digits_val 0 (difflib.drop 4 low)))
  else match parse_decimal_literal body with
       | Some (m, e10) => Some (DFinite neg m e10)
       | None => None
       end.

(** Round half to even of [c / 10^k]. *)
Definition round_half_even (c : Z) (k : Z) : Z :=
  let p := (10 ^ k)%Z in
  let q := (c / p)%Z in
  let r := (c mod p)%Z in
  match (2 * r ?= p)%Z with
  | Lt => q
  | Gt => (q + 1)%Z
  | Eq => if Z.even q then q else (q + 1)%Z
  end.

(** [d.quantize(Decimal("0.01"))] in the default context (28 digits,
    round half even): [None] stands for [InvalidOperation]. *)
Definition quantize_cents (d : Decimal) : option Decimal :=
  match d with
  | DNaN s false payload =>
      Some (DNaN s false (payload mod 10 ^ context_prec)%Z)
  | DNaN _ true _ => None
  | DInfinity _ => None
  | DFinite s c e =>
      if (c =? 0)%Z then Some (DFinite s 0 (-2))
      else
        let adjusted := (e + num_digits c - 1)%Z in
        if (context_Emax <? adjusted)%Z then None
        else if (context_prec <? adjusted + 2 + 1)%Z then None
        else
          let c' := if (-2 <=? e)%Z then (c * 10 ^ (e + 2))%Z
                    else round_half_even c (-2 - e) in
          if (context_prec <? num_digits c')%Z then None
          else Some (DFinite s c' (-2))
  end.

(** [_NON_DIGIT_RE.sub("", str(value))] and the rest of
    [_normalize_digits]. *)
Definition _normalize_digits (value : value) (max_len exact_len : option nat)
  : string :=
  match value with
  | VNone => ""
  | _ =>
      let digits := Str.filter is_digit (py_str value) in
      if Str.is_empty digits then ""
      else if match exact_len with
              | Some n => negb (String.length digits =? n)
              | None => false
              end
      then ""
      else if match max_len with
              | Some m => m <? String.length digits
              | None => false
              end
      then match max_len with
           | Some m => Str.take m digits
           | None => digits
           end
      else digits
  end.

Definition _clean_text (value : value) (max_len : option nat) : string :=
  match value with
  | VNone => ""
  | _ =>
      let text := Str.strip (Str.join " " (Str.split (py_str value))) in
      match max_len with
      | Some m => if m <? String.length text then Str.take m text else text
      | None => text
      end
  end.

(** What [_parse_decimal] is handed: a [Decimal] or any other
    object. *)
Inductive field_value : Type :=
| IsDecimal (d : Decimal)
| IsObject (v : value).

(** [Decimal(raw).quantize(Decimal("0.01"))] under
    [except InvalidOperation: return None] *)
Definition quantized (raw : string) : option Decimal :=
  match Decimal_of_str raw with
  | Some d => quantize_cents d
  | None => None
  end.

Definition _parse_decimal (value : field_value) : result (option Decimal) :=
  match value with
  | IsObject VNone => Ok None
  | IsObject (VStr "") => Ok None
  | IsDecimal d => Ok (Some d)
  | IsObject (VBool _ as v) | IsObject (VInt _ as v)
  | IsObject (VFloat _ as v) =>
      text <- str v ;;
      Ok (quantized text)
  | IsObject v =>
      text <- str v ;;
      let raw := Str.strip text in
      if Str.is_empty raw then Ok None
      else
        let raw :=
          if Str.has_char "," raw && Str.has_char "." raw
          then Str.replace_char "," "." (Str.replace_char "." "" raw)
          else if Str.has_char "," raw && negb (Str.has_char "." raw)
          then Str.replace_char "," "." raw
          else raw in
        Ok (quantized raw)
  end.

(** A decimal with exactly two decimal places. *)
Definition two_places (d : Decimal) : Prop :=
  match d with
  | DFinite _ _ e => e = (-2)%Z
  | _ => False
  end.

Definition is_nan (d : Decimal) : Prop :=
  match d with
  | DNaN _ _ _ => True
  | _ => False
  end.

End processing.
(* ================================================================== *)
(** * Notions used to state the properties *)

Module Tidy.

(** No white space in [s]. *)
Fixpoint no_space (s : string) : bool :=
  match s with
  | "" => true
  | String c r => negb (Str.is_space c) && no_space r
  end.

(** A word: not empty, no white space. *)
Definition wordy (w : string) : Prop :=
  w <> "" /\ no_space w = true.

(** Every white space of [s] is one SPACE that follows a character of a
    word; [b] tells whether the character before [s] is one. *)
Fixpoint loose (b : bool) (s : string) : bool :=
  match s with
  | "" => true
  | String c r =>
      if Str.is_space c
      then b && Ascii.eqb c Str.space && loose false r
      else loose true r
  end.

(** Words separated by single spaces, nothing around them: what
    [" ".join(s.split())] returns. *)
Definition tidy (s : string) : Prop :=
  loose false s = true /\ Str.rstrip s = s.

End Tidy.

(** A float that lies between 0 and 1. *)
Definition in_unit (f : spec_float) : Prop :=
  SFleb Py.float_zero f = true /\ SFleb f Py.float_one = true.


(** What the loops over skills, education and keywords_evidence keep of
    the items they are given: the entries that normalise, in order. *)
Definition kept (normalize : Py.value -> option Py.dict)
           (items : list Py.value) : list Py.value :=
  flat_map (fun item => match normalize item with
                        | Some d => [Py.VDict d]
                        | None => []
                        end) items.

(** An entry of a cleaned list: tidy, not empty, within [max_len]. *)
Definition clean_entry (max_len : nat) (s : string) : Prop :=
  Tidy.tidy s /\ s <> "" /\ String.length s <= max_len.

(** [path] followed from [v] through nested dicts. *)
Definition get_path (v : Py.value) (path : list string) : Py.value :=
  fold_left (fun d k => Py.dict_get (ai_extraction.as_dict d) k) path v.

(** The length of a list value. *)
Definition list_len (v : Py.value) : nat :=
  List.length (ai_extraction.as_list v).

(** The dict [normalize_ai_payload] returns for the payload dict [p] once
    the age, the years of experience and the confidence are converted. *)
Definition normalized_dict (p : Py.dict) (age years : option Z)
           (overall : spec_float) : Py.value :=
  let person_raw := ai_extraction.as_dict (Py.dict_get p "person") in
  let exp_raw := ai_extraction.as_dict (Py.dict_get p "experience") in
  Py.VDict
    [("doc_type",
      Py.VStr (ai_extraction.choice ai_extraction.DOC_TYPE_CHOICES "outro"
                 (Py.dict_get p "doc_type") 40));
     ("person", Py.VDict
        [("name",
          ai_extraction.opt_str
            (ai_extraction._clean_optional_text
               (Py.dict_get person_raw "name") 160));
         ("emails",
          Py.VList (map Py.VStr
            (ai_extraction._clean_list (Py.dict_get person_raw "emails") 10 120)));
         ("phones",
          Py.VList (map Py.VStr
            (ai_extraction._clean_list (Py.dict_get person_raw "phones") 10 32)));
         ("location",
          ai_extraction.opt_str
            (ai_extraction._clean_optional_text
               (Py.dict_get person_raw "location") 160));
         ("age_estimate_years", ai_extraction.opt_int age);
         ("age_evidence",
          ai_extraction.opt_str
            (ai_extraction._clean_optional_text
               (Py.dict_get person_raw "age_evidence") 220))]);
     ("experience", Py.VDict
        [("years_estimate", ai_extraction.opt_int years);
         ("years_evidence",
          ai_extraction.opt_str
            (ai_extraction._clean_optional_text
               (Py.dict_get exp_raw "years_evidence") 220));
         ("seniority",
          Py.VStr (ai_extraction.choice ai_extraction.SENIORITY_CHOICES
                     "unknown" (Py.dict_get exp_raw "seniority") 20));
         ("roles",
          Py.VList (map Py.VStr
            (ai_extraction._clean_list (Py.dict_get exp_raw "roles") 20 120)));
         ("companies",
          Py.VList (map Py.VStr
            (ai_extraction._clean_list
               (Py.dict_get exp_raw "companies") 20 120)))]);
     ("skills",
      Py.VList (ai_extraction.collect ai_extraction._normalize_skill 30
                  (ai_extraction.as_list (Py.dict_get p "skills")) []));
     ("education",
      Py.VList (ai_extraction.collect ai_extraction._normalize_education 20
                  (ai_extraction.as_list (Py.dict_get p "education")) []));
     ("keywords_evidence",
      Py.VList (ai_extraction.collect
                  ai_extraction._normalize_keyword_evidence 40
                  (ai_extraction.as_list
                     (Py.dict_get p "keywords_evidence")) []));
     ("confidence", Py.VDict [("overall", Py.VFloat overall)])].

(** One bound of the range filter, for a resolved value: no bound always
    passes; an unknown value passes unless unknowns are excluded; a known
    value passes when [ok value bound]. *)
Definition bound_passes (ok : Z -> Z -> bool) (value bound : option Z)
           (exclude_unknowns : bool) : bool :=
  match bound with
  | None => true
  | Some b =>
      match value with
      | None => negb exclude_unknowns
      | Some v => ok v b
      end
  end.

(** [value >= bound] and [value <= bound] *)
Definition at_least (v b : Z) : bool := (b <=? v)%Z.
Definition at_most (v b : Z) : bool := (v <=? b)%Z.

(** The copy of [_normalize_for_match] that migration 0010 carries, over
    the two functions of unicodedata it calls. *)
Definition migration_normalize_for_match (NFKD : string -> string)
           (combining : ascii -> bool) (value : string) : string :=
  let normalized := NFKD value in
  let stripped := Str.filter (fun ch => negb (combining ch)) normalized in
  Str.lower (Str.strip (Str.collapse_ws stripped)).

(** ** Notions for the money parser *)

(** The text [_parse_decimal] hands to [Decimal] for an object that
    [str] prints; [None] where it returns before. *)
Definition decimal_operand (v : Py.value) : option string :=
  match v with
  | Py.VNone => None
  | Py.VStr "" => None
  | Py.VBool _ | Py.VInt _ | Py.VFloat _ => Some (Py.py_str v)
  | _ =>
      let raw := Str.strip (Py.py_str v) in
      if Str.is_empty raw then None
      else if Str.has_char "," raw && Str.has_char "." raw
      then Some (Str.replace_char "," "." (Str.replace_char "." "" raw))
      else if Str.has_char "," raw && negb (Str.has_char "." raw)
      then Some (Str.replace_char "," "." raw)
      else Some raw
  end.

(** The object reads as a quiet NaN: ["nan"], ["-NaN123"], the float
    NaN. *)
Definition reads_as_nan (v : Py.value) : bool :=
  match decimal_operand v with
  | Some raw =>
      match processing.Decimal_of_str raw with
      | Some (processing.DNaN _ false _) => true
      | _ => false
      end
  | None => false
  end.

(** ** Notions for the intent resolver *)

(** The key and the strategy of the first candidate whose normalised text
    is [normalized], in the order the candidates were generated. *)
Definition first_match (normalized : string) (candidates : list intent.candidate)
  : option (string * string) :=
  option_map (fun c : intent.candidate => (snd (fst c), snd c))
             (find (fun c : intent.candidate => String.eqb (fst (fst c)) normalized)
                   candidates).

(** The same for the last such candidate. *)
Definition last_match (normalized : string) (candidates : list intent.candidate)
  : option (string * string) :=
  first_match normalized (rev candidates).

(** The greater of two scores, the first one when they are equal. *)
Definition qmax (a b : Q) : Q := if intent.Qltb a b then b else a.

(** The best similarity between [normalized] and the candidates: the
    greatest ratio, 0 when there is no candidate (a ratio is never
    negative). *)
Definition best_ratio (ratio : string -> string -> Q) (normalized : string)
           (candidates : list intent.candidate) : Q :=
  fold_left (fun best (c : intent.candidate) =>
               qmax best (ratio normalized (fst (fst c))))
            candidates 0%Q.

(** The candidate the fuzzy loop ends on: the first one whose ratio is
    the best one, when that is above 0. *)
Definition best_candidate (ratio : string -> string -> Q) (normalized : string)
           (candidates : list intent.candidate) : option intent.candidate :=
  let best := best_ratio ratio normalized candidates in
  if Qle_bool best 0 then None
  else find (fun c : intent.candidate =>
               Qle_bool best (ratio normalized (fst (fst c))))
            candidates.

(** Its builtin key, [""] when there is none. *)
Definition best_key (ratio : string -> string -> Q) (normalized : string)
           (candidates : list intent.candidate) : string :=
  match best_candidate ratio normalized candidates with
  | Some c => snd (fst c)
  | None => ""
  end.

(* ================================================================== *)
(** * Sample inputs *)

Module Samples.
Import Py.

(** [{"confidence": {"overall": "nan"}}] *)
Definition payload_nan_confidence : value :=
  VDict [("confidence", VDict [("overall", VStr "nan")])].

(** [{"confidence": {"overall": 10**400}}] *)
Definition payload_huge_confidence : value :=
  VDict [("confidence", VDict [("overall", VInt (10 ^ 400))])].

(** [{"person": {"age_estimate_years": 1e999}}], which [json.loads]
    reads as the float infinity. *)
Definition payload_infinite_age : value :=
  VDict [("person",
          VDict [("age_estimate_years", VFloat (S754_infinity false))])].

(** A payload with untidy texts, a float where an int is asked, a
    duplicate e-mail, a level off the list and a skill without
    evidence. *)
Definition payload_resume : value :=
  VDict
    [("doc_type", VStr " Curriculo ");
     ("person",
      VDict [("name", VStr "  Maria   Silva ");
             ("emails", VList [VStr "a@b.c"; VStr "A@B.C"; VInt 3; VNone]);
             ("age_estimate_years", VStr " 34 ")]);
     ("experience",
      VDict [("years_estimate", VFloat (S754_finite false 13 (-1)));
             ("seniority", VStr "PLENO")]);
     ("skills",
      VList [VDict [("name", VStr "Docker"); ("level", VStr "Expert");
                    ("evidence", VStr "x y")];
             VDict [("name", VStr "K8s"); ("evidence", VStr "  ")];
             VInt 3]);
     ("confidence", VDict [("overall", VStr "0.8")])].

(** What [normalize_ai_payload] makes of [payload_resume]. *)
Definition normalized_resume : value :=
  VDict
    [("doc_type", VStr "curriculo");
     ("person",
      VDict [("name", VStr "Maria Silva");
             ("emails", VList [VStr "a@b.c"; VStr "3"]);
             ("phones", VList []); ("location", VNone);
             ("age_estimate_years", VInt 34); ("age_evidence", VNone)]);
     ("experience",
      VDict [("years_estimate", VInt 6); ("years_evidence", VNone);
             ("seniority", VStr "pleno"); ("roles", VList []);
             ("companies", VList [])]);
     ("skills",
      VList [VDict [("name", VStr "Docker"); ("level", VStr "unknown");
                    ("evidence", VStr "x y")]]);
     ("education", VList []); ("keywords_evidence", VList []);
     ("confidence",
      VDict [("overall",
              VFloat (S754_finite false 7205759403792794 (-53)))])].

(** NFKD leaves a text of ASCII characters as it is, and no code point
    below 256 is a combining mark: the two functions of unicodedata, for
    the ASCII texts of the samples. *)
Definition nfkd_ascii (s : string) : string := s.
Definition combining_latin (c : ascii) : bool := false.

(** [_normalize_for_match] on the texts of the samples: the text of a
    [str], the empty text for [None]. *)
Definition normalize_for_match (v : value) : string :=
  match v with
  | VStr s => migration_normalize_for_match nfkd_ascii combining_latin s
  | _ => ""
  end.

(** The document of [test_range_prefers_ai_experience_over_heuristic_field]. *)
Definition doc_ai6_heuristic1 : ai_filters.doc_or_json :=
  ai_filters.IsObject
    [("extracted_json",
      VDict
        [("ai",
          VDict
            [("doc_type", VStr "curriculo");
             ("person",
              VDict [("name", VNone); ("emails", VList []);
                     ("phones", VList []); ("location", VNone);
                     ("age_estimate_years", VNone);
                     ("age_evidence", VNone)]);
             ("experience",
              VDict [("years_estimate", VInt 6);
                     ("years_evidence", VStr "Trabalhou de 2018 ate atual.");
                     ("seniority", VStr "senior"); ("roles", VList []);
                     ("companies", VList [])]);
             ("skills", VList []); ("education", VList []);
             ("keywords_evidence", VList []);
             ("confidence",
              VDict [("overall",
                      VFloat (S754_finite false 6305039478318694 (-53)))])])]);
     ("text_content", VStr ""); ("text_content_norm", VStr "");
     ("extracted_text", VStr ""); ("extracted_age_years", VNone);
     ("extracted_experience_years", VInt 1)].

(** A document without content: the defaults of the tests' [_doc]. *)
Definition doc_empty : ai_filters.doc_or_json :=
  ai_filters.IsObject
    [("extracted_json", VDict []);
     ("text_content", VStr ""); ("text_content_norm", VStr "");
     ("extracted_text", VStr ""); ("extracted_age_years", VNone);
     ("extracted_experience_years", VNone)].

(** The document of [test_exclude_unknowns_blocks_missing_values]. *)
Definition doc_unknown : ai_filters.doc_or_json :=
  ai_filters.IsObject
    [("extracted_json",
      VDict [("ai", VDict [("person", VDict []); ("experience", VDict [])])]);
     ("text_content", VStr ""); ("text_content_norm", VStr "");
     ("extracted_text", VStr ""); ("extracted_age_years", VNone);
     ("extracted_experience_years", VNone)].

(** A document whose AI payload has the float infinity, which
    [json.loads] reads from [1e999], as years of experience, and whose
    heuristic field has 3 years. *)
Definition doc_infinite_years : ai_filters.doc_or_json :=
  ai_filters.IsObject
    [("extracted_json",
      VDict [("ai",
              VDict [("experience",
                      VDict [("years_estimate",
                              VFloat (S754_infinity false))])])]);
     ("text_content", VStr ""); ("text_content_norm", VStr "");
     ("extracted_text", VStr ""); ("extracted_age_years", VNone);
     ("extracted_experience_years", VInt 3)].

(** A document without content whose AI payload has the float infinity
    as age. *)
Definition doc_infinite_age : ai_filters.doc_or_json :=
  ai_filters.IsObject
    [("extracted_json",
      VDict [("ai",
              VDict [("person",
                      VDict [("age_estimate_years",
                              VFloat (S754_infinity false))])])]);
     ("text_content", VStr ""); ("text_content_norm", VStr "");
     ("extracted_text", VStr ""); ("extracted_age_years", VNone);
     ("extracted_experience_years", VNone)].

(** The tables of [intent_catalog], as migration 0006 carries them. *)
Definition SYNONYM_MAP : list (string * string) :=
  [("codigo de barras", "barcode"); ("linha digitavel", "barcode");
   ("barcode", "barcode"); ("vencimento", "due_date");
   ("data de vencimento", "due_date"); ("data vencimento", "due_date");
   ("valor", "document_value"); ("valor do documento", "document_value");
   ("valor total", "document_value"); ("total a pagar", "document_value");
   ("cnpj", "cnpj"); ("cpf", "cpf"); ("juros", "juros"); ("multa", "multa");
   ("endereco de cobranca", "billing_address");
   ("local de cobranca", "billing_address");
   ("nome do cedente", "payee_name"); ("nome do sacado", "payer_name");
   ("nosso numero", "document_number");
   ("numero do documento", "document_number");
   ("numero da conta", "document_number"); ("instrucoes", "instructions")].

Definition TYPE_BY_BUILTIN : list (string * string) :=
  [("due_date", "date"); ("document_value", "money"); ("barcode", "barcode");
   ("billing_address", "address"); ("cnpj", "cnpj"); ("cpf", "cpf");
   ("payee_name", "text"); ("payer_name", "text"); ("document_number", "id");
   ("instructions", "text"); ("juros", "money"); ("multa", "money")].

(** [resolve_intent] with these tables, the ASCII reading of unicodedata
    and difflib's ratio. *)
Definition resolve_intent_ascii :=
  intent.resolve_intent SYNONYM_MAP TYPE_BY_BUILTIN nfkd_ascii
                        combining_latin difflib.ratio.

Definition normalize_label_ascii :=
  intent._normalize_label nfkd_ascii combining_latin.

Definition candidates_ascii :=
  intent._build_builtin_candidates SYNONYM_MAP nfkd_ascii combining_latin.

(** Two fields with the same label. *)
Definition fields_same_label : list (string * string) :=
  [("payee_name", "Nome"); ("payer_name", "Nome")].

(** A field whose label is 25 characters long. *)
Definition fields_long_label : list (string * string) :=
  [("ref", "abcdefghijklmnopqrstuvwxy")].

(** The same label in a registry whose field has an empty key. *)
Definition fields_empty_key : list (string * string) :=
  [("", "abcdefghijklmnopqrstuvwxy")].

Definition no_bounds : ai_filters.ranges :=
  {| ai_filters.experience_min_years := None;
     ai_filters.experience_max_years := None;
     ai_filters.age_min_years := None;
     ai_filters.age_max_years := None;
     ai_filters.exclude_unknowns := false |}.

Definition experience_min (n : Z) (exclude : bool) : ai_filters.ranges :=
  {| ai_filters.experience_min_years := Some n;
     ai_filters.experience_max_years := None;
     ai_filters.age_min_years := None;
     ai_filters.age_max_years := None;
     ai_filters.exclude_unknowns := exclude |}.

End Samples.
(* ================================================================== *)
(** * Facts about texts *)

Unset Implicit Arguments.

Section StringFacts.
Import Tidy.

Lemma string_ind2 (P : string -> Prop) :
  P "" ->
  (forall a, P (String a "")) ->
  (forall a b r, P r -> P (String b r) -> P (String a (String b r))) ->
  forall s, P s.
Proof.
  intros H0 H1 H2 s.
  assert (H : P s /\ forall a, P (String a s)).
  { induction s as [|b r [IH1 IH2]].
    - split; [exact H0 | exact H1].
    - split; [apply IH2 | intro a; apply H2; [exact IH1 | apply IH2]]. }
  apply H.
Qed.

Lemma is_empty_true (s : string) : Str.is_empty s = true <-> s = "".
Proof. destruct s; simpl; split; congruence. Qed.

Lemma is_empty_false (s : string) : Str.is_empty s = false <-> s <> "".
Proof. destruct s; simpl; split; congruence. Qed.

Lemma space_is_space : Str.is_space Str.space = true.
Proof. reflexivity. Qed.

Lemma rstrip_cons (c : ascii) (r : string) :
  Str.rstrip (String c r)
  = if Str.is_space c && Str.is_empty (Str.rstrip r) then ""
    else String c (Str.rstrip r).
Proof. reflexivity. Qed.

Lemma rstrip_idem (s : string) : Str.rstrip (Str.rstrip s) = Str.rstrip s.
Proof.
  induction s as [|c r IH]; simpl; [reflexivity|].
  destruct (Str.is_space c) eqn:Hc; simpl.
  - destruct (Str.is_empty (Str.rstrip r)) eqn:He; simpl; [reflexivity|].
    rewrite IH, Hc, He. reflexivity.
  - rewrite IH, Hc. reflexivity.
Qed.

Lemma rstrip_length (s : string) :
  String.length (Str.rstrip s) <= String.length s.
Proof.
  induction s as [|c r IH]; simpl; [lia|].
  destruct (Str.is_space c && Str.is_empty (Str.rstrip r)); simpl; lia.
Qed.

Lemma take_length (n : nat) (s : string) :
  String.length (Str.take n s) <= n.
Proof.
  revert s; induction n as [|n IH]; intros [|c r]; simpl; try lia.
  specialize (IH r). lia.
Qed.

Lemma loose_weaken (s : string) :
  loose false s = true -> loose true s = true.
Proof.
  destruct s as [|c r]; simpl; [reflexivity|].
  destruct (Str.is_space c); [discriminate | tauto].
Qed.

Lemma loose_take (n : nat) (s : string) (b : bool) :
  loose b s = true -> loose b (Str.take n s) = true.
Proof.
  revert s b; induction n as [|n IH]; intros [|c r] b; simpl; try reflexivity.
  destruct (Str.is_space c).
  - rewrite !andb_true_iff. intros [[Hb Hc] H].
    rewrite Hb, Hc. simpl. auto.
  - apply IH.
Qed.

Lemma loose_rstrip (s : string) (b : bool) :
  loose b s = true -> loose b (Str.rstrip s) = true.
Proof.
  revert b; induction s as [|c r IH]; intro b; simpl; [reflexivity|].
  destruct (Str.is_space c) eqn:Hc; simpl.
  - rewrite !andb_true_iff. intros [[Hb Hsp] H].
    destruct (Str.is_empty (Str.rstrip r)); simpl; [reflexivity|].
    rewrite Hc, Hb, Hsp. simpl. auto.
  - intro H. rewrite Hc. auto.
Qed.

Lemma loose_false_lstrip (s : string) :
  loose false s = true -> Str.lstrip s = s.
Proof.
  destruct s as [|c r]; simpl; [reflexivity|].
  destruct (Str.is_space c); [discriminate | reflexivity].
Qed.

Lemma tidy_strip (s : string) : tidy s -> Str.strip s = s.
Proof.
  intros [Hl Hr]. unfold Str.strip. rewrite (loose_false_lstrip s Hl). exact Hr.
Qed.

Lemma tidy_rstrip_take (n : nat) (s : string) :
  tidy s -> tidy (Str.rstrip (Str.take n s)).
Proof.
  intros [Hl _]. split.
  - apply loose_rstrip, loose_take, Hl.
  - apply rstrip_idem.
Qed.

(** ** [split] and [join] *)

Lemma join_cons (w : string) (ws : list string) :
  Str.join " " (w :: ws)
  = match ws with
    | [] => w
    | _ => (w ++ " " ++ Str.join " " ws)%string
    end.
Proof. destruct ws; reflexivity. Qed.

Lemma join_cons_char (c : ascii) (w : string) (ws : list string) :
  Str.join " " (String c w :: ws) = String c (Str.join " " (w :: ws)).
Proof. rewrite !join_cons. destruct ws; reflexivity. Qed.

Lemma split_space (c : ascii) (r : string) :
  Str.is_space c = true -> Str.split (String c r) = Str.split r.
Proof. intro H. simpl. rewrite H. reflexivity. Qed.

Lemma split_wordy (s : string) : Forall wordy (Str.split s).
Proof.
  induction s as [|c r IH]; simpl; [constructor|].
  destruct (Str.is_space c) eqn:Hc; [exact IH|].
  assert (Hw : wordy (String c "")).
  { split; [discriminate | simpl; rewrite Hc; reflexivity]. }
  destruct r as [|d r']; [repeat constructor; apply Hw|].
  destruct (Str.is_space d) eqn:Hd; [constructor; [exact Hw | exact IH]|].
  destruct (Str.split (String d r')) as [|w ws]; [repeat constructor; apply Hw|].
  inversion IH as [|? ? [_ Hw1] Hws]; subst.
  constructor; [|exact Hws].
  split; [discriminate | simpl; rewrite Hc, Hw1; reflexivity].
Qed.

Lemma loose_word_app (w r : string) (b : bool) :
  wordy w -> loose b (w ++ r) = loose true r.
Proof.
  intros [Hne Hns]. revert b Hne; induction w as [|c w IH]; intros b Hne;
    [congruence|].
  simpl in Hns. apply andb_true_iff in Hns as [Hc Hns].
  apply negb_true_iff in Hc. simpl. rewrite Hc.
  destruct w as [|d w']; [reflexivity|].
  apply IH; [exact Hns | discriminate].
Qed.

Lemma rstrip_word_app (w r : string) :
  no_space w = true -> Str.rstrip (w ++ r) = (w ++ Str.rstrip r)%string.
Proof.
  induction w as [|c w IH]; simpl; [reflexivity|].
  intro H. apply andb_true_iff in H as [Hc Hns].
  apply negb_true_iff in Hc. rewrite Hc, (IH Hns). reflexivity.
Qed.

Lemma app_empty_r (s : string) : (s ++ "")%string = s.
Proof. induction s; simpl; congruence. Qed.

Lemma join_words_tidy (ws : list string) :
  Forall wordy ws -> tidy (Str.join " " ws) /\ (ws <> [] -> Str.join " " ws <> "").
Proof.
  induction 1 as [|w ws Hw Hws [[IHl IHr] IHne]].
  - repeat split; try reflexivity. congruence.
  - rewrite join_cons. destruct ws as [|w' ws'].
    + destruct Hw as [Hne Hns]. repeat split.
      * rewrite <- (app_empty_r w), (loose_word_app w "" false (conj Hne Hns)).
        reflexivity.
      * rewrite <- (app_empty_r w) at 1. rewrite (rstrip_word_app w "" Hns).
        simpl. apply app_empty_r.
      * intros _. exact Hne.
    + assert (Hj : Str.join " " (w' :: ws') <> "") by (apply IHne; discriminate).
      repeat split.
      * rewrite (loose_word_app w _ false Hw). simpl. exact IHl.
      * rewrite (rstrip_word_app w _ (proj2 Hw)). f_equal.
        set (j := Str.join " " (w' :: ws')) in *.
        change (" " ++ j)%string with (String Str.space j).
        rewrite rstrip_cons, IHr, space_is_space.
        apply is_empty_false in Hj. rewrite Hj. reflexivity.
      * intros _. destruct Hw as [Hne _]. destruct w; [congruence | discriminate].
Qed.

Lemma collapse_tidy (s : string) : tidy (Str.join " " (Str.split s)).
Proof. apply join_words_tidy, split_wordy. Qed.

Lemma split_nonempty (c : ascii) (r : string) :
  Str.is_space c = false -> Str.split (String c r) <> [].
Proof.
  intro Hc. simpl. rewrite Hc.
  destruct r as [|d r']; [discriminate|].
  destruct (Str.is_space d); [discriminate|].
  destruct (Str.split (String d r')); discriminate.
Qed.

(** A tidy text is left as it is by [" ".join(s.split())]. *)
Lemma join_split_tidy (s : string) :
  tidy s -> Str.join " " (Str.split s) = s.
Proof.
  unfold tidy. induction s as [| a | a b r IHr IHbr] using string_ind2.
  - reflexivity.
  - simpl. intros [Hl _]. destruct (Str.is_space a); [discriminate | reflexivity].
  - intros [Hl Hr].
    assert (Ha : Str.is_space a = false).
    { simpl in Hl. destruct (Str.is_space a); [discriminate | reflexivity]. }
    assert (Hl' : loose true (String b r) = true).
    { simpl in Hl. rewrite Ha in Hl. exact Hl. }
    assert (Hr' : Str.rstrip (String b r) = String b r).
    { change (Str.rstrip (String a (String b r)))
        with (if Str.is_space a && Str.is_empty (Str.rstrip (String b r))
              then "" else String a (Str.rstrip (String b r))) in Hr.
      rewrite Ha in Hr. simpl andb in Hr. congruence. }
    destruct (Str.is_space b) eqn:Hb.
    + (* a word ends at [a] *)
      assert (Hbs : b = Str.space /\ loose false r = true).
      { simpl in Hl'. rewrite Hb in Hl'. simpl in Hl'.
        apply andb_true_iff in Hl' as [H1 H2].
        apply Ascii.eqb_eq in H1. auto. }
      destruct Hbs as [-> Hlr].
      assert (Hrr : Str.rstrip r = r /\ r <> "").
      { simpl in Hr'. destruct (Str.is_empty (Str.rstrip r)) eqn:He;
          [discriminate|].
        apply is_empty_false in He. split; congruence. }
      destruct Hrr as [Hrr Hne].
      change (Str.split (String a (String Str.space r)))
        with (if Str.is_space a then Str.split (String Str.space r)
              else if Str.is_space Str.space
                   then String a "" :: Str.split (String Str.space r)
                   else match Str.split (String Str.space r) with
                        | w :: ws => String a w :: ws
                        | [] => [String a ""]
                        end).
      rewrite Ha, space_is_space, (split_space Str.space r space_is_space).
      rewrite join_cons.
      destruct r as [|d r']; [congruence|].
      assert (Hd : Str.is_space d = false).
      { simpl in Hlr. destruct (Str.is_space d); [discriminate | reflexivity]. }
      pose proof (split_nonempty d r' Hd) as Hsp.
      specialize (IHr (conj Hlr Hrr)).
      destruct (Str.split (String d r')); [congruence|].
      rewrite IHr. reflexivity.
    + (* the word goes on *)
      assert (IH : Str.join " " (Str.split (String b r)) = String b r).
      { apply IHbr. split; [|exact Hr'].
        simpl. rewrite Hb. simpl in Hl'. rewrite Hb in Hl'. exact Hl'. }
      pose proof (split_nonempty b r Hb) as Hsp.
      change (Str.split (String a (String b r)))
        with (if Str.is_space a then Str.split (String b r)
              else if Str.is_space b
                   then String a "" :: Str.split (String b r)
                   else match Str.split (String b r) with
                        | w :: ws => String a w :: ws
                        | [] => [String a ""]
                        end).
      rewrite Ha, Hb.
      destruct (Str.split (String b r)) as [|w ws]; [congruence|].
      rewrite join_cons_char, IH. reflexivity.
Qed.

End StringFacts.

(* ================================================================== *)
(** * Facts about the cleaners of ai_extraction.py *)

Arguments Py.float_repr : simpl never.
Arguments Py.py_repr : simpl never.
Arguments Py.int_of_str : simpl never.
Arguments Py.float_of_str : simpl never.
Arguments Py.float_of_int : simpl never.

Section CleanerFacts.
Import Py Tidy ai_extraction.

Lemma clean_text_tidy (v : value) (n : nat) : tidy (_clean_text v n).
Proof.
  unfold _clean_text.
  assert (H : tidy (Str.strip (Str.join " " (Str.split (py_str v))))).
  { rewrite (tidy_strip _ (collapse_tidy _)). apply collapse_tidy. }
  destruct v; try (split; reflexivity);
    (destruct (negb (n =? 0) && (n <? String.length _));
     [apply tidy_rstrip_take, H | exact H]).
Qed.

Lemma clean_text_length (v : value) (n : nat) :
  n <> 0 -> String.length (_clean_text v n) <= n.
Proof.
  intro Hn. unfold _clean_text.
  assert (H : forall s, String.length
              (if negb (n =? 0) && (n <? String.length s)
               then Str.rstrip (Str.take n s) else s) <= n).
  { intro s. destruct (n =? 0) eqn:H0; [apply Nat.eqb_eq in H0; lia|].
    simpl. destruct (n <? String.length s) eqn:Hlt.
    - pose proof (rstrip_length (Str.take n s)).
      pose proof (take_length n s). lia.
    - apply Nat.ltb_ge in Hlt. exact Hlt. }
  destruct v; [simpl; lia | apply H ..].
Qed.

(** A tidy text that fits is a fixed point of [_clean_text]. *)
Lemma clean_text_fixed (s : string) (n : nat) :
  tidy s -> n = 0 \/ String.length s <= n -> _clean_text (VStr s) n = s.
Proof.
  intros Ht Hn. unfold _clean_text. simpl py_str.
  rewrite (join_split_tidy s Ht), (tidy_strip s Ht).
  destruct Hn as [-> | Hn]; [reflexivity|].
  apply Nat.ltb_ge in Hn. rewrite Hn, andb_false_r. reflexivity.
Qed.



(** ** [_clean_int] *)

Lemma clean_int_bounds (v : value) (lo hi z : Z) :
  _clean_int v lo hi = Ok (Some z) -> (lo <= z <= hi)%Z.
Proof.
  unfold _clean_int.
  assert (H : forall r : result Z,
             match r with
             | Ok parsed =>
                 if (parsed <? lo)%Z || (hi <? parsed)%Z
                 then Ok None else Ok (Some parsed)
             | Raise TypeError | Raise ValueError => Ok None
             | Raise e => Raise e
             end = Ok (Some z) -> (lo <= z <= hi)%Z).
  { intros [p|[]]; try discriminate.
    destruct (p <? lo)%Z eqn:H1; [discriminate|].
    destruct (hi <? p)%Z eqn:H2; [discriminate|].
    simpl. intro E. inversion E; subst. apply Z.ltb_ge in H1, H2. lia. }
  destruct v; try discriminate; apply H.
Qed.

Lemma clean_int_raises (v : value) (lo hi : Z) (e : exn) :
  _clean_int v lo hi = Raise e ->
  e = OverflowError /\ exists s, v = VFloat (S754_infinity s).
Proof.
  unfold _clean_int. destruct v as [|b|z|f|s|xs|d]; simpl; try discriminate.
  - destruct (_ || _); discriminate.
  - destruct (_ || _); discriminate.
  - destruct f as [s|s| |s m ex]; simpl; try discriminate.
    + destruct (_ || _); discriminate.
    + intro E. inversion E. split; [reflexivity | exists s; reflexivity].
    + destruct (_ || _); discriminate.
  - destruct (int_of_str s); [destruct (_ || _)|]; discriminate.
Qed.


(** ** [_clean_float] *)

Lemma SFcompare_swap (a b : spec_float) :
  SFcompare b a = option_map CompOpp (SFcompare a b).
Proof.
  destruct a as [sa|sa| |sa ma ea], b as [sb|sb| |sb mb eb]; simpl;
    try reflexivity; try (destruct sa; reflexivity);
    try (destruct sb; reflexivity);
    try (destruct sa, sb; reflexivity).
  destruct sa, sb; try reflexivity;
    rewrite (Z.compare_antisym ea eb); destruct (ea ?= eb)%Z; simpl;
    try reflexivity;
    rewrite (Pos.compare_cont_antisym ma mb Eq); reflexivity.
Qed.

Lemma SFltb_false_SFleb (a b : spec_float) :
  a <> S754_nan -> b <> S754_nan -> SFltb a b = false -> SFleb b a = true.
Proof.
  intros Ha Hb. unfold SFltb, SFleb. rewrite (SFcompare_swap a b).
  destruct (SFcompare a b) as [[]|] eqn:C; simpl; try congruence.
  destruct a, b; simpl in C; congruence.
Qed.

(** The result of [_clean_float] lies between 0 and 1, unless it is
    NaN. *)
Lemma clean_float_range (v : value) (f : spec_float) :
  _clean_float v = Ok f ->
  f = S754_nan \/ in_unit f.
Proof.
  unfold _clean_float, in_unit.
  assert (Hz : SFleb float_zero float_zero = true
               /\ SFleb float_zero float_one = true) by (split; reflexivity).
  assert (Ho : SFleb float_zero float_one = true
               /\ SFleb float_one float_one = true) by (split; reflexivity).
  destruct (py_float v) as [p|[]]; try discriminate;
    try (intro E; inversion E; subst; right; exact Hz).
  destruct (SFltb p float_zero) eqn:H1;
    [intro E; inversion E; subst; right; exact Hz|].
  destruct (SFltb float_one p) eqn:H2;
    [intro E; inversion E; subst; right; exact Ho|].
  intro E; inversion E; subst.
  destruct f as [s|s| |s m e]; [right|right|left; reflexivity|right];
    (split; apply SFltb_false_SFleb; try discriminate; assumption).
Qed.


Lemma clean_float_raises (v : value) (e : exn) :
  _clean_float v = Raise e ->
  e = OverflowError
  /\ exists z, v = VInt z /\ float_of_int z = Raise OverflowError.
Proof.
  assert (H : forall p : spec_float,
             (if SFltb p float_zero then Ok float_zero
              else if SFltb float_one p then Ok float_one else Ok p)
             <> Raise e).
  { intro p. destruct (SFltb p float_zero); [|destruct (SFltb float_one p)];
      discriminate. }
  unfold _clean_float.
  destruct v as [|b|z|f|s|xs|d]; cbn [py_float]; try discriminate.
  - intro E. destruct (H _ E).
  - destruct (float_of_int z) as [p|[]] eqn:Hz; try discriminate.
    + intro E. destruct (H _ E).
    + intro E; inversion E. split; [reflexivity|]. exists z. auto.
  - intro E. destruct (H _ E).
  - destruct (float_of_str s) as [p|]; [|discriminate].
    intro E. destruct (H _ E).
Qed.

End CleanerFacts.

(* ================================================================== *)
(** * Facts about the loops of ai_extraction.py *)

Arguments ai_extraction._clean_text : simpl never.

Section LoopFacts.
Import Py Tidy ai_extraction.

Lemma mem_In (x : string) (l : list string) :
  Str.mem x l = true <-> In x l.
Proof.
  induction l as [|y l IH]; simpl; [split; [discriminate | tauto]|].
  rewrite orb_true_iff, IH, String.eqb_eq. split; intros [H|H]; auto.
Qed.

Lemma mem_false (x : string) (l : list string) :
  ~ In x l -> Str.mem x l = false.
Proof.
  intro H. destruct (Str.mem x l) eqn:E; [|reflexivity].
  apply mem_In in E. contradiction.
Qed.

Lemma clean_text_entry (v : value) (n : nat) :
  n <> 0 -> Str.is_empty (_clean_text v n) = false ->
  clean_entry n (_clean_text v n).
Proof.
  intros Hn He. repeat split.
  - apply clean_text_tidy.
  - apply clean_text_tidy.
  - apply is_empty_false, He.
  - apply clean_text_length, Hn.
Qed.

Lemma clean_entry_fixed (n : nat) (s : string) :
  clean_entry n s -> _clean_text (VStr s) n = s.
Proof. intros [Ht [_ Hl]]. apply clean_text_fixed; auto. Qed.

Section CleanList.
Variables max_items max_len : nat.
Hypothesis max_len_pos : max_len <> 0.

(** What the loop of [_clean_list] keeps true of its accumulators,
    and so of its result. *)
Lemma clean_list_loop_inv (xs : list value) :
  forall cleaned seen,
    Forall (clean_entry max_len) cleaned ->
    NoDup (map Str.lower cleaned) ->
    (forall x, Str.mem x seen = true <-> In x (map Str.lower cleaned)) ->
    List.length cleaned < max_items ->
    let out := _clean_list_loop max_items max_len xs cleaned seen in
    Forall (clean_entry max_len) out
    /\ NoDup (map Str.lower out)
    /\ List.length out <= max_items.
Proof.
  induction xs as [|raw rest IH]; intros cleaned seen Hc Hn Hs Hl; simpl.
  - repeat split; auto; lia.
  - destruct (Str.is_empty (_clean_text raw max_len)) eqn:He;
      [apply IH; assumption|].
    destruct (Str.mem (Str.lower (_clean_text raw max_len)) seen) eqn:Hm;
      [apply IH; assumption|].
    set (text := _clean_text raw max_len) in *.
    assert (Hc' : Forall (clean_entry max_len) (cleaned ++ [text])).
    { apply Forall_app. split; [exact Hc|].
      constructor; [|constructor].
      apply clean_text_entry; assumption. }
    assert (Hn' : NoDup (map Str.lower (cleaned ++ [text]))).
    { rewrite map_app. simpl.
      apply NoDup_app_remove_r with (l' := []) in Hn || idtac.
      apply (NoDup_Add (a := Str.lower text) (l := map Str.lower cleaned)).
      - rewrite <- (app_nil_r (map Str.lower cleaned)) at 1.
        apply Add_app.
      - split; [exact Hn|].
        intro Hin. apply Hs in Hin. congruence. }
    assert (Hlen : List.length (cleaned ++ [text]) = S (List.length cleaned)).
    { rewrite length_app. simpl. lia. }
    destruct (max_items <=? List.length (cleaned ++ [text])) eqn:Hcap.
    + repeat split; auto. lia.
    + apply Nat.leb_gt in Hcap. apply IH; auto.
      intro x. simpl. rewrite orb_true_iff, String.eqb_eq, Hs.
      rewrite map_app, in_app_iff. simpl. intuition congruence.
Qed.

(** A list of clean entries whose lower-case forms differ and that is
    within the cap goes through the loop unchanged. *)
Lemma clean_list_loop_fixed (ys : list string) :
  forall cleaned seen,
    Forall (clean_entry max_len) ys ->
    NoDup (map Str.lower (cleaned ++ ys)) ->
    (forall x, Str.mem x seen = true <-> In x (map Str.lower cleaned)) ->
    List.length (cleaned ++ ys) <= max_items ->
    _clean_list_loop max_items max_len (map VStr ys) cleaned seen
    = cleaned ++ ys.
Proof.
  induction ys as [|y ys IH]; intros cleaned seen Hy Hn Hs Hl; simpl.
  - rewrite app_nil_r. reflexivity.
  - inversion Hy as [|? ? Hy1 Hys]; subst.
    rewrite (clean_entry_fixed _ _ Hy1).
    destruct Hy1 as [_ [Hne _]].
    apply is_empty_false in Hne. rewrite Hne.
    assert (Hnin : ~ In (Str.lower y) (map Str.lower cleaned)).
    { rewrite map_app in Hn. simpl in Hn.
      apply NoDup_remove_2 in Hn. rewrite in_app_iff in Hn. tauto. }
    destruct (Str.mem (Str.lower y) seen) eqn:Hm;
      [apply Hs in Hm; contradiction|].
    rewrite length_app in Hl. simpl in Hl.
    destruct (max_items <=? List.length (cleaned ++ [y])) eqn:Hcap.
    + apply Nat.leb_le in Hcap. rewrite length_app in Hcap. simpl in Hcap.
      destruct ys; [reflexivity | simpl in Hl; lia].
    + rewrite (IH (cleaned ++ [y]) (Str.lower y :: seen)).
      * rewrite <- app_assoc. reflexivity.
      * exact Hys.
      * rewrite <- app_assoc. exact Hn.
      * intro x. simpl. rewrite orb_true_iff, String.eqb_eq, Hs.
        rewrite map_app, in_app_iff. simpl. intuition congruence.
      * rewrite <- app_assoc, length_app. simpl. lia.
Qed.

Hypothesis max_items_pos : 0 < max_items.

Lemma clean_list_spec (v : value) :
  let out := _clean_list v max_items max_len in
  Forall (clean_entry max_len) out
  /\ NoDup (map Str.lower out)
  /\ List.length out <= max_items.
Proof.
  unfold _clean_list.
  destruct v as [| | | | |xs|];
    try (simpl; repeat split; try constructor; lia).
  apply clean_list_loop_inv; simpl; auto; [constructor|].
  intro w. split; [discriminate | tauto].
Qed.


End CleanList.

(** ** The enumerations *)

Lemma choice_in (choices : list string) (default : string)
      (raw : value) (n : nat) :
  Str.mem default choices = true ->
  Str.mem (choice choices default raw n) choices = true.
Proof.
  intro Hd. unfold choice.
  destruct (Str.mem (or_default _ default) choices) eqn:E; assumption.
Qed.





(** ** The loops over composite items *)

Lemma firstn_exact {A : Type} (l r : list A) :
  firstn (List.length l) (l ++ r) = l.
Proof.
  rewrite firstn_app, Nat.sub_diag, firstn_all. simpl. apply app_nil_r.
Qed.

Lemma in_firstn {A : Type} (n : nat) (l : list A) (x : A) :
  In x (firstn n l) -> In x l.
Proof.
  revert l; induction n as [|n IH]; intros [|y l]; simpl; try tauto.
  intros [H|H]; [left; exact H | right; apply IH, H].
Qed.

Lemma collect_spec (normalize : value -> option dict) (cap : nat)
      (items : list value) :
  (forall item, normalize item <> Some []) ->
  forall acc,
    List.length acc < cap ->
    collect normalize cap items acc
    = firstn cap (acc ++ kept normalize items).
Proof.
  intro Hne. induction items as [|item rest IH]; intros acc Hl; simpl.
  - rewrite app_nil_r, firstn_all2; [reflexivity | lia].
  - pose proof (Hne item) as Hi.
    destruct (normalize item) as [[|kv d]|] eqn:E;
      [exfalso; apply Hi; reflexivity | |].
    + destruct (cap <=? List.length (acc ++ [VDict (kv :: d)])) eqn:Hcap.
      * apply Nat.leb_le in Hcap.
        assert (Ec : cap = List.length (acc ++ [VDict (kv :: d)])).
        { rewrite length_app in *. simpl in *. lia. }
        rewrite Ec.
        change (acc ++ [VDict (kv :: d)] ++ kept normalize rest)
          with (acc ++ ([VDict (kv :: d)] ++ kept normalize rest)).
        rewrite app_assoc, firstn_exact. reflexivity.
      * apply Nat.leb_gt in Hcap. rewrite (IH _ Hcap).
        rewrite <- app_assoc. reflexivity.
    + assert (Hcap : (cap <=? List.length acc) = false)
        by (apply Nat.leb_gt; exact Hl).
      rewrite Hcap. apply IH, Hl.
Qed.

Lemma kept_fixed (normalize : value -> option dict) (items : list value) :
  (forall item d, normalize item = Some d -> normalize (VDict d) = Some d) ->
  kept normalize (kept normalize items) = kept normalize items.
Proof.
  intro Hfix. induction items as [|item rest IH]; simpl; [reflexivity|].
  destruct (normalize item) as [d|] eqn:E; simpl; [|exact IH].
  rewrite (Hfix _ _ E), IH. reflexivity.
Qed.



End LoopFacts.

(* ================================================================== *)
(** * The payload normaliser *)

Arguments ai_extraction._clean_optional_text : simpl never.
Arguments ai_extraction._clean_list : simpl never.
Arguments ai_extraction._clean_int : simpl never.
Arguments ai_extraction._clean_float : simpl never.
Arguments ai_extraction.choice : simpl never.
Arguments ai_extraction.collect : simpl never.

Section NormalizerFacts.
Import Py Tidy ai_extraction.

(** ** The item normalisers *)

Lemma normalize_skill_nonempty (item : value) :
  _normalize_skill item <> Some [].
Proof.
  unfold _normalize_skill. destruct item; try discriminate.
  destruct (Str.is_empty _); [discriminate|].
  destruct (Str.is_empty _); discriminate.
Qed.

Lemma normalize_education_nonempty (item : value) :
  _normalize_education item <> Some [].
Proof.
  unfold _normalize_education. destruct item; try discriminate.
  destruct (Str.is_empty _); discriminate.
Qed.

Lemma normalize_keyword_nonempty (item : value) :
  _normalize_keyword_evidence item <> Some [].
Proof.
  unfold _normalize_keyword_evidence. destruct item; try discriminate.
  destruct (_ || _); discriminate.
Qed.




(** ** The shape of the result *)

(** The dict [normalize_ai_payload] builds from the three values that
    may fail to convert. *)
Lemma normalize_shape (payload out : value) :
  normalize_ai_payload payload = Ok out ->
  exists age years overall,
    _clean_int (dict_get (as_dict (dict_get (as_dict payload) "person"))
                         "age_estimate_years") 0 120 = Ok age
    /\ _clean_int (dict_get (as_dict (dict_get (as_dict payload) "experience"))
                            "years_estimate") 0 60 = Ok years
    /\ _clean_float (dict_get (as_dict (dict_get (as_dict payload)
                                                  "confidence"))
                              "overall") = Ok overall
    /\ out = normalized_dict (as_dict payload) age years overall.
Proof.
  unfold normalize_ai_payload.
  destruct (_clean_int _ 0 120) as [age|] eqn:Ha; [|discriminate].
  destruct (_clean_int _ 0 60) as [years|] eqn:Hy; [|discriminate].
  destruct (_clean_float _) as [overall|] eqn:Ho; [|discriminate].
  cbn [bind]. intro H. inversion H; subst.
  exists age, years, overall. repeat split; assumption.
Qed.


End NormalizerFacts.

(* ================================================================== *)
(** * Properties of normalize_ai_payload *)

Section NormalizerProperties.
Import Py Tidy ai_extraction Samples.

Ltac dict_compute :=
  unfold normalized_dict;
  cbn [normalized_dict get_path fold_left list_len as_dict as_list dict_get
       String.eqb Ascii.eqb Bool.eqb].

(** Everything but the confidence is within its bounds in every result;
    the confidence is, unless it is NaN. *)
Lemma normalize_bounds (payload out : value) :
  normalize_ai_payload payload = Ok out ->
  (exists f, get_path out ["confidence"; "overall"] = VFloat f
             /\ (f = S754_nan \/ in_unit f))
  /\ (exists age, get_path out ["person"; "age_estimate_years"] = opt_int age
                  /\ forall z, age = Some z -> (0 <= z <= 120)%Z)
  /\ (exists years,
         get_path out ["experience"; "years_estimate"] = opt_int years
         /\ forall z, years = Some z -> (0 <= z <= 60)%Z)
  /\ list_len (get_path out ["person"; "emails"]) <= 10
  /\ list_len (get_path out ["person"; "phones"]) <= 10
  /\ list_len (get_path out ["experience"; "roles"]) <= 20
  /\ list_len (get_path out ["experience"; "companies"]) <= 20
  /\ list_len (get_path out ["skills"]) <= 30
  /\ list_len (get_path out ["education"]) <= 20
  /\ list_len (get_path out ["keywords_evidence"]) <= 40.
Proof.
  intro H. apply normalize_shape in H
    as [age [years [overall [Ha [Hy [Ho ->]]]]]].
  dict_compute.
  assert (Hlist : forall v mi ml, ml <> 0 -> 0 < mi ->
             List.length (map VStr (_clean_list v mi ml)) <= mi).
  { intros v mi ml Hml Hmi. rewrite length_map.
    apply (clean_list_spec mi ml Hml Hmi v). }
  assert (Hcol : forall norm cap items,
             (forall item, norm item <> Some []) -> 0 < cap ->
             List.length (collect norm cap items []) <= cap).
  { intros norm cap items Hne Hc.
    rewrite (collect_spec norm cap items Hne []) by exact Hc.
    rewrite length_firstn. lia. }
  split; [|split; [|split; [|repeat split]]].
  - exists overall. split; [reflexivity | apply (clean_float_range _ _ Ho)].
  - exists age. split; [reflexivity|].
    intros z ->. apply (clean_int_bounds _ _ _ _ Ha).
  - exists years. split; [reflexivity|].
    intros z ->. apply (clean_int_bounds _ _ _ _ Hy).
  - apply Hlist; lia.
  - apply Hlist; lia.
  - apply Hlist; lia.
  - apply Hlist; lia.
  - apply Hcol; [apply normalize_skill_nonempty | lia].
  - apply Hcol; [apply normalize_education_nonempty | lia].
  - apply Hcol; [apply normalize_keyword_nonempty | lia].
Qed.

(** C3, at the input [{"confidence": {"overall": "nan"}}]: the call
    returns, and the confidence it returns is NaN, which is not in
    [0,1]: [_clean_float] compares with 0 and with 1, and both
    comparisons are false on NaN. *)
Theorem nan_confidence_is_not_clamped :
  exists out,
    normalize_ai_payload payload_nan_confidence = Ok out
    /\ get_path out ["confidence"; "overall"] = VFloat S754_nan
    /\ ~ in_unit S754_nan.
Proof.
  eexists. split; [vm_compute; reflexivity|].
  split; [reflexivity|].
  intros [H _]. discriminate H.
Qed.

(** On a payload that [str] prints, the only exception
    [normalize_ai_payload] lets through is [OverflowError], and only
    from one of its three numbers. *)
Lemma normalize_raises_only_overflow (payload : value) (e : exn) :
  printable payload = true ->
  normalize_ai_payload payload = Raise e -> e = OverflowError.
Proof.
  intros _. unfold normalize_ai_payload.
  destruct (_clean_int _ 0 120) as [age|e1] eqn:Ha.
  - destruct (_clean_int _ 0 60) as [years|e2] eqn:Hy.
    + destruct (_clean_float _) as [overall|e3] eqn:Ho.
      * discriminate.
      * cbn [bind]. intro E; inversion E; subst.
        apply (clean_float_raises _ _ Ho).
    + cbn [bind]. intro E; inversion E; subst.
      apply (clean_int_raises _ _ _ _ Hy).
  - cbn [bind]. intro E; inversion E; subst.
    apply (clean_int_raises _ _ _ _ Ha).
Qed.

(** C4, at the inputs [{"confidence": {"overall": 10**400}}] and
    [{"person": {"age_estimate_years": 1e999}}]: the call raises
    [OverflowError], which [_clean_float] and [_clean_int] do not
    catch. *)
Theorem normalize_raises_overflow :
  normalize_ai_payload payload_huge_confidence = Raise OverflowError
  /\ normalize_ai_payload payload_infinite_age = Raise OverflowError.
Proof. split; vm_compute; reflexivity. Qed.

(** ** Required fields *)

Lemma normalize_skill_none (d : dict) :
  _normalize_skill (VDict d) = None
  <-> _clean_text (dict_get d "name") 120 = ""
      \/ _clean_text (dict_get d "evidence") 220 = "".
Proof.
  unfold _normalize_skill.
  destruct (Str.is_empty (_clean_text (dict_get d "name") 120)) eqn:Hn.
  - apply is_empty_true in Hn. tauto.
  - apply is_empty_false in Hn.
    destruct (Str.is_empty (_clean_text (dict_get d "evidence") 220)) eqn:He.
    + apply is_empty_true in He. tauto.
    + apply is_empty_false in He. split; [discriminate | tauto].
Qed.

Lemma normalize_education_none (d : dict) :
  _normalize_education (VDict d) = None
  <-> _clean_text (dict_get d "evidence") 220 = "".
Proof.
  unfold _normalize_education.
  destruct (Str.is_empty (_clean_text (dict_get d "evidence") 220)) eqn:He.
  - apply is_empty_true in He. tauto.
  - apply is_empty_false in He. split; [discriminate | tauto].
Qed.

Lemma normalize_keyword_none (d : dict) :
  _normalize_keyword_evidence (VDict d) = None
  <-> _clean_text (dict_get d "term") 120 = ""
      \/ _clean_text (dict_get d "evidence") 220 = "".
Proof.
  unfold _normalize_keyword_evidence.
  destruct (Str.is_empty (_clean_text (dict_get d "term") 120)) eqn:Hn.
  - apply is_empty_true in Hn. cbn [orb]. tauto.
  - apply is_empty_false in Hn. cbn [orb].
    destruct (Str.is_empty (_clean_text (dict_get d "evidence") 220)) eqn:He.
    + apply is_empty_true in He. tauto.
    + apply is_empty_false in He. split; [discriminate | tauto].
Qed.

(** C9: the three lists of composite entries hold the entries that
    normalise, in order and up to the cap, and an entry normalises to
    nothing exactly when a required field of it cleans to the empty
    text: such an entry is dropped, no default stands in for it. *)
Theorem required_fields_dropped (payload out : value) :
  normalize_ai_payload payload = Ok out ->
  (get_path out ["skills"]
   = VList (firstn 30 (kept _normalize_skill
                            (as_list (dict_get (as_dict payload) "skills"))))
   /\ get_path out ["education"]
      = VList (firstn 20
                 (kept _normalize_education
                       (as_list (dict_get (as_dict payload) "education"))))
   /\ get_path out ["keywords_evidence"]
      = VList (firstn 40
                 (kept _normalize_keyword_evidence
                       (as_list (dict_get (as_dict payload)
                                          "keywords_evidence")))))
  /\ (forall d, _normalize_skill (VDict d) = None
                <-> _clean_text (dict_get d "name") 120 = ""
                    \/ _clean_text (dict_get d "evidence") 220 = "")
  /\ (forall d, _normalize_education (VDict d) = None
                <-> _clean_text (dict_get d "evidence") 220 = "")
  /\ (forall d, _normalize_keyword_evidence (VDict d) = None
                <-> _clean_text (dict_get d "term") 120 = ""
                    \/ _clean_text (dict_get d "evidence") 220 = "").
Proof.
  intro H. apply normalize_shape in H
    as [age [years [overall [Ha [Hy [Ho ->]]]]]].
  dict_compute.
  split; [|split; [|split]].
  - rewrite (collect_spec _ 30 _ normalize_skill_nonempty []) by (simpl; lia).
    rewrite (collect_spec _ 20 _ normalize_education_nonempty [])
      by (simpl; lia).
    rewrite (collect_spec _ 40 _ normalize_keyword_nonempty [])
      by (simpl; lia).
    repeat split.
  - exact normalize_skill_none.
  - exact normalize_education_none.
  - exact normalize_keyword_none.
Qed.

Lemma required_fields_dropped_witness :
  normalize_ai_payload payload_resume = Ok normalized_resume
  /\ get_path normalized_resume ["skills"]
     = VList (firstn 30 (kept _normalize_skill
                 (as_list (dict_get (as_dict payload_resume) "skills")))).
Proof.
  assert (H : normalize_ai_payload payload_resume = Ok normalized_resume)
    by (vm_compute; reflexivity).
  split; [exact H|].
  exact (proj1 (proj1 (required_fields_dropped payload_resume
                         normalized_resume H))).
Defined.

(** ** Idempotence *)



End NormalizerProperties.

(* ================================================================== *)
(** * The semantic filters *)

Section FilterProperties.
Import Py ai_filters Samples.

Lemma safe_int_some (x : value) (lo hi v : Z) :
  _safe_int x lo hi = Ok (Some v)
  <-> py_int x = Ok v /\ (lo <= v <= hi)%Z.
Proof.
  unfold _safe_int.
  assert (H : forall r : result Z,
             match r with
             | Ok parsed =>
                 if (parsed <? lo)%Z || (hi <? parsed)%Z
                 then Ok None else Ok (Some parsed)
             | Raise TypeError | Raise ValueError => Ok None
             | Raise e => Raise e
             end = Ok (Some v)
             <-> r = Ok v /\ (lo <= v <= hi)%Z).
  { intros [p|[]]; try (split; [discriminate | intros [E _]; discriminate E]).
    split.
    - destruct ((p <? lo)%Z || (hi <? p)%Z) eqn:Hc; [discriminate|].
      intro E; inversion E; subst.
      apply orb_false_iff in Hc as [H1 H2]. apply Z.ltb_ge in H1, H2.
      split; [reflexivity | lia].
    - intros [E Hb]. inversion E; subst.
      assert (Hc : (v <? lo)%Z || (hi <? v)%Z = false).
      { apply orb_false_iff; split; apply Z.ltb_ge; lia. }
      rewrite Hc. reflexivity. }
  destruct x; try apply H.
  cbn [py_int]. split; [discriminate | intros [E _]; discriminate E].
Qed.

Lemma safe_int_none (x : value) (lo hi : Z) :
  _safe_int x lo hi = Ok None
  <-> x = VNone \/ py_int x = Raise TypeError \/ py_int x = Raise ValueError
      \/ exists v, py_int x = Ok v /\ (v < lo \/ hi < v)%Z.
Proof.
  unfold _safe_int.
  assert (H : forall r : result Z,
             match r with
             | Ok parsed =>
                 if (parsed <? lo)%Z || (hi <? parsed)%Z
                 then Ok None else Ok (Some parsed)
             | Raise TypeError | Raise ValueError => Ok None
             | Raise e => Raise e
             end = Ok None
             <-> r = Raise TypeError \/ r = Raise ValueError
                 \/ exists v, r = Ok v /\ (v < lo \/ hi < v)%Z).
  { intros [p|[]].
    - split.
      + destruct ((p <? lo)%Z || (hi <? p)%Z) eqn:Hc; [|discriminate].
        intros _. right; right. exists p. split; [reflexivity|].
        apply orb_true_iff in Hc as [Hc|Hc]; apply Z.ltb_lt in Hc; lia.
      + intros [E|[E|[v [E Hv]]]]; try discriminate E.
        inversion E; subst.
        assert (Hc : (v <? lo)%Z || (hi <? v)%Z = true).
        { apply orb_true_iff. destruct Hv; [left | right];
            apply Z.ltb_lt; assumption. }
        rewrite Hc. reflexivity.
    - split; auto.
    - split; auto.
    - split; [discriminate|].
      intros [E|[E|[v [E _]]]]; discriminate E. }
  destruct x as [|b|z|f|s|xs|d];
    try (rewrite H; split; [auto | intros [E|E]; [discriminate E | exact E]]).
  split; auto.
Qed.

Lemma safe_int_raises (x : value) (lo hi : Z) (e : exn) :
  _safe_int x lo hi = Raise e
  <-> e = OverflowError /\ py_int x = Raise OverflowError.
Proof.
  unfold _safe_int.
  assert (H : forall r : result Z,
             match r with
             | Ok parsed =>
                 if (parsed <? lo)%Z || (hi <? parsed)%Z
                 then Ok None else Ok (Some parsed)
             | Raise TypeError | Raise ValueError => Ok None
             | Raise e => Raise e
             end = Raise e
             <-> e = OverflowError /\ r = Raise OverflowError).
  { intros [p|[]].
    - destruct ((p <? lo)%Z || (hi <? p)%Z);
        (split; [discriminate | intros [_ E]; discriminate E]).
    - split; [discriminate | intros [_ E]; discriminate E].
    - split; [discriminate | intros [_ E]; discriminate E].
    - split; [intro E; inversion E; auto | intros [-> _]; reflexivity]. }
  destruct x; try apply H.
  cbn [py_int]. split; [discriminate | intros [_ E]; discriminate E].
Qed.

(** What the two resolvers do with the AI value: it is used whenever
    it converts to an integer within its bounds, whatever the heuristic
    field holds; the heuristic field is used (under the same bounds)
    when the AI value is absent, does not convert with [TypeError] or
    [ValueError], or is out of bounds; and the call raises when the
    conversion raises [OverflowError], which is the float infinity. *)
Lemma ai_value_preferred (doc : doc_or_json) :
  let payload := get_ai_payload doc in
  let ai_years :=
    dict_get (_as_dict (dict_get payload "experience")) "years_estimate" in
  let ai_age :=
    dict_get (_as_dict (dict_get payload "person")) "age_estimate_years" in
  (forall v, py_int ai_years = Ok v -> (0 <= v <= 60)%Z ->
             resolve_experience_years doc = Ok (Some v))
  /\ (ai_years = VNone \/ py_int ai_years = Raise TypeError
      \/ py_int ai_years = Raise ValueError
      \/ (exists v, py_int ai_years = Ok v /\ (v < 0 \/ 60 < v)%Z) ->
      resolve_experience_years doc
      = _safe_int (getattr doc "extracted_experience_years" VNone) 0 60)
  /\ (py_int ai_years = Raise OverflowError ->
      resolve_experience_years doc = Raise OverflowError)
  /\ (forall v, py_int ai_age = Ok v -> (0 <= v <= 120)%Z ->
                resolve_age_years doc = Ok (Some v))
  /\ (ai_age = VNone \/ py_int ai_age = Raise TypeError
      \/ py_int ai_age = Raise ValueError
      \/ (exists v, py_int ai_age = Ok v /\ (v < 0 \/ 120 < v)%Z) ->
      resolve_age_years doc
      = _safe_int (getattr doc "extracted_age_years" VNone) 0 120)
  /\ (py_int ai_age = Raise OverflowError ->
      resolve_age_years doc = Raise OverflowError).
Proof.
  intros payload ai_years ai_age.
  unfold resolve_experience_years, resolve_age_years.
  fold payload. fold ai_years. fold ai_age.
  split; [|split; [|split; [|split; [|split]]]].
  - intros v Hv Hb.
    rewrite (proj2 (safe_int_some ai_years 0 60 v) (conj Hv Hb)).
    reflexivity.
  - intro H. rewrite (proj2 (safe_int_none ai_years 0 60) H). reflexivity.
  - intro H.
    rewrite (proj2 (safe_int_raises ai_years 0 60 OverflowError)
                   (conj eq_refl H)).
    reflexivity.
  - intros v Hv Hb.
    rewrite (proj2 (safe_int_some ai_age 0 120 v) (conj Hv Hb)).
    reflexivity.
  - intro H. rewrite (proj2 (safe_int_none ai_age 0 120) H). reflexivity.
  - intro H.
    rewrite (proj2 (safe_int_raises ai_age 0 120 OverflowError)
                   (conj eq_refl H)).
    reflexivity.
Qed.

(** The range filter works on the resolved values: with a minimum of
    experience as its only bound, a document whose AI years convert to
    [v] within the bounds passes exactly when [v] reaches the minimum,
    whatever its heuristic field holds. *)
Lemma ai_years_decide_the_filter (doc : doc_or_json) (v minimum : Z)
      (exclude : bool) (age_value : option Z) :
  py_int (dict_get (_as_dict (dict_get (get_ai_payload doc) "experience"))
                   "years_estimate") = Ok v ->
  (0 <= v <= 60)%Z ->
  resolve_age_years doc = Ok age_value ->
  document_passes_ranges doc (experience_min minimum exclude)
  = Ok (minimum <=? v)%Z.
Proof.
  intros Hv Hb Ha. unfold document_passes_ranges.
  rewrite (proj1 (ai_value_preferred doc) v Hv Hb), Ha.
  cbn [bind passes_ranges experience_min experience_min_years
       experience_max_years age_min_years age_max_years exclude_unknowns].
  rewrite Z.ltb_antisym. destruct (minimum <=? v)%Z; reflexivity.
Qed.

(** The document of the test, heuristic 1 and AI estimate 6, passes a
    filter that asks for 5 years at least and not one that asks for
    7. *)
Lemma test_document_passes :
  document_passes_ranges doc_ai6_heuristic1 (experience_min 5 false)
  = Ok true
  /\ document_passes_ranges doc_ai6_heuristic1 (experience_min 7 false)
     = Ok false.
Proof.
  split.
  - exact (ai_years_decide_the_filter doc_ai6_heuristic1 6 5 false None
             eq_refl ltac:(lia) eq_refl).
  - exact (ai_years_decide_the_filter doc_ai6_heuristic1 6 7 false None
             eq_refl ltac:(lia) eq_refl).
Qed.

(** C7, at the document whose AI payload has the float infinity as
    years of experience and whose heuristic field has 3 years: [int]
    raises [OverflowError] on the AI value, [_safe_int] catches
    [TypeError] and [ValueError] only, and the resolver raises, so that
    the range filter raises whatever its bounds are; the heuristic
    field, which the claim has take over from an AI value that does
    not convert, would give 3. *)
Theorem infinite_ai_years_not_caught :
  py_int (dict_get (_as_dict (dict_get (get_ai_payload doc_infinite_years)
                                       "experience"))
                   "years_estimate") = Raise OverflowError
  /\ _safe_int (getattr doc_infinite_years "extracted_experience_years"
                        VNone) 0 60 = Ok (Some 3%Z)
  /\ resolve_experience_years doc_infinite_years = Raise OverflowError
  /\ forall r, document_passes_ranges doc_infinite_years r
               = Raise OverflowError.
Proof.
  split; [reflexivity|]. split; [reflexivity|].
  split; [reflexivity|]. intro r. reflexivity.
Qed.

(** ** The range check *)

Lemma passes_ranges_spec (ev av : option Z) (r : ranges) :
  passes_ranges ev av r
  = bound_passes at_least ev (experience_min_years r) (exclude_unknowns r)
    && bound_passes at_most ev (experience_max_years r) (exclude_unknowns r)
    && bound_passes at_least av (age_min_years r) (exclude_unknowns r)
    && bound_passes at_most av (age_max_years r) (exclude_unknowns r).
Proof.
  destruct r as [emin emax amin amax ex].
  unfold passes_ranges, bound_passes, at_least, at_most.
  cbn [experience_min_years experience_max_years age_min_years
       age_max_years exclude_unknowns].
  assert (Hlt : forall a b : Z, (a <? b)%Z = negb (b <=? a)%Z).
  { intros a b. rewrite Z.ltb_antisym. reflexivity. }
  destruct emin as [b1|], emax as [b2|], amin as [b3|], amax as [b4|],
    ev as [e|], av as [a|], ex; cbn [negb andb];
    rewrite ?Hlt;
    repeat match goal with
           | |- context [(?x <=? ?y)%Z] => destruct (x <=? y)%Z
           end; reflexivity.
Qed.

(** C8: once the two values are resolved, the document passes the range
    check exactly when it passes each of the four bounds: a bound that
    is not given passes, an unknown value passes a given bound unless
    unknowns are excluded, a known value passes a minimum it is at
    least and a maximum it is at most. *)
Theorem ranges_check_each_bound (doc : doc_or_json) (r : ranges)
        (experience_value age_value : option Z) :
  resolve_experience_years doc = Ok experience_value ->
  resolve_age_years doc = Ok age_value ->
  document_passes_ranges doc r
  = Ok (bound_passes at_least experience_value (experience_min_years r)
                     (exclude_unknowns r)
        && bound_passes at_most experience_value (experience_max_years r)
                        (exclude_unknowns r)
        && bound_passes at_least age_value (age_min_years r)
                        (exclude_unknowns r)
        && bound_passes at_most age_value (age_max_years r)
                        (exclude_unknowns r)).
Proof.
  intros He Ha. unfold document_passes_ranges.
  rewrite He, Ha. cbn [bind]. rewrite passes_ranges_spec. reflexivity.
Qed.

Lemma ranges_check_each_bound_witness :
  document_passes_ranges doc_unknown (experience_min 3 true) = Ok false
  /\ document_passes_ranges doc_unknown (experience_min 3 false) = Ok true.
Proof.
  split.
  - exact (ranges_check_each_bound doc_unknown (experience_min 3 true)
             None None eq_refl eq_refl).
  - exact (ranges_check_each_bound doc_unknown (experience_min 3 false)
             None None eq_refl eq_refl).
Defined.

(** ** Exclusion *)

(** A document whose search blob is empty matches no list of
    exclusion terms. *)
Lemma empty_blob_not_excluded (normalize : value -> string)
      (doc : doc_or_json) (exclude_terms : list string) :
  _build_document_blob normalize doc = "" ->
  document_matches_excludes normalize doc exclude_terms = false.
Proof.
  intro Hb. unfold document_matches_excludes. rewrite Hb.
  destruct exclude_terms; reflexivity.
Qed.

(** A filter made of exclusion terms only admits such a document when
    its years of experience and its age resolve: it resolves them
    first, and raises when one of them does not. *)
Lemma exclusion_only_filter (normalize : value -> string)
      (doc : doc_or_json) (exclude_terms : list string) (mode : string) :
  _build_document_blob normalize doc = "" ->
  document_passes_semantic_filters normalize doc [] mode exclude_terms
                                   no_bounds
  = (_ <- resolve_experience_years doc ;;
     _ <- resolve_age_years doc ;;
     Ok true).
Proof.
  intro Hb. unfold document_passes_semantic_filters.
  cbn [document_matches_terms negb].
  rewrite (empty_blob_not_excluded normalize doc exclude_terms Hb).
  unfold document_passes_ranges.
  destruct (resolve_experience_years doc) as [ev|e]; [|reflexivity].
  destruct (resolve_age_years doc) as [av|e]; [|reflexivity].
  reflexivity.
Qed.

(** C10, at the document without content whose AI payload has the
    float infinity as age: its blob is empty and it matches no
    exclusion terms, yet the filter made of exclusion terms only does
    not admit it: it raises [OverflowError], which [_safe_int] does not
    catch, when it resolves the age, before it looks at any bound. *)
Theorem contentless_document_not_admitted (normalize : value -> string)
        (exclude_terms : list string) (mode : string) :
  _build_document_blob normalize doc_infinite_age = "" ->
  document_matches_excludes normalize doc_infinite_age exclude_terms = false
  /\ document_passes_semantic_filters normalize doc_infinite_age [] mode
       exclude_terms no_bounds = Raise OverflowError.
Proof.
  intro Hb. split.
  - apply empty_blob_not_excluded, Hb.
  - rewrite (exclusion_only_filter normalize doc_infinite_age exclude_terms
               mode Hb).
    reflexivity.
Qed.

Lemma contentless_document_not_admitted_witness :
  _build_document_blob normalize_for_match doc_infinite_age = ""
  /\ document_passes_semantic_filters normalize_for_match doc_infinite_age
       [] "all" ["java"] no_bounds = Raise OverflowError.
Proof.
  assert (H : _build_document_blob normalize_for_match doc_infinite_age = "")
    by reflexivity.
  split; [exact H|].
  exact (proj2 (contentless_document_not_admitted normalize_for_match
                  ["java"] "all" H)).
Defined.

End FilterProperties.

(* ================================================================== *)
(** * The intent resolver *)

Section DictFacts.
Import intent.

Context {A : Type}.

Lemma dict_find_set (d : list (string * A)) (k k' : string) (v : A) :
  dict_find (dict_set d k v) k'
  = if String.eqb k' k then Some v else dict_find d k'.
Proof.
  induction d as [|[k0 v0] d IH]; simpl.
  - reflexivity.
  - destruct (String.eqb k k0) eqn:E; simpl.
    + apply String.eqb_eq in E. subst k0.
      destruct (String.eqb k' k); reflexivity.
    + destruct (String.eqb k' k0) eqn:E0.
      * apply String.eqb_eq in E0. subst k0.
        rewrite String.eqb_sym in E. rewrite E. reflexivity.
      * exact IH.
Qed.

End DictFacts.

Section IntentFacts.
Import intent.

Variable SYNONYM_MAP : list (string * string).
Variable TYPE_BY_BUILTIN : list (string * string).
Variable NFKD : string -> string.
Variable combining : ascii -> bool.
Variable ratio : string -> string -> Q.

Local Abbreviation normalize_label := (_normalize_label NFKD combining).
Local Abbreviation candidates_of := (_build_builtin_candidates SYNONYM_MAP NFKD combining).
Local Abbreviation resolve :=
  (resolve_intent SYNONYM_MAP TYPE_BY_BUILTIN NFKD combining ratio).

(** ** The exact lookup *)

Lemma find_app {B : Type} (f : B -> bool) (l l' : list B) :
  find f (l ++ l')
  = match find f l with
    | Some x => Some x
    | None => find f l'
    end.
Proof.
  induction l as [|x l IH]; simpl; [reflexivity|].
  destruct (f x); [reflexivity | exact IH].
Qed.

Lemma exact_lookup_fold (normalized : string) (cs : list candidate) :
  forall d,
    dict_find
      (fold_left (fun d (c : candidate) =>
                    dict_set d (fst (fst c)) (snd (fst c), snd c)) cs d)
      normalized
    = match last_match normalized cs with
      | Some x => Some x
      | None => dict_find d normalized
      end.
Proof.
  unfold last_match, first_match.
  induction cs as [|c cs IH]; intro d; simpl; [reflexivity|].
  rewrite IH, find_app, dict_find_set.
  destruct (find _ (rev cs)) as [c'|]; simpl; [reflexivity|].
  rewrite (String.eqb_sym (fst (fst c)) normalized).
  destruct (String.eqb normalized (fst (fst c))); reflexivity.
Qed.

Lemma exact_lookup_last (normalized : string) (cs : list candidate) :
  dict_find (exact_lookup_of cs) normalized = last_match normalized cs.
Proof.
  unfold exact_lookup_of. rewrite exact_lookup_fold.
  destruct (last_match normalized cs); reflexivity.
Qed.

Lemma last_match_none (normalized : string) (cs : list candidate) :
  first_match normalized cs = None -> last_match normalized cs = None.
Proof.
  unfold last_match, first_match.
  destruct (find _ cs) as [c|] eqn:E; [discriminate|]. intros _.
  destruct (find _ (rev cs)) as [c|] eqn:E'; [|reflexivity].
  apply find_some in E' as [Hin Hc]. apply in_rev in Hin.
  pose proof (find_none _ _ E c Hin) as Hn. simpl in Hn, Hc. congruence.
Qed.

(** C1, as the code has it: when several candidates have the normalised
    label as their text, the one generated last gives the key and the
    strategy of the result. *)
Theorem exact_lookup_last_candidate_wins
        (label : string) (builtin_fields : list (string * string))
        (allow_llm : bool) (key strategy : string) :
  normalize_label label <> "" ->
  last_match (normalize_label label) (candidates_of builtin_fields)
  = Some (key, strategy) ->
  let r := resolve label builtin_fields allow_llm in
  kind r = "builtin" /\ builtin_key r = key /\ match_strategy r = strategy
  /\ confidence r = 1%Q.
Proof.
  intros Hne Hlast. unfold resolve_intent.
  apply is_empty_false in Hne. rewrite Hne.
  rewrite exact_lookup_last, Hlast. cbn. repeat split.
Qed.

(** ** The fuzzy fallback *)

Lemma Qltb_lt (a b : Q) : Qltb a b = true <-> (a < b)%Q.
Proof.
  unfold Qltb. rewrite negb_true_iff. split.
  - intro H. apply Qnot_le_lt. intro Hle.
    apply Qle_bool_iff in Hle. congruence.
  - intro H. destruct (Qle_bool b a) eqn:E; [|reflexivity].
    apply Qle_bool_iff in E. exfalso. apply (Qlt_not_le _ _ H E).
Qed.

Lemma Qltb_ge (a b : Q) : Qltb a b = false <-> (b <= a)%Q.
Proof.
  unfold Qltb. rewrite negb_false_iff. apply Qle_bool_iff.
Qed.

Lemma qmax_le_l (a b : Q) : (a <= qmax a b)%Q.
Proof.
  unfold qmax. destruct (Qltb a b) eqn:E.
  - apply Qltb_lt in E. apply Qlt_le_weak, E.
  - apply Qle_refl.
Qed.

Lemma qmax_le_r (a b : Q) : (b <= qmax a b)%Q.
Proof.
  unfold qmax. destruct (Qltb a b) eqn:E.
  - apply Qle_refl.
  - apply Qltb_ge, E.
Qed.

Lemma best_fold_ge (normalized : string) (cs : list candidate) :
  forall s, (s <= fold_left (fun best (c : candidate) =>
                               qmax best (ratio normalized (fst (fst c))))
                            cs s)%Q.
Proof.
  induction cs as [|c cs IH]; intro s; simpl; [apply Qle_refl|].
  eapply Qle_trans; [apply qmax_le_l | apply IH].
Qed.

(** [best_ratio] is an upper bound of the ratios ... *)
Lemma best_ratio_upper_bound (normalized : string) (cs : list candidate)
      (c : candidate) :
  In c cs -> (ratio normalized (fst (fst c)) <= best_ratio ratio normalized cs)%Q.
Proof.
  unfold best_ratio. generalize 0%Q.
  induction cs as [|c' cs IH]; intros s Hin; [destruct Hin|].
  destruct Hin as [->|Hin]; simpl.
  - eapply Qle_trans; [apply qmax_le_r | apply best_fold_ge].
  - apply IH, Hin.
Qed.

Lemma best_fold_attained (normalized : string) (cs : list candidate) :
  forall s,
    fold_left (fun best (c : candidate) =>
                 qmax best (ratio normalized (fst (fst c)))) cs s = s
    \/ exists c,
        In c cs
        /\ fold_left (fun best (c : candidate) =>
                        qmax best (ratio normalized (fst (fst c)))) cs s
           = ratio normalized (fst (fst c)).
Proof.
  induction cs as [|c cs IH]; intro s; simpl; [left; reflexivity|].
  destruct (IH (qmax s (ratio normalized (fst (fst c))))) as [H|[c' [Hin H]]].
  - rewrite H. unfold qmax.
    destruct (Qltb s (ratio normalized (fst (fst c)))).
    + right. exists c. split; [left; reflexivity | reflexivity].
    + left. reflexivity.
  - right. exists c'. split; [right; exact Hin | exact H].
Qed.

(** ... and one of them, or 0. *)
Lemma best_ratio_attained (normalized : string) (cs : list candidate) :
  best_ratio ratio normalized cs = 0%Q
  \/ exists c, In c cs
               /\ best_ratio ratio normalized cs = ratio normalized (fst (fst c)).
Proof. apply best_fold_attained. Qed.

(** ** The state of the fuzzy loop *)

Lemma fuzzy_step_eq (normalized : string) (best : string * Q * string)
      (c : candidate) :
  fuzzy_step ratio normalized best c
  = if Qltb (snd (fst best)) (ratio normalized (fst (fst c)))
    then (snd (fst c), ratio normalized (fst (fst c)), snd c)
    else best.
Proof. reflexivity. Qed.

Lemma fuzzy_below (normalized : string) (bound : Q) (cs : list candidate) :
  (forall c, In c cs -> (ratio normalized (fst (fst c)) < bound)%Q) ->
  forall best,
    (snd (fst best) < bound)%Q ->
    (snd (fst (fold_left (fuzzy_step ratio normalized) cs best)) < bound)%Q.
Proof.
  induction cs as [|c cs IH]; intros Hall best Hb; cbn [fold_left];
    [exact Hb|].
  apply IH; [intros c' Hc'; apply Hall; right; exact Hc'|].
  rewrite fuzzy_step_eq. destruct (Qltb _ _); [|exact Hb].
  cbn [fst snd]. apply Hall. left. reflexivity.
Qed.

Lemma fuzzy_kept (normalized : string) (cs : list candidate) :
  forall best,
    (forall c, In c cs ->
               (ratio normalized (fst (fst c)) <= snd (fst best))%Q) ->
    fold_left (fuzzy_step ratio normalized) cs best = best.
Proof.
  induction cs as [|c cs IH]; intros best Hall; cbn [fold_left];
    [reflexivity|].
  rewrite fuzzy_step_eq.
  assert (E : Qltb (snd (fst best)) (ratio normalized (fst (fst c))) = false).
  { apply Qltb_ge. apply Hall. left. reflexivity. }
  rewrite E. apply IH. intros c' Hc'. apply Hall. right. exact Hc'.
Qed.

(** The score the loop ends on is the best ratio. *)
Lemma fuzzy_score (normalized : string) (cs : list candidate) :
  forall best,
    snd (fst (fold_left (fuzzy_step ratio normalized) cs best))
    = fold_left (fun best (c : candidate) =>
                   qmax best (ratio normalized (fst (fst c))))
                cs (snd (fst best)).
Proof.
  induction cs as [|c cs IH]; intro best; cbn [fold_left]; [reflexivity|].
  rewrite IH, fuzzy_step_eq. f_equal. unfold qmax.
  destruct (Qltb (snd (fst best)) (ratio normalized (fst (fst c))));
    reflexivity.
Qed.

Lemma find_split {B : Type} (f : B -> bool) (l : list B) (x : B) :
  find f l = Some x ->
  exists l1 l2, l = l1 ++ x :: l2 /\ forall y, In y l1 -> f y = false.
Proof.
  induction l as [|y l IH]; [discriminate|]. cbn [find].
  destruct (f y) eqn:Hy.
  - intro E; inversion E; subst. exists [], l. split; [reflexivity|].
    intros z [].
  - intro H. destruct (IH H) as [l1 [l2 [-> Hl1]]].
    exists (y :: l1), l2. split; [reflexivity|].
    intros z [<-|Hz]; [exact Hy | apply Hl1, Hz].
Qed.

Lemma Qle_bool_false (a b : Q) : Qle_bool a b = false -> (b < a)%Q.
Proof.
  intro H. apply Qnot_le_lt. intro Hle. apply Qle_bool_iff in Hle.
  congruence.
Qed.

(** The key the loop ends on is the key of the first candidate that
    reaches the best ratio, if that ratio is above 0. *)
Lemma fuzzy_best_is_first_best (normalized : string) (cs : list candidate) :
  fst (fst (fuzzy_best ratio normalized cs)) = best_key ratio normalized cs
  /\ snd (fst (fuzzy_best ratio normalized cs))
     = best_ratio ratio normalized cs.
Proof.
  split; [|apply (fuzzy_score normalized cs ("", 0%Q, ""))].
  unfold best_key, best_candidate, fuzzy_best.
  set (best := best_ratio ratio normalized cs).
  destruct (Qle_bool best 0) eqn:H0.
  - apply Qle_bool_iff in H0.
    rewrite fuzzy_kept; [reflexivity|].
    intros c Hc. cbn [fst snd].
    eapply Qle_trans; [apply (best_ratio_upper_bound normalized cs c Hc)|].
    exact H0.
  - apply Qle_bool_false in H0.
    destruct (find _ cs) as [c0|] eqn:Hf.
    + destruct (find_split _ cs c0 Hf) as [before [after [Hcs Hbefore]]].
      apply find_some in Hf as [Hin Hc0]. apply Qle_bool_iff in Hc0.
      assert (Hup : forall c, In c cs ->
                      (ratio normalized (fst (fst c))
                       <= ratio normalized (fst (fst c0)))%Q).
      { intros c Hc. eapply Qle_trans; [|exact Hc0].
        apply (best_ratio_upper_bound normalized cs c Hc). }
      rewrite Hcs in Hup |- *.
      rewrite fold_left_app. cbn [fold_left].
      assert (Hlt : (snd (fst (fold_left (fuzzy_step ratio normalized) before
                                         ("", 0%Q, "")))
                     < ratio normalized (fst (fst c0)))%Q).
      { apply fuzzy_below.
        - intros c Hc. eapply Qlt_le_trans; [|exact Hc0].
          apply Qle_bool_false, Hbefore, Hc.
        - cbn [fst snd]. eapply Qlt_le_trans; [exact H0 | exact Hc0]. }
      rewrite fuzzy_step_eq. apply Qltb_lt in Hlt. rewrite Hlt.
      rewrite fuzzy_kept; [reflexivity|].
      intros c Hc. cbn [fst snd]. apply Hup.
      apply in_or_app. right. right. exact Hc.
    + exfalso.
      destruct (best_ratio_attained normalized cs) as [E|[c [Hin E]]].
      * fold best in E. rewrite E in H0. apply (Qlt_irrefl 0), H0.
      * pose proof (find_none _ _ Hf c Hin) as Hn. cbn beta in Hn.
        fold best in E. rewrite <- E in Hn.
        apply Qle_bool_false in Hn. apply (Qlt_irrefl best), Hn.
Qed.

(** A label that normalises to the empty text is a custom field, with
    confidence 0, before any matching. *)
Lemma empty_label_is_custom
      (label : string) (builtin_fields : list (string * string))
      (allow_llm : bool) :
  normalize_label label = "" ->
  let r := resolve label builtin_fields allow_llm in
  kind r = "custom" /\ match_strategy r = "empty" /\ confidence r = 0%Q.
Proof.
  intro He. cbv zeta. unfold resolve_intent. rewrite He.
  cbn. repeat split.
Qed.

(** C6, as amended: with no exact match, a best ratio of 0.84 or more
    gives the builtin field of the candidate that reaches it (the first
    one, when several do), marked fuzzy, with the best ratio as
    confidence, provided the key of that candidate is not empty; a best
    ratio below 0.84, or an empty key, gives a custom field with
    confidence 0. *)
Theorem fuzzy_threshold_inclusive
        (label : string) (builtin_fields : list (string * string))
        (allow_llm : bool) :
  normalize_label label <> "" ->
  first_match (normalize_label label) (candidates_of builtin_fields) = None ->
  let best := best_ratio ratio (normalize_label label)
                         (candidates_of builtin_fields) in
  let key := best_key ratio (normalize_label label)
                      (candidates_of builtin_fields) in
  let r := resolve label builtin_fields allow_llm in
  ((FUZZY_THRESHOLD <= best)%Q -> key <> "" ->
   kind r = "builtin" /\ builtin_key r = key
   /\ match_strategy r = "fuzzy" /\ confidence r = best)
  /\ ((best < FUZZY_THRESHOLD)%Q \/ key = "" ->
      kind r = "custom" /\ match_strategy r = "custom"
      /\ confidence r = 0%Q).
Proof.
  intros Hne Hno best key r. subst r. unfold resolve_intent.
  apply is_empty_false in Hne. rewrite Hne.
  rewrite exact_lookup_last, (last_match_none _ _ Hno).
  destruct (fuzzy_best_is_first_best (normalize_label label)
              (candidates_of builtin_fields)) as [Hkey Hbest].
  destruct (fuzzy_best ratio (normalize_label label)
                       (candidates_of builtin_fields))
    as [[best_key' best_score] best_strategy].
  cbn [fst snd] in Hkey, Hbest. fold key in Hkey. fold best in Hbest.
  subst best_key' best_score.
  split.
  - intros Hge Hk.
    apply is_empty_false in Hk. rewrite Hk.
    apply Qle_bool_iff in Hge. rewrite Hge. cbn. repeat split.
  - intro H.
    assert (Hb : negb (Str.is_empty key) && Qle_bool FUZZY_THRESHOLD best
                 = false).
    { destruct H as [Hlt|Hk].
      - destruct (Qle_bool FUZZY_THRESHOLD best) eqn:E;
          [|apply andb_false_r].
        apply Qle_bool_iff in E. exfalso. apply (Qlt_not_le _ _ Hlt E).
      - rewrite Hk. reflexivity. }
    rewrite Hb.
    destruct allow_llm; cbn; repeat split.
Qed.

End IntentFacts.

Section IntentSamples.
Import intent Samples.

(** C1 as the claim states it fails: of the two candidates with the
    text "nome", the first one generated points at [payee_name], and the
    result has [payer_name]. *)
Lemma first_candidate_does_not_win :
  first_match (normalize_label_ascii "Nome") (candidates_ascii fields_same_label)
  = Some ("payee_name", "label")
  /\ builtin_key (resolve_intent_ascii "Nome" fields_same_label false)
     = "payer_name"
  /\ builtin_key (resolve_intent_ascii "Nome" fields_same_label false)
     <> "payee_name".
Proof.
  split; [vm_compute; reflexivity|].
  split; [vm_compute; reflexivity|].
  vm_compute. discriminate.
Qed.

Lemma exact_lookup_last_candidate_wins_witness :
  normalize_label_ascii "Nome" <> ""
  /\ builtin_key (resolve_intent_ascii "Nome" fields_same_label false)
     = "payer_name".
Proof.
  assert (Hne : normalize_label_ascii "Nome" <> "")
    by (vm_compute; discriminate).
  split; [exact Hne|].
  apply (exact_lookup_last_candidate_wins SYNONYM_MAP TYPE_BY_BUILTIN
           nfkd_ascii combining_latin difflib.ratio
           "Nome" fields_same_label false "payer_name" "label" Hne).
  vm_compute. reflexivity.
Defined.

(** C6 as the claim states it fails: with a field whose key is empty,
    there is no exact match and the best ratio is 0.84, and the result
    is a custom field: the guard [if best_key and ...] asks for a key. *)
Lemma empty_key_stays_custom :
  first_match (normalize_label_ascii "abcdefghijklmnopqrstu1234")
              (candidates_ascii fields_empty_key) = None
  /\ (FUZZY_THRESHOLD
      <= best_ratio difflib.ratio
           (normalize_label_ascii "abcdefghijklmnopqrstu1234")
           (candidates_ascii fields_empty_key))%Q
  /\ kind (resolve_intent_ascii "abcdefghijklmnopqrstu1234"
                                fields_empty_key false) = "custom"
  /\ kind (resolve_intent_ascii "abcdefghijklmnopqrstu1234"
                                fields_empty_key false) <> "builtin".
Proof.
  split; [vm_compute; reflexivity|].
  split; [vm_compute; discriminate|].
  split; [vm_compute; reflexivity|].
  vm_compute. discriminate.
Qed.

Lemma fuzzy_threshold_inclusive_witness :
  (best_ratio difflib.ratio
     (normalize_label_ascii "abcdefghijklmnopqrstu1234")
     (candidates_ascii fields_long_label) == 84 # 100)%Q
  /\ kind (resolve_intent_ascii "abcdefghijklmnopqrstu1234"
                                fields_long_label false) = "builtin"
  /\ kind (resolve_intent_ascii "abcdefghijklmnopqrst12345"
                                fields_long_label false) = "custom"
  /\ kind (resolve_intent_ascii "abcdefghijklmnopqrstu1234"
                                fields_empty_key false) = "custom".
Proof.
  split; [vm_compute; reflexivity|].
  split; [|split].
  - apply (fuzzy_threshold_inclusive SYNONYM_MAP TYPE_BY_BUILTIN
             nfkd_ascii combining_latin difflib.ratio
             "abcdefghijklmnopqrstu1234" fields_long_label false).
    + vm_compute. discriminate.
    + vm_compute. reflexivity.
    + vm_compute. discriminate.
    + vm_compute. discriminate.
  - apply (fuzzy_threshold_inclusive SYNONYM_MAP TYPE_BY_BUILTIN
             nfkd_ascii combining_latin difflib.ratio
             "abcdefghijklmnopqrst12345" fields_long_label false).
    + vm_compute. discriminate.
    + vm_compute. reflexivity.
    + left. vm_compute. reflexivity.
  - apply (fuzzy_threshold_inclusive SYNONYM_MAP TYPE_BY_BUILTIN
             nfkd_ascii combining_latin difflib.ratio
             "abcdefghijklmnopqrstu1234" fields_empty_key false).
    + vm_compute. discriminate.
    + vm_compute. reflexivity.
    + right. vm_compute. reflexivity.
Defined.

End IntentSamples.

(* ================================================================== *)
(** * The decimal money parser *)

Section MoneyParser.
Import Py processing.

Lemma quantize_cents_result (d d' : Decimal) :
  quantize_cents d = Some d' -> two_places d' \/ is_nan d'.
Proof.
  unfold quantize_cents.
  destruct d as [s c e|s|s [|] payload]; try discriminate.
  - destruct (c =? 0)%Z;
      [intro E; inversion E; subst; left; reflexivity|].
    destruct (context_Emax <? e + num_digits c - 1)%Z; [discriminate|].
    destruct (context_prec <? e + num_digits c - 1 + 2 + 1)%Z;
      [discriminate|].
    destruct (context_prec <? num_digits _)%Z; [discriminate|].
    intro E; inversion E; subst; left; reflexivity.
  - intro E; inversion E; subst; right; exact I.
Qed.

(** [quantize] hands a quiet NaN through, and nothing else gives one. *)
Lemma quantize_cents_nan (d d' : Decimal) :
  quantize_cents d = Some d' -> is_nan d' ->
  exists s payload, d = DNaN s false payload.
Proof.
  unfold quantize_cents.
  destruct d as [s c e|s|s [|] payload]; try discriminate.
  - destruct (c =? 0)%Z;
      [intro E; inversion E; subst; intros []|].
    destruct (context_Emax <? e + num_digits c - 1)%Z; [discriminate|].
    destruct (context_prec <? e + num_digits c - 1 + 2 + 1)%Z;
      [discriminate|].
    destruct (context_prec <? num_digits _)%Z; [discriminate|].
    intro E; inversion E; subst; intros [].
  - intros _ _. exists s, payload. reflexivity.
Qed.

Lemma quantized_two_places (raw : string) (d : Decimal) :
  match Decimal_of_str raw with
  | Some (DNaN _ false _) => true
  | _ => false
  end = false ->
  quantized raw = Some d -> two_places d.
Proof.
  unfold quantized. intros Hn H.
  destruct (Decimal_of_str raw) as [x|]; [|discriminate].
  destruct (quantize_cents_result x d H) as [Ht|Hnan]; [exact Ht|].
  destruct (quantize_cents_nan x d H Hnan) as [s [payload ->]].
  discriminate.
Qed.

Lemma str_printable (v : value) :
  printable v = true -> str v = Ok (py_str v).
Proof. intro H. unfold str. rewrite H. reflexivity. Qed.

(** What [_parse_decimal] does with an object [str] prints. *)
Lemma parse_decimal_operand (v : value) :
  printable v = true ->
  _parse_decimal (IsObject v)
  = Ok (match decimal_operand v with
        | Some raw => quantized raw
        | None => None
        end).
Proof.
  intro Hp. unfold _parse_decimal, decimal_operand.
  destruct v as [|b|z|f|s|xs|items];
    try reflexivity;
    try (rewrite (str_printable _ Hp); reflexivity).
  - destruct s as [|c s]; [reflexivity|].
    rewrite (str_printable _ Hp). cbn [bind].
    destruct (Str.is_empty _); [reflexivity|].
    destruct (Str.has_char "," _ && Str.has_char "." _); [reflexivity|].
    destruct (Str.has_char "," _ && negb _); reflexivity.
  - rewrite (str_printable _ Hp). cbn [bind].
    destruct (Str.is_empty _); [reflexivity|].
    destruct (Str.has_char "," _ && Str.has_char "." _); [reflexivity|].
    destruct (Str.has_char "," _ && negb _); reflexivity.
  - rewrite (str_printable _ Hp). cbn [bind].
    destruct (Str.is_empty _); [reflexivity|].
    destruct (Str.has_char "," _ && Str.has_char "." _); [reflexivity|].
    destruct (Str.has_char "," _ && negb _); reflexivity.
Qed.

(** The two slips the amended claim leaves out: a text that reads as a
    quiet NaN comes back as a NaN, which [quantize] does not refuse;
    and [str] raises [ValueError], which is not caught, on an integer
    it does not print. *)
Lemma parse_decimal_nan (v : value) :
  printable v = true -> reads_as_nan v = true ->
  exists d, _parse_decimal (IsObject v) = Ok (Some d) /\ is_nan d.
Proof.
  intros Hp Hn. rewrite (parse_decimal_operand v Hp).
  unfold reads_as_nan in Hn. unfold quantized.
  destruct (decimal_operand v) as [raw|]; [|discriminate].
  destruct (Decimal_of_str raw) as [[s c e|s|s [|] payload]|];
    try discriminate.
  eexists. split; [reflexivity | exact I].
Qed.

Lemma parse_decimal_unprintable (v : value) :
  printable v = false -> _parse_decimal (IsObject v) = Raise ValueError.
Proof.
  intro Hp. unfold _parse_decimal.
  destruct v as [|b|z|f|s|xs|items]; try discriminate Hp;
    unfold str; rewrite Hp; reflexivity.
Qed.

(** The examples of the specification: ["1.234,56"] is 1234.56,
    ["10,00"] is 10.00 and ["abc"] is nothing. *)
Lemma money_examples :
  _parse_decimal (IsObject (VStr "1.234,56"))
  = Ok (Some (DFinite false 123456 (-2)))
  /\ _parse_decimal (IsObject (VStr "10,00"))
     = Ok (Some (DFinite false 1000 (-2)))
  /\ _parse_decimal (IsObject (VStr "abc")) = Ok None.
Proof. repeat split; vm_compute; reflexivity. Qed.

(** C2 as the claim states it fails: a decimal with three decimal
    places comes back as it is. *)
Lemma decimal_input_not_quantized :
  _parse_decimal (IsDecimal (DFinite false 1234 (-3)))
  = Ok (Some (DFinite false 1234 (-3)))
  /\ ~ two_places (DFinite false 1234 (-3)).
Proof. split; [reflexivity | discriminate]. Qed.

(** C2, as amended: a [Decimal] comes back unchanged; any other input
    comes back as nothing or as a decimal with exactly two decimal
    places.  The inputs on which the code slips are left out: an
    object that reads as a quiet NaN, and an integer that [str] does
    not print. *)
Theorem parse_decimal_two_places :
  (forall d, _parse_decimal (IsDecimal d) = Ok (Some d))
  /\ (forall v,
        printable v = true -> reads_as_nan v = false ->
        exists r, _parse_decimal (IsObject v) = Ok r
                  /\ forall d, r = Some d -> two_places d).
Proof.
  split; [reflexivity|].
  intros v Hp Hn. rewrite (parse_decimal_operand v Hp).
  eexists. split; [reflexivity|].
  unfold reads_as_nan in Hn.
  destruct (decimal_operand v) as [raw|]; [|discriminate].
  intros d Hd. apply (quantized_two_places raw d Hn Hd).
Qed.

Lemma parse_decimal_two_places_witness :
  _parse_decimal (IsObject (VStr "1.234,56"))
  = Ok (Some (DFinite false 123456 (-2)))
  /\ two_places (DFinite false 123456 (-2)).
Proof.
  destruct (proj2 parse_decimal_two_places (VStr "1.234,56")
              eq_refl ltac:(vm_compute; reflexivity)) as [r [Hr Ht]].
  assert (Hv : _parse_decimal (IsObject (VStr "1.234,56"))
               = Ok (Some (DFinite false 123456 (-2))))
    by (vm_compute; reflexivity).
  split; [exact Hv|].
  apply Ht. rewrite Hv in Hr. inversion Hr. reflexivity.
Defined.

End MoneyParser.

(* ================================================================== *)
(** * Further properties of ai_extraction.py *)

Section MoreCleanerProperties.
Import Py Tidy ai_extraction Samples.

(** What [_clean_text] returns has no white space around it, is left
    as it is by [" ".join(s.split())], and is within [max_len] when
    [max_len] is not 0. *)
Theorem clean_text_normal_form (v : value) (n : nat) :
  Str.strip (_clean_text v n) = _clean_text v n
  /\ Str.join " " (Str.split (_clean_text v n)) = _clean_text v n
  /\ String.length (_clean_text v (S n)) <= S n.
Proof.
  pose proof (clean_text_tidy v n) as Ht.
  split; [apply tidy_strip, Ht|].
  split; [apply join_split_tidy, Ht|].
  apply clean_text_length. discriminate.
Qed.

(** Cleaning a text that was cleaned with the same limit changes
    nothing. *)
Theorem clean_text_idempotent (v : value) (n : nat) :
  _clean_text (VStr (_clean_text v n)) n = _clean_text v n.
Proof.
  apply clean_text_fixed; [apply clean_text_tidy|].
  destruct n as [|n]; [left; reflexivity|].
  right. apply clean_text_length. discriminate.
Qed.

(** The entries [_clean_list] returns are not empty, fit [max_len],
    differ from one another even when case is ignored, and are
    [max_items] at most. *)
Theorem clean_list_unique_capped (v : value) (max_items max_len : nat) :
  let out := _clean_list v (S max_items) (S max_len) in
  NoDup (map Str.lower out)
  /\ List.length out <= S max_items
  /\ Forall (fun s => s <> "" /\ String.length s <= S max_len) out.
Proof.
  intro out.
  destruct (clean_list_spec (S max_items) (S max_len)
              ltac:(discriminate) ltac:(lia) v) as [H1 [H2 H3]].
  fold out in H1, H2, H3.
  split; [exact H2|]. split; [exact H3|].
  eapply Forall_impl; [|exact H1].
  intros s [_ H]. exact H.
Qed.

(** Cleaning the list that [_clean_list] returned gives it back. *)
Theorem clean_list_idempotent (v : value) (max_items max_len : nat) :
  _clean_list (VList (map VStr (_clean_list v (S max_items) (S max_len))))
              (S max_items) (S max_len)
  = _clean_list v (S max_items) (S max_len).
Proof.
  destruct (clean_list_spec (S max_items) (S max_len)
              ltac:(discriminate) ltac:(lia) v) as [H1 [H2 H3]].
  unfold _clean_list at 1.
  apply (clean_list_loop_fixed (S max_items) (S max_len)
           ltac:(discriminate) _ [] []); auto.
  intro w. simpl. split; [discriminate | tauto].
Qed.

Lemma take_all (n : nat) (s : string) :
  String.length s <= n -> Str.take n s = s.
Proof.
  revert s; induction n as [|n IH]; intros [|c r]; simpl; try reflexivity.
  - lia.
  - intro H. rewrite IH; [reflexivity | lia].
Qed.

Lemma take_length_min (n : nat) (s : string) :
  String.length (Str.take n s) = Nat.min n (String.length s).
Proof.
  revert s; induction n as [|n IH]; intros [|c r]; simpl; try reflexivity.
  rewrite IH. reflexivity.
Qed.

(** With a positive [max_chars], [_truncate_text] returns the first
    [max_chars] characters of the stripped text, so [max_chars]
    characters at most, and says whether it cut anything; with
    [max_chars <= 0] it returns the stripped text whole. *)
Theorem truncate_text_spec (text : string) (max_chars : Z) :
  ((0 < max_chars)%Z ->
   fst (_truncate_text text max_chars)
   = Str.take (Z.to_nat max_chars) (Str.strip text)
   /\ (Z.of_nat (String.length (fst (_truncate_text text max_chars)))
       <= max_chars)%Z
   /\ (snd (_truncate_text text max_chars) = true
       <-> (max_chars < Z.of_nat (String.length (Str.strip text)))%Z))
  /\ ((max_chars <= 0)%Z ->
      _truncate_text text max_chars = (Str.strip text, false)).
Proof.
  unfold _truncate_text. split.
  - intro Hpos.
    destruct (max_chars <=? 0)%Z eqn:H0; [apply Z.leb_le in H0; lia|].
    destruct (Z.of_nat (String.length (Str.strip text)) <=? max_chars)%Z
      eqn:Hl; cbn [fst snd].
    + apply Z.leb_le in Hl. repeat split.
      * rewrite take_all; [reflexivity | lia].
      * exact Hl.
      * discriminate.
      * lia.
    + apply Z.leb_gt in Hl. repeat split.
      * rewrite take_length_min. lia.
      * intros _. exact Hl.
  - intro Hle. apply Z.leb_le in Hle. rewrite Hle. reflexivity.
Qed.

Lemma truncate_text_spec_witness :
  fst (_truncate_text "  abcdef  " 4) = "abcd"
  /\ _truncate_text "  abcdef  " 0 = ("abcdef", false).
Proof.
  split.
  - exact (proj1 (proj1 (truncate_text_spec "  abcdef  " 4) ltac:(lia))).
  - exact (proj2 (truncate_text_spec "  abcdef  " 0) ltac:(lia)).
Defined.

End MoreCleanerProperties.

Section MoreNormalizerProperties.
Import Py Tidy ai_extraction Samples.

Ltac dict_compute :=
  unfold normalized_dict;
  cbn [normalized_dict get_path fold_left list_len as_dict as_list dict_get
       String.eqb Ascii.eqb Bool.eqb].

Lemma normalize_bounds_witness :
  normalize_ai_payload payload_resume = Ok normalized_resume
  /\ list_len (get_path normalized_resume ["person"; "emails"]) <= 10.
Proof.
  assert (H : normalize_ai_payload payload_resume = Ok normalized_resume)
    by (vm_compute; reflexivity).
  split; [exact H|].
  exact (proj1 (proj2 (proj2 (proj2
           (normalize_bounds payload_resume normalized_resume H))))).
Defined.



Lemma normalize_skill_level (item : value) (d : dict) :
  _normalize_skill item = Some d ->
  exists l, dict_get d "level" = VStr l
            /\ Str.mem l SKILL_LEVEL_CHOICES = true.
Proof.
  unfold _normalize_skill. destruct item; try discriminate.
  destruct (Str.is_empty _); [discriminate|].
  destruct (Str.is_empty _); [discriminate|].
  intro E; inversion E; subst.
  eexists. split; [reflexivity|]. apply choice_in. reflexivity.
Qed.

(** The document type, the seniority and the level of every skill of a
    normalised payload are taken from their lists of allowed values. *)
Theorem normalize_enums_in_choices (payload out : value) :
  normalize_ai_payload payload = Ok out ->
  (exists t, get_path out ["doc_type"] = VStr t
             /\ Str.mem t DOC_TYPE_CHOICES = true)
  /\ (exists s, get_path out ["experience"; "seniority"] = VStr s
                /\ Str.mem s SENIORITY_CHOICES = true)
  /\ (forall skill, In skill (as_list (get_path out ["skills"])) ->
                    exists l, dict_get (as_dict skill) "level" = VStr l
                              /\ Str.mem l SKILL_LEVEL_CHOICES = true).
Proof.
  intro H. apply normalize_shape in H
    as [age [years [overall [Ha [Hy [Ho ->]]]]]].
  dict_compute. split; [|split].
  - eexists. split; [reflexivity | apply choice_in; reflexivity].
  - eexists. split; [reflexivity | apply choice_in; reflexivity].
  - intro skill.
    rewrite (collect_spec _ 30 _ normalize_skill_nonempty []) by (simpl; lia).
    cbn [app]. intro Hin. apply in_firstn in Hin.
    unfold kept in Hin. apply in_flat_map in Hin as [item [_ Hi]].
    destruct (_normalize_skill item) as [d|] eqn:E; [|destruct Hi].
    destruct Hi as [<-|[]]. apply (normalize_skill_level item d E).
Qed.

Lemma normalize_enums_in_choices_witness :
  normalize_ai_payload payload_resume = Ok normalized_resume
  /\ exists t, get_path normalized_resume ["doc_type"] = VStr t
               /\ Str.mem t DOC_TYPE_CHOICES = true.
Proof.
  assert (H : normalize_ai_payload payload_resume = Ok normalized_resume)
    by (vm_compute; reflexivity).
  split; [exact H|].
  exact (proj1 (normalize_enums_in_choices payload_resume
                  normalized_resume H)).
Defined.

End MoreNormalizerProperties.

(* ================================================================== *)
(** * Further properties of ai_filters.py *)

Section MoreStringFacts.
Import Tidy.

Lemma length_app (a b : string) :
  String.length (a ++ b) = String.length a + String.length b.
Proof. induction a as [|c a IH]; simpl; [reflexivity | rewrite IH; reflexivity]. Qed.










End MoreStringFacts.

Section MoreFilterProperties.
Import Py Tidy ai_filters Samples.

Variable nfm : value -> string.

Lemma filters_clean_text_eq (v : value) (n : nat) :
  ai_filters._clean_text v n = ai_extraction._clean_text v n.
Proof. reflexivity. Qed.

Lemma truncate_fits (text : string) (max_len : nat) :
  String.length (_clean_text (VStr text) 0) <= max_len ->
  _truncate text max_len = _clean_text (VStr text) 0.
Proof.
  intro H. unfold _truncate, _clean_text in *. cbn [py_str] in *.
  set (cleaned := Str.strip (Str.join " " (Str.split text))) in *.
  cbn [Nat.eqb negb andb] in H.
  assert (Hn : (Nat.max (max_len * 4) max_len <? String.length cleaned)
               = false)
    by (apply Nat.ltb_ge; lia).
  rewrite Hn, andb_false_r.
  apply Nat.leb_le in H. rewrite H. reflexivity.
Qed.

Lemma truncate_length (text : string) (max_len : nat) :
  3 <= max_len -> String.length (_truncate text max_len) <= max_len.
Proof.
  intro H3. unfold _truncate.
  set (clean := _clean_text (VStr text) (Nat.max (max_len * 4) max_len)).
  destruct (String.length clean <=? max_len) eqn:Hl.
  - apply Nat.leb_le in Hl. exact Hl.
  - unfold slice_to.
    assert (H0 : (0 <=? Z.of_nat max_len - 3)%Z = true)
      by (apply Z.leb_le; lia).
    rewrite H0, length_app.
    pose proof (rstrip_length
                  (Str.take (Z.to_nat (Z.of_nat max_len - 3)) clean)) as Hr.
    pose proof (take_length (Z.to_nat (Z.of_nat max_len - 3)) clean) as Ht.
    simpl String.length. lia.
Qed.

(** [_truncate] with [max_len >= 3] returns [max_len] characters at
    most, and the cleaned text itself when that fits. *)
Theorem truncate_bounded (text : string) (max_len : nat) :
  3 <= max_len ->
  String.length (_truncate text max_len) <= max_len
  /\ (String.length (_clean_text (VStr text) 0) <= max_len ->
      _truncate text max_len = _clean_text (VStr text) 0).
Proof.
  intro H3. split; [apply truncate_length, H3 | apply truncate_fits].
Qed.



Lemma append_entries (label evidence : value) :
  Forall (fun p => fst p <> "" /\ snd p <> "" /\ tidy (snd p)
                   /\ String.length (snd p) <= 300)
         (_append nfm label evidence).
Proof.
  unfold _append.
  destruct (Str.is_empty (_clean_text evidence 300)) eqn:He; [constructor|].
  destruct (Str.is_empty (nfm _)) eqn:Hs; [constructor|].
  constructor; [|constructor]. cbn [fst snd].
  apply is_empty_false in He, Hs.
  repeat split; try assumption.
  - rewrite filters_clean_text_eq. apply clean_text_tidy.
  - rewrite filters_clean_text_eq. apply clean_text_tidy.
  - rewrite filters_clean_text_eq. apply clean_text_length. discriminate.
Qed.

Lemma Forall_flat_map' (A B : Type) (P : B -> Prop) (f : A -> list B)
      (l : list A) :
  (forall a, Forall P (f a)) -> Forall P (flat_map f l).
Proof.
  intro H. induction l as [|a l IH]; simpl; [constructor|].
  apply Forall_app. split; [apply H | exact IH].
Qed.

Lemma index_entries (ai_payload : dict) :
  Forall (fun p => fst p <> "" /\ snd p <> "" /\ tidy (snd p)
                   /\ String.length (snd p) <= 300)
         (_build_evidence_index nfm ai_payload).
Proof.
  unfold _build_evidence_index.
  repeat (apply Forall_app; split);
    try apply append_entries;
    apply Forall_flat_map'; intro a; apply append_entries.
Qed.

(** Every entry of the evidence index has a searchable text and an
    evidence that are not empty; the evidence has no white space around
    it and 300 characters at most. *)
Theorem evidence_index_entries (ai_payload : dict) :
  Forall (fun p => fst p <> "" /\ snd p <> ""
                   /\ Str.strip (snd p) = snd p
                   /\ String.length (snd p) <= 300)
         (_build_evidence_index nfm ai_payload).
Proof.
  eapply Forall_impl; [|apply index_entries].
  intros p [H1 [H2 [H3 H4]]]. repeat split; try assumption.
  apply tidy_strip, H3.
Qed.

Lemma first_hit_some (term : string) (index : list (string * string))
      (e : string) :
  first_hit term index = Some e ->
  exists s, In (s, e) index /\ Str.contains term s = true.
Proof.
  induction index as [|[s e'] rest IH]; simpl; [discriminate|].
  destruct (Str.contains term s) eqn:Hc.
  - intro E; inversion E; subst. exists s. auto.
  - intro H. destruct (IH H) as [s' [Hin Hs]]. exists s'. auto.
Qed.


Lemma first_term_hit_some (terms : list string)
      (index : list (string * string)) (e : string) :
  first_term_hit terms index = Some e ->
  exists t s, In t terms /\ In (s, e) index /\ Str.contains t s = true.
Proof.
  induction terms as [|t rest IH]; simpl; [discriminate|].
  destruct (first_hit t index) as [e'|] eqn:Hh.
  - intro E; inversion E; subst.
    destruct (first_hit_some _ _ _ Hh) as [s [Hin Hs]].
    exists t, s. auto.
  - intro H. destruct (IH H) as [t' [s [Ht [Hin Hs]]]].
    exists t', s. auto.
Qed.



(** A snippet is empty or the truncation of an evidence of the index,
    and with [max_len >= 3] it has [max_len] characters at most. *)
Theorem snippet_is_truncated_evidence (doc : doc_or_json)
        (terms : list string) (max_len : nat) (use_first : bool) :
  3 <= max_len ->
  let snippet := find_evidence_snippet nfm doc terms max_len use_first in
  String.length snippet <= max_len
  /\ (snippet = ""
      \/ exists s e,
           In (s, e) (_build_evidence_index nfm (get_ai_payload doc))
           /\ snippet = _truncate e max_len).
Proof.
  intros H3 snippet.
  assert (H : snippet = ""
              \/ exists s e,
                   In (s, e) (_build_evidence_index nfm (get_ai_payload doc))
                   /\ snippet = _truncate e max_len).
  { unfold snippet, find_evidence_snippet.
    destruct (get_ai_payload doc) as [|kv p] eqn:Hp; [left; reflexivity|].
    destruct (_build_evidence_index nfm (kv :: p)) as [|[s0 e0] idx] eqn:Hi;
      [left; reflexivity|].
    destruct (first_term_hit terms ((s0, e0) :: idx)) as [e|] eqn:Hh.
    - apply first_term_hit_some in Hh as [t [s [_ [Hin _]]]].
      right. exists s, e. auto.
    - destruct use_first; [|left; reflexivity].
      right. exists s0, e0. split; [left; reflexivity | reflexivity]. }
  split; [|exact H].
  destruct H as [->|[s [e [_ ->]]]]; [simpl; lia|].
  apply truncate_length, H3.
Qed.


(** ** The search blob *)

Lemma blob_loop_inv (todo chunks seen : list string) :
  NoDup chunks ->
  (forall x, In x chunks <-> In x seen) ->
  let cs := blob_loop nfm todo chunks seen in
  NoDup cs
  /\ (forall c, In c cs <->
                In c chunks
                \/ (c <> "" /\ exists t, In t todo /\ c = nfm (VStr t))).
Proof.
  revert chunks seen.
  induction todo as [|t rest IH]; intros chunks seen Hnd Hseen; cbn zeta.
  - simpl. split; [exact Hnd|]. intro c. split; [auto|].
    intros [H|[_ [t [[] _]]]]. exact H.
  - cbn [blob_loop].
    destruct (Str.is_empty (nfm (VStr t))) eqn:He; cbn [orb].
    + apply is_empty_true in He.
      destruct (IH chunks seen Hnd Hseen) as [H1 H2].
      split; [exact H1|]. intro c. rewrite H2. split.
      * intros [H|[Hc [t' [Ht' E]]]]; [auto|].
        right. split; [exact Hc|]. exists t'. simpl. auto.
      * intros [H|[Hc [t' [[<-|Ht'] E]]]]; [auto|congruence|].
        right. split; [exact Hc|]. exists t'. auto.
    + apply is_empty_false in He.
      destruct (Str.mem (nfm (VStr t)) seen) eqn:Hm.
      * apply mem_In in Hm. apply Hseen in Hm.
        destruct (IH chunks seen Hnd Hseen) as [H1 H2].
        split; [exact H1|]. intro c. rewrite H2. split.
        -- intros [H|[Hc [t' [Ht' E]]]]; [auto|].
           right. split; [exact Hc|]. exists t'. simpl. auto.
        -- intros [H|[Hc [t' [[<-|Ht'] E]]]]; [auto|subst c; auto|].
           right. split; [exact Hc|]. exists t'. auto.
      * assert (Hnin : ~ In (nfm (VStr t)) chunks).
        { intro H. apply Hseen in H. apply mem_In in H. congruence. }
        assert (Hnd' : NoDup (chunks ++ [nfm (VStr t)])).
        { apply NoDup_app; [exact Hnd | repeat constructor; auto |].
          intros x Hx [<-|[]]. exact (Hnin Hx). }
        assert (Hseen' : forall x, In x (chunks ++ [nfm (VStr t)])
                                   <-> In x (nfm (VStr t) :: seen)).
        { intro x. rewrite in_app_iff. simpl. rewrite Hseen. tauto. }
        destruct (IH _ _ Hnd' Hseen') as [H1 H2].
        split; [exact H1|]. intro c. rewrite H2, in_app_iff. simpl. split.
        -- intros [[H|[<-|[]]]|[Hc [t' [Ht' E]]]]; [auto| |].
           ++ right. split; [exact He|]. exists t. auto.
           ++ right. split; [exact Hc|]. exists t'. auto.
        -- intros [H|[Hc [t' [[<-|Ht'] E]]]]; [auto|subst c; auto|].
           right. split; [exact Hc|]. exists t'. auto.
Qed.

(** The chunks of the search blob are the normalised texts that are not
    empty, each of them once. *)
Theorem blob_chunks_unique (todo : list string) :
  NoDup (blob_loop nfm todo [] [])
  /\ forall c, In c (blob_loop nfm todo [] [])
               <-> c <> "" /\ exists t, In t todo /\ c = nfm (VStr t).
Proof.
  destruct (blob_loop_inv todo [] [] (NoDup_nil _) (fun x => iff_refl _))
    as [H1 H2].
  split; [exact H1|]. intro c. rewrite H2. simpl. tauto.
Qed.





(** A mode other than ["any"] is read as ["all"], and terms that match
    in mode ["all"] match in mode ["any"]. *)
Theorem terms_modes (doc : doc_or_json) (terms : list string)
        (mode : string) :
  (mode <> "any" ->
   document_matches_terms nfm doc terms mode
   = document_matches_terms nfm doc terms "all")
  /\ (document_matches_terms nfm doc terms "all" = true ->
      document_matches_terms nfm doc terms "any" = true).
Proof.
  unfold document_matches_terms. split.
  - intro Hm. apply String.eqb_neq in Hm. rewrite Hm. reflexivity.
  - destruct terms as [|t ts]; [reflexivity|].
    destruct (Str.is_empty _); [auto|].
    cbn [String.eqb Ascii.eqb Bool.eqb andb forallb existsb].
    intro H. apply andb_true_iff in H as [-> _]. reflexivity.
Qed.

End MoreFilterProperties.

Section NormalizerThenFilters.
Import Py Tidy ai_filters Samples.

Ltac dict_compute :=
  unfold normalized_dict;
  cbn [normalized_dict get_path fold_left list_len ai_extraction.as_dict
       ai_extraction.as_list _as_dict dict_get
       String.eqb Ascii.eqb Bool.eqb].

Lemma safe_int_in_bounds (o : option Z) (lo hi : Z) :
  (forall z, o = Some z -> (lo <= z <= hi)%Z) ->
  _safe_int (ai_extraction.opt_int o) lo hi = Ok o.
Proof.
  intro H. destruct o as [z|]; [|reflexivity].
  specialize (H z eq_refl). simpl.
  destruct (z <? lo)%Z eqn:H1; [apply Z.ltb_lt in H1; lia|].
  destruct (hi <? z)%Z eqn:H2; [apply Z.ltb_lt in H2; lia|].
  reflexivity.
Qed.

Lemma resolve_on_shape (p : dict) (age years : option Z)
      (overall : spec_float) (doc : doc_or_json) :
  (forall z, years = Some z -> (0 <= z <= 60)%Z) ->
  (forall z, age = Some z -> (0 <= z <= 120)%Z) ->
  get_ai_payload doc
  = ai_extraction.as_dict (normalized_dict p age years overall) ->
  resolve_experience_years doc
  = match years with
    | Some y => Ok (Some y)
    | None => _safe_int (getattr doc "extracted_experience_years" VNone) 0 60
    end
  /\ resolve_age_years doc
     = match age with
       | Some a => Ok (Some a)
       | None => _safe_int (getattr doc "extracted_age_years" VNone) 0 120
       end.
Proof.
  intros Hy Ha Hdoc.
  unfold resolve_experience_years, resolve_age_years. rewrite Hdoc.
  dict_compute.
  rewrite (safe_int_in_bounds years 0 60 Hy).
  rewrite (safe_int_in_bounds age 0 120 Ha).
  cbn [bind]. destruct years, age; split; reflexivity.
Qed.

(** The filters read back the numbers the normaliser stored: on a
    document whose AI payload is a result of [normalize_ai_payload],
    the years of experience and the age are the stored ones, and the
    heuristic fields are looked at only where the payload has [None]. *)
Theorem normalized_numbers_read_back (payload out : value)
        (doc : doc_or_json) :
  ai_extraction.normalize_ai_payload payload = Ok out ->
  get_ai_payload doc = ai_extraction.as_dict out ->
  exists years age,
    get_path out ["experience"; "years_estimate"]
    = ai_extraction.opt_int years
    /\ get_path out ["person"; "age_estimate_years"]
       = ai_extraction.opt_int age
    /\ resolve_experience_years doc
       = match years with
         | Some y => Ok (Some y)
         | None => _safe_int (getattr doc "extracted_experience_years" VNone)
                             0 60
         end
    /\ resolve_age_years doc
       = match age with
         | Some a => Ok (Some a)
         | None => _safe_int (getattr doc "extracted_age_years" VNone) 0 120
         end.
Proof.
  intros H Hdoc. apply normalize_shape in H
    as [age [years [overall [Ha [Hy [Ho ->]]]]]].
  exists years, age.
  destruct (resolve_on_shape (ai_extraction.as_dict payload) age years
              overall doc) as [H1 H2].
  - intros z ->. apply (clean_int_bounds _ _ _ _ Hy).
  - intros z ->. apply (clean_int_bounds _ _ _ _ Ha).
  - exact Hdoc.
  - split; [reflexivity|]. split; [reflexivity|]. split; assumption.
Qed.

Lemma safe_int_returns (o : option Z) (lo hi : Z) :
  exists r, _safe_int (ai_extraction.opt_int o) lo hi = Ok r.
Proof.
  destruct o as [z|]; [|exists None; reflexivity].
  simpl. destruct (_ || _); eexists; reflexivity.
Qed.

(** The range check returns on every document that holds a normalised
    payload and whose heuristic numbers are integers or [None], as the
    fields of the model are: both values resolve, and the check is made
    on them. *)
Theorem ranges_return_on_normalized (payload out : value)
        (doc : doc_or_json) (experience age : option Z) (r : ranges) :
  ai_extraction.normalize_ai_payload payload = Ok out ->
  get_ai_payload doc = ai_extraction.as_dict out ->
  getattr doc "extracted_experience_years" VNone
  = ai_extraction.opt_int experience ->
  getattr doc "extracted_age_years" VNone = ai_extraction.opt_int age ->
  exists experience_value age_value,
    resolve_experience_years doc = Ok experience_value
    /\ resolve_age_years doc = Ok age_value
    /\ document_passes_ranges doc r
       = Ok (passes_ranges experience_value age_value r).
Proof.
  intros H Hdoc He Ha.
  apply normalize_shape in H
    as [age' [years [overall [Ha' [Hy' [Ho ->]]]]]].
  destruct (resolve_on_shape (ai_extraction.as_dict payload) age' years
              overall doc) as [Hy Hg];
    [intros z ->; apply (clean_int_bounds _ _ _ _ Hy')
    |intros z ->; apply (clean_int_bounds _ _ _ _ Ha')
    |exact Hdoc|].
  destruct (safe_int_returns experience 0 60) as [re Hre].
  destruct (safe_int_returns age 0 120) as [ra Hra].
  rewrite He, Hre in Hy. rewrite Ha, Hra in Hg.
  unfold document_passes_ranges. rewrite Hy, Hg.
  destruct years as [y|], age' as [a|]; cbn [bind]; eexists; eexists;
    repeat split.
Qed.

Lemma normalized_numbers_read_back_witness :
  exists years age,
    get_path normalized_resume ["experience"; "years_estimate"]
    = ai_extraction.opt_int years
    /\ get_path normalized_resume ["person"; "age_estimate_years"]
       = ai_extraction.opt_int age
    /\ resolve_experience_years (IsDict [("ai", normalized_resume)])
       = match years with
         | Some y => Ok (Some y)
         | None =>
             _safe_int (getattr (IsDict [("ai", normalized_resume)])
                                "extracted_experience_years" VNone) 0 60
         end
    /\ resolve_age_years (IsDict [("ai", normalized_resume)])
       = match age with
         | Some a => Ok (Some a)
         | None =>
             _safe_int (getattr (IsDict [("ai", normalized_resume)])
                                "extracted_age_years" VNone) 0 120
         end.
Proof.
  apply (normalized_numbers_read_back payload_resume normalized_resume
           (IsDict [("ai", normalized_resume)])).
  - vm_compute. reflexivity.
  - reflexivity.
Defined.

Lemma truncate_bounded_witness :
  String.length (_truncate "Trabalhou   de 2018 ate atual." 12) <= 12.
Proof.
  exact (proj1 (truncate_bounded "Trabalhou   de 2018 ate atual." 12
                  ltac:(lia))).
Defined.

Lemma ranges_return_on_normalized_witness :
  exists experience_value age_value,
    resolve_experience_years (IsDict [("ai", normalized_resume)])
    = Ok experience_value
    /\ resolve_age_years (IsDict [("ai", normalized_resume)])
       = Ok age_value
    /\ document_passes_ranges (IsDict [("ai", normalized_resume)])
                              (experience_min 5 true)
       = Ok (passes_ranges experience_value age_value
                           (experience_min 5 true)).
Proof.
  apply (ranges_return_on_normalized payload_resume normalized_resume
           (IsDict [("ai", normalized_resume)]) None None).
  - vm_compute. reflexivity.
  - reflexivity.
  - reflexivity.
  - reflexivity.
Defined.

Lemma snippet_is_truncated_evidence_witness :
  String.length
    (find_evidence_snippet normalize_for_match doc_ai6_heuristic1
                           ["2018"] 12 false) <= 12.
Proof.
  exact (proj1 (snippet_is_truncated_evidence normalize_for_match
                  doc_ai6_heuristic1 ["2018"] 12 false ltac:(lia))).
Defined.



Lemma terms_modes_witness :
  document_matches_terms normalize_for_match doc_ai6_heuristic1
                         ["senior"; "2018"] "any" = true.
Proof.
  apply (proj2 (terms_modes normalize_for_match doc_ai6_heuristic1
                  ["senior"; "2018"] "all")).
  vm_compute. reflexivity.
Defined.

End NormalizerThenFilters.

(* ================================================================== *)
(** * Further properties of intent.py *)

Section MoreIntentProperties.
Import intent.

Variable SYNONYM_MAP : list (string * string).
Variable TYPE_BY_BUILTIN : list (string * string).
Variable NFKD : string -> string.
Variable combining : ascii -> bool.
Variable ratio : string -> string -> Q.

Local Abbreviation normalize_label := (_normalize_label NFKD combining).
Local Abbreviation candidates_of :=
  (_build_builtin_candidates SYNONYM_MAP NFKD combining).
Local Abbreviation resolve :=
  (resolve_intent SYNONYM_MAP TYPE_BY_BUILTIN NFKD combining ratio).
Local Abbreviation build_anchors :=
  (_build_anchors SYNONYM_MAP NFKD combining).

Lemma last_match_in (normalized : string) (cs : list candidate)
      (key strategy : string) :
  last_match normalized cs = Some (key, strategy) ->
  In (normalized, key, strategy) cs.
Proof.
  unfold last_match, first_match.
  destruct (find _ (rev cs)) as [[[t k] st]|] eqn:E; [|discriminate].
  apply find_some in E as [Hin Hc]. apply in_rev in Hin.
  cbn [fst snd] in Hc. apply String.eqb_eq in Hc. subst t.
  cbn [option_map fst snd]. intro H; inversion H; subst. exact Hin.
Qed.

Lemma fuzzy_provenance (normalized : string) (cs : list candidate) :
  forall best,
    fold_left (fuzzy_step ratio normalized) cs best = best
    \/ exists c, In c cs
                 /\ fold_left (fuzzy_step ratio normalized) cs best
                    = (snd (fst c), ratio normalized (fst (fst c)), snd c).
Proof.
  induction cs as [|c cs IH]; intro best; cbn [fold_left]; [left; reflexivity|].
  destruct (IH (fuzzy_step ratio normalized best c)) as [E|[c' [Hin E]]].
  - rewrite E, (fuzzy_step_eq ratio).
    destruct (Qltb _ _); [|left; reflexivity].
    right. exists c. split; [left; reflexivity | reflexivity].
  - right. exists c'. split; [right; exact Hin | exact E].
Qed.

(** What [resolve_intent] can return, whatever [allow_llm] is: a custom
    field, with no key and confidence 0; or a builtin field whose key is
    the key of a candidate, either a candidate whose text is the
    normalised label, with its strategy and confidence 1, or, marked
    fuzzy, a candidate whose ratio to the normalised label is the
    confidence and reaches the threshold. *)
Theorem resolve_intent_outcomes (label : string)
        (builtin_fields : list (string * string)) (allow_llm : bool) :
  let r := resolve label builtin_fields allow_llm in
  (kind r = "custom" /\ builtin_key r = "" /\ confidence r = 0%Q
   /\ (match_strategy r = "empty" \/ match_strategy r = "custom"))
  \/ (kind r = "builtin"
      /\ exists c : candidate,
           In c (candidates_of builtin_fields)
           /\ builtin_key r = snd (fst c)
           /\ ((fst (fst c) = normalize_label label
                /\ match_strategy r = snd c /\ confidence r = 1%Q)
               \/ (match_strategy r = "fuzzy"
                   /\ builtin_key r <> ""
                   /\ confidence r
                      = ratio (normalize_label label) (fst (fst c))
                   /\ (FUZZY_THRESHOLD <= confidence r)%Q))).
Proof.
  cbv zeta. unfold resolve_intent.
  destruct (Str.is_empty (normalize_label label)) eqn:He.
  - left. cbn. auto.
  - rewrite exact_lookup_last.
    destruct (last_match (normalize_label label)
                         (candidates_of builtin_fields))
      as [[key strategy]|] eqn:Hl.
    + right. cbn [kind builtin_key match_strategy confidence].
      split; [reflexivity|].
      exists (normalize_label label, key, strategy).
      split; [apply last_match_in, Hl|].
      cbn [fst snd]. auto.
    + destruct (fuzzy_best ratio (normalize_label label)
                           (candidates_of builtin_fields))
        as [[best_key best_score] best_strategy] eqn:Hb.
      destruct (negb (Str.is_empty best_key)
                && Qle_bool FUZZY_THRESHOLD best_score) eqn:Hc.
      * right. cbn [kind builtin_key match_strategy confidence].
        split; [reflexivity|].
        apply andb_true_iff in Hc as [Hk Hs].
        apply negb_true_iff, is_empty_false in Hk.
        apply Qle_bool_iff in Hs.
        unfold fuzzy_best in Hb.
        destruct (fuzzy_provenance (normalize_label label)
                    (candidates_of builtin_fields) ("", 0%Q, ""))
          as [E|[c [Hin E]]]; rewrite E in Hb.
        -- inversion Hb; subst. congruence.
        -- inversion Hb; subst. exists c. split; [exact Hin|].
           split; [reflexivity|]. right. auto.
      * left.
        assert (Hllm : (if allow_llm then resolve_intent_with_llm label
                        else None) = None) by (destruct allow_llm; reflexivity).
        rewrite Hllm. cbn. auto.
Qed.

(** ** Ties in the fuzzy loop *)

(** The fuzzy loop keeps the first of the candidates with the greatest
    ratio: a candidate with a positive ratio that is greater than the
    ratios before it and not less than the ratios after it gives the
    key, the score and the strategy. *)
Theorem fuzzy_first_best_wins (normalized : string)
        (before after : list candidate) (c : candidate) :
  (0 < ratio normalized (fst (fst c)))%Q ->
  (forall c', In c' before ->
              (ratio normalized (fst (fst c'))
               < ratio normalized (fst (fst c)))%Q) ->
  (forall c', In c' after ->
              (ratio normalized (fst (fst c'))
               <= ratio normalized (fst (fst c)))%Q) ->
  fuzzy_best ratio normalized (before ++ c :: after)
  = (snd (fst c), ratio normalized (fst (fst c)), snd c).
Proof.
  intros Hpos Hbefore Hafter. unfold fuzzy_best.
  rewrite fold_left_app. cbn [fold_left].
  pose proof (fuzzy_below ratio normalized _ before Hbefore
                ("", 0%Q, "") Hpos) as Hlt.
  rewrite (fuzzy_step_eq ratio).
  apply Qltb_lt in Hlt. rewrite Hlt.
  apply (fuzzy_kept ratio). exact Hafter.
Qed.

(** ** Anchors *)

Lemma unique_anchors_inv (l : list string) :
  forall seen,
    let out := unique_anchors NFKD combining l seen in
    NoDup (map normalize_label out)
    /\ Forall (fun a => normalize_label a <> ""
                        /\ ~ In (normalize_label a) seen /\ In a l) out.
Proof.
  induction l as [|a l IH]; intro seen; cbn zeta; cbn [unique_anchors].
  - split; constructor.
  - destruct (Str.is_empty (normalize_label a)) eqn:He; cbn [orb].
    + destruct (IH seen) as [H1 H2]. split; [exact H1|].
      eapply Forall_impl; [|exact H2].
      intros x [Hx1 [Hx2 Hx3]]. repeat split; auto. right. exact Hx3.
    + destruct (Str.mem (normalize_label a) seen) eqn:Hm.
      * destruct (IH seen) as [H1 H2]. split; [exact H1|].
        eapply Forall_impl; [|exact H2].
        intros x [Hx1 [Hx2 Hx3]]. repeat split; auto. right. exact Hx3.
      * destruct (IH (normalize_label a :: seen)) as [H1 H2].
        split.
        -- cbn [map]. constructor; [|exact H1].
           intro Hin. apply in_map_iff in Hin as [x [Ex Hx]].
           rewrite Forall_forall in H2.
           destruct (H2 x Hx) as [_ [Hn _]]. apply Hn. left. symmetry.
           exact Ex.
        -- constructor.
           ++ split; [apply is_empty_false, He|].
              split; [|left; reflexivity].
              intro Hin. apply mem_In in Hin. congruence.
           ++ eapply Forall_impl; [|exact H2].
              intros x [Hx1 [Hx2 Hx3]]. repeat split; auto.
              ** intro Hin. apply Hx2. right. exact Hin.
              ** right. exact Hx3.
Qed.

(** The anchors differ from one another once normalised, none of them
    normalises to the empty text, and each of them is the stripped
    label, the label of the field in the registry, or a phrase of the
    synonym table that stands for the key. *)
Theorem build_anchors_unique (label builtin_key : string)
        (builtin_fields : list (string * string)) :
  let out := build_anchors label builtin_key builtin_fields in
  NoDup (map normalize_label out)
  /\ Forall (fun a =>
               normalize_label a <> ""
               /\ (a = Str.strip label
                   \/ a = builtin_label_of builtin_key builtin_fields
                   \/ In (a, builtin_key) SYNONYM_MAP)) out.
Proof.
  cbv zeta. unfold _build_anchors.
  match goal with |- context [unique_anchors _ _ ?l []] =>
    destruct (unique_anchors_inv l []) as [H1 H2]; set (anchors := l) in *
  end.
  split; [exact H1|].
  eapply Forall_impl; [|exact H2].
  intros a [Ha [_ Hin]]. split; [exact Ha|].
  unfold anchors in Hin. rewrite !in_app_iff in Hin.
  destruct Hin as [Hin|[Hin|Hin]].
  - destruct (Str.is_empty (Str.strip label)); simpl in Hin;
      [destruct Hin | destruct Hin as [<-|[]]; auto].
  - destruct (Str.is_empty (builtin_label_of builtin_key builtin_fields));
      simpl in Hin; [destruct Hin | destruct Hin as [<-|[]]; auto].
  - apply in_map_iff in Hin as [[s k] [<- Hf]].
    apply filter_In in Hf as [Hf Hk]. cbn [fst snd] in *.
    apply String.eqb_eq in Hk. subst k. auto.
Qed.

End MoreIntentProperties.

Section MoreIntentSamples.
Import intent Samples.

Lemma fuzzy_first_best_wins_witness :
  fuzzy_best difflib.ratio "vencimentoo"
             ([("valor", "document_value", "synonym")]
              ++ ("vencimento", "due_date", "exact")
                 :: [("vencimento", "due_date", "synonym");
                     ("multa", "multa", "exact")])
  = ("due_date", difflib.ratio "vencimentoo" "vencimento", "exact").
Proof.
  apply (fuzzy_first_best_wins difflib.ratio "vencimentoo"
           [("valor", "document_value", "synonym")]
           [("vencimento", "due_date", "synonym");
            ("multa", "multa", "exact")]
           ("vencimento", "due_date", "exact")).
  - vm_compute. reflexivity.
  - intros c' [<-|[]]. vm_compute. reflexivity.
  - intros c' [<-|[<-|[]]]; vm_compute; discriminate.
Defined.

End MoreIntentSamples.

(* ================================================================== *)
(** * Further properties of processing.py *)

Section MoreProcessingProperties.
Import Py Tidy processing.

Lemma filter_all (keep : ascii -> bool) (s : string) :
  Str.filter keep (Str.filter keep s) = Str.filter keep s.
Proof.
  induction s as [|c r IH]; simpl; [reflexivity|].
  destruct (keep c) eqn:E; simpl; [rewrite E, IH; reflexivity | exact IH].
Qed.

Lemma filter_take (keep : ascii -> bool) (n : nat) (s : string) :
  Str.filter keep s = s -> Str.filter keep (Str.take n s) = Str.take n s.
Proof.
  revert s; induction n as [|n IH]; intros [|c r]; simpl; try reflexivity.
  destruct (keep c) eqn:E.
  - intro H. inversion H as [H']. rewrite H', (IH r H'). reflexivity.
  - intro H. exfalso.
    assert (Hlen : forall t, String.length (Str.filter keep t)
                             <= String.length t).
    { induction t as [|d t IHt]; simpl; [lia|].
      destruct (keep d); simpl; lia. }
    pose proof (Hlen r) as Hr. rewrite H in Hr. simpl in Hr. lia.
Qed.

(** The three tests of [_normalize_digits] on a run of digits. *)
Lemma digits_limits (digits : string) (max_len exact_len : option nat) :
  Str.filter is_digit digits = digits ->
  let r :=
    if Str.is_empty digits then ""
    else if match exact_len with
            | Some n => negb (String.length digits =? n)
            | None => false
            end then ""
    else if match max_len with
            | Some m => m <? String.length digits
            | None => false
            end
    then match max_len with
         | Some m => Str.take m digits
         | None => digits
         end
    else digits in
  Str.filter is_digit r = r
  /\ (forall m, max_len = Some m -> String.length r <= m)
  /\ (forall n, exact_len = Some n -> max_len = None ->
                r = "" \/ String.length r = n).
Proof.
  intro Hd. cbv zeta. destruct (Str.is_empty digits);
    [repeat split; [intros; simpl; lia | auto]|].
  destruct exact_len as [n|], max_len as [m|].
  - destruct (negb (String.length digits =? n));
      [repeat split; [intros; simpl; lia | auto]|].
    destruct (m <? String.length digits) eqn:Hm.
    + repeat split; [apply filter_take, Hd | | discriminate].
      intros m' E; inversion E; subst. apply take_length.
    + apply Nat.ltb_ge in Hm.
      repeat split; [exact Hd | | discriminate].
      intros m' E; inversion E; subst. exact Hm.
  - destruct (String.length digits =? n) eqn:Hn; cbn [negb];
      [|repeat split; [discriminate | auto]].
    apply Nat.eqb_eq in Hn.
    repeat split; [exact Hd | discriminate |].
    intros n' E _; inversion E; subst. right. reflexivity.
  - destruct (m <? String.length digits) eqn:Hm.
    + repeat split; [apply filter_take, Hd | | discriminate].
      intros m' E; inversion E; subst. apply take_length.
    + apply Nat.ltb_ge in Hm.
      repeat split; [exact Hd | | discriminate].
      intros m' E; inversion E; subst. exact Hm.
  - repeat split; [exact Hd | discriminate | discriminate].
Qed.

(** What [_normalize_digits] returns holds digits only; with [max_len]
    it has [max_len] characters at most; with [exact_len] and no
    [max_len] it is empty or has [exact_len] characters. *)
Theorem normalize_digits_spec (v : value) (max_len exact_len : option nat) :
  let r := _normalize_digits v max_len exact_len in
  Str.filter is_digit r = r
  /\ (forall m, max_len = Some m -> String.length r <= m)
  /\ (forall n, exact_len = Some n -> max_len = None ->
                r = "" \/ String.length r = n).
Proof.
  cbv zeta. unfold _normalize_digits.
  pose proof (digits_limits (Str.filter is_digit (py_str v))
                max_len exact_len (filter_all _ _)) as H.
  cbv zeta in H.
  destruct v; exact H.
Qed.

(** With one of the two limits only, as [apply_extracted_fields] calls
    it, [_normalize_digits] leaves its own result as it is. *)
Theorem normalize_digits_idempotent (v : value)
        (max_len exact_len : option nat) :
  max_len = None \/ exact_len = None ->
  _normalize_digits (VStr (_normalize_digits v max_len exact_len))
                    max_len exact_len
  = _normalize_digits v max_len exact_len.
Proof.
  intro Hone.
  assert (Hspec :
            let r := _normalize_digits v max_len exact_len in
            Str.filter is_digit r = r
            /\ (forall m, max_len = Some m -> String.length r <= m)
            /\ (forall n, exact_len = Some n -> max_len = None ->
                          r = "" \/ String.length r = n)).
  { cbv zeta. unfold _normalize_digits.
    pose proof (digits_limits (Str.filter is_digit (py_str v))
                  max_len exact_len (filter_all _ _)) as H.
    cbv zeta in H. destruct v; exact H. }
  destruct Hspec as [Hd [Hm Hn]].
  set (r := _normalize_digits v max_len exact_len) in *.
  unfold _normalize_digits at 1. cbn [py_str]. rewrite Hd.
  destruct (Str.is_empty r) eqn:He; [apply is_empty_true in He; auto|].
  apply is_empty_false in He.
  destruct exact_len as [n|].
  - destruct Hone as [->|Hx]; [|discriminate].
    destruct (Hn n eq_refl eq_refl) as [E|E]; [congruence|].
    apply Nat.eqb_eq in E. rewrite E. reflexivity.
  - destruct max_len as [m|]; [|reflexivity].
    specialize (Hm m eq_refl). apply Nat.ltb_ge in Hm. rewrite Hm.
    reflexivity.
Qed.

Lemma normalize_digits_spec_witness :
  String.length (_normalize_digits (VStr "34191.79001 01043.510047")
                                   (Some 8) None) <= 8.
Proof.
  exact (proj1 (proj2 (normalize_digits_spec
                         (VStr "34191.79001 01043.510047") (Some 8) None))
               8 eq_refl).
Defined.

Lemma normalize_digits_idempotent_witness :
  _normalize_digits (VStr (_normalize_digits (VStr "12.345.678/0001-95")
                                             None (Some 14)))
                    None (Some 14)
  = _normalize_digits (VStr "12.345.678/0001-95") None (Some 14).
Proof.
  apply (normalize_digits_idempotent (VStr "12.345.678/0001-95")
                                     None (Some 14)).
  left. reflexivity.
Defined.

(** The three copies of [_clean_text] agree: the one of ai_filters is
    the one of ai_extraction; the one of processing gives the same
    text when there is no limit, and with a limit the same text up to
    the white space that a cut leaves at the end, which it keeps. *)
Theorem clean_text_copies_agree (v : value) (max_len : nat) :
  ai_filters._clean_text v max_len = ai_extraction._clean_text v max_len
  /\ processing._clean_text v None = ai_extraction._clean_text v 0
  /\ (0 < max_len ->
      ai_extraction._clean_text v max_len
      = Str.rstrip (processing._clean_text v (Some max_len))
      /\ String.length (processing._clean_text v (Some max_len))
         <= max_len).
Proof.
  split; [reflexivity|]. split; [destruct v; reflexivity|].
  intro Hpos.
  assert (H0 : (max_len =? 0) = false) by (apply Nat.eqb_neq; lia).
  unfold ai_extraction._clean_text, processing._clean_text.
  assert (H : forall s, tidy s ->
              (if negb (max_len =? 0) && (max_len <? String.length s)
               then Str.rstrip (Str.take max_len s) else s)
              = Str.rstrip (if max_len <? String.length s
                            then Str.take max_len s else s)
              /\ String.length (if max_len <? String.length s
                                then Str.take max_len s else s)
                 <= max_len).
  { intros s [_ Hr]. rewrite H0. cbn [negb andb].
    destruct (max_len <? String.length s) eqn:Hlt.
    - split; [reflexivity | apply take_length].
    - apply Nat.ltb_ge in Hlt. split; [symmetry; exact Hr | exact Hlt]. }
  assert (Ht : forall s, tidy (Str.strip (Str.join " " (Str.split s)))).
  { intro s. rewrite (tidy_strip _ (collapse_tidy _)). apply collapse_tidy. }
  destruct v; try (apply H, Ht).
  split; [reflexivity | simpl; lia].
Qed.

Lemma clean_text_copies_agree_witness :
  ai_extraction._clean_text (VStr " ab  cd ") 3
  = Str.rstrip (processing._clean_text (VStr " ab  cd ") (Some 3)).
Proof.
  exact (proj1 (proj2 (proj2 (clean_text_copies_agree (VStr " ab  cd ") 3))
                        ltac:(lia))).
Defined.

End MoreProcessingProperties.

(* ================================================================== *)
(** * Integers through the money parser *)

Section IntegersAsMoney.
Import Py processing.

Lemma digit_char (c : ascii) :
  is_digit c = true ->
  Str.is_space c = false
  /\ Str.lower_char c = c
  /\ Ascii.eqb c "_" = false
  /\ Ascii.eqb c "i" = false
  /\ Ascii.eqb "n" c = false
  /\ Ascii.eqb "s" c = false
  /\ forall r, split_sign (String c r) = (false, String c r).
Proof.
  destruct c as [[] [] [] [] [] [] [] []]; intro H; vm_compute in H;
    try discriminate H; clear H; repeat split.
Qed.

Lemma uint_all_digits (d : Decimal.uint) :
  all_digits (NilEmpty.string_of_uint d) = true.
Proof. induction d; simpl; auto. Qed.

Lemma uint_nonempty (d : Decimal.uint) :
  d <> Decimal.Nil -> NilEmpty.string_of_uint d <> "".
Proof. destruct d; simpl; congruence. Qed.

Lemma digits_val_acc (d : Decimal.uint) :
  forall acc : positive,
    digits_val (Z.pos acc) (NilEmpty.string_of_uint d)
    = Z.pos (Pos.of_uint_acc d acc).
Proof.
  induction d; intro acc; cbn [NilEmpty.string_of_uint digits_val Pos.of_uint_acc];
    [reflexivity|..];
    match goal with
    | |- digits_val (10 * _ + digit_val ?c)%Z _ = _ =>
        let v := eval vm_compute in (digit_val c) in
        change (digit_val c) with v
    end;
    rewrite <- IHd; f_equal; lia.
Qed.

Lemma digits_val_uint (d : Decimal.uint) :
  digits_val 0 (NilEmpty.string_of_uint d) = Z.of_N (Pos.of_uint d).
Proof.
  induction d; cbn [NilEmpty.string_of_uint digits_val Pos.of_uint];
    [reflexivity|..];
    match goal with
    | |- digits_val (10 * 0 + digit_val ?c)%Z _ = _ =>
        let v := eval vm_compute in (10 * 0 + digit_val c)%Z in
        change (10 * 0 + digit_val c)%Z with v
    end;
    [exact IHd | apply digits_val_acc ..].
Qed.

Lemma all_digits_fixed (s : string) :
  all_digits s = true ->
  Str.rstrip s = s /\ Str.lower s = s
  /\ Str.filter (fun c => negb (Ascii.eqb c "_")) s = s
  /\ span_digits s = (s, "").
Proof.
  induction s as [|c r IH]; [repeat split|].
  cbn [all_digits]. intro H. apply andb_true_iff in H as [Hc Hr].
  destruct (IH Hr) as [H1 [H2 [H3 H4]]].
  destruct (digit_char c Hc) as [Hs [Hl [Hu _]]].
  repeat split.
  - rewrite rstrip_cons, Hs, H1. reflexivity.
  - cbn [Str.lower]. rewrite Hl, H2. reflexivity.
  - cbn [Str.filter]. rewrite Hu, H3. reflexivity.
  - cbn [span_digits]. rewrite Hc, H4. reflexivity.
Qed.

Lemma literal_of_digits (s : string) :
  s <> "" -> all_digits s = true ->
  parse_decimal_literal s = Some (digits_val 0 s, 0%Z).
Proof.
  intros Hne Hd. unfold parse_decimal_literal.
  destruct (all_digits_fixed s Hd) as [_ [_ [_ ->]]].
  apply is_empty_false in Hne. rewrite Hne. cbn [andb].
  rewrite app_empty_r. reflexivity.
Qed.

Lemma Decimal_of_digits (neg : bool) (s : string) :
  s <> "" -> all_digits s = true ->
  Decimal_of_str ((if neg then "-" else "") ++ s)
  = Some (DFinite neg (digits_val 0 s) 0).
Proof.
  intros Hne Hd.
  destruct (all_digits_fixed s Hd) as [H1 [H2 [H3 _]]].
  destruct s as [|c r]; [congruence|].
  pose proof Hd as Hd'. cbn [all_digits] in Hd'.
  apply andb_true_iff in Hd' as [Hc _].
  destruct (digit_char c Hc) as [Hs [_ [_ [Hi [Hn [Hsn Hsign]]]]]].
  unfold Decimal_of_str.
  assert (Hstrip : Str.strip ((if neg then "-" else "") ++ String c r)
                   = ((if neg then "-" else "") ++ String c r)%string).
  { unfold Str.strip. destruct neg; cbn [append Str.lstrip].
    - change (Str.is_space "-") with false. cbv iota.
      rewrite rstrip_cons. change (Str.is_space "-") with false.
      rewrite H1. reflexivity.
    - rewrite Hs. exact H1. }
  rewrite Hstrip.
  assert (Hfilter : Str.filter (fun c0 => negb (Ascii.eqb c0 "_"))
                      ((if neg then "-" else "") ++ String c r)
                    = ((if neg then "-" else "") ++ String c r)%string).
  { destruct neg; cbn [append]; [|exact H3].
    assert (Hcons : forall f a t,
               Str.filter f (String a t)
               = if f a then String a (Str.filter f t) else Str.filter f t)
      by reflexivity.
    rewrite Hcons, H3. reflexivity. }
  rewrite Hfilter.
  assert (Hsplit : split_sign ((if neg then "-" else "") ++ String c r)
                   = (neg, String c r)).
  { destruct neg; cbn [append]; [reflexivity | apply Hsign]. }
  rewrite Hsplit, H2.
  assert (Hinf : String.eqb (String c r) "inf" = false)
    by (cbn [String.eqb]; rewrite Hi; reflexivity).
  assert (Hinfinity : String.eqb (String c r) "infinity" = false)
    by (cbn [String.eqb]; rewrite Hi; reflexivity).
  assert (Hnan : Str.startswith "nan" (String c r) = false)
    by (cbn [Str.startswith]; rewrite Hn; reflexivity).
  assert (Hsnan : Str.startswith "snan" (String c r) = false)
    by (cbn [Str.startswith]; rewrite Hsn; reflexivity).
  rewrite Hinf, Hinfinity, Hnan, Hsnan. cbn [orb andb].
  rewrite (literal_of_digits (String c r) Hne Hd). reflexivity.
Qed.

Lemma Decimal_of_int (z : Z) :
  Decimal_of_str (Z_repr z) = Some (DFinite (z <? 0)%Z (Z.abs z) 0).
Proof.
  destruct z as [|p|p].
  - reflexivity.
  - change (Z_repr (Z.pos p))
      with (((if false then "-" else "")
             ++ NilEmpty.string_of_uint (Pos.to_uint p))%string).
    rewrite Decimal_of_digits;
      [| apply uint_nonempty, DecimalPos.Unsigned.to_uint_nonnil
       | apply uint_all_digits].
    rewrite digits_val_uint, DecimalPos.Unsigned.of_to. reflexivity.
  - change (Z_repr (Z.neg p))
      with (((if true then "-" else "")
             ++ NilEmpty.string_of_uint (Pos.to_uint p))%string).
    rewrite Decimal_of_digits;
      [| apply uint_nonempty, DecimalPos.Unsigned.to_uint_nonnil
       | apply uint_all_digits].
    rewrite digits_val_uint, DecimalPos.Unsigned.of_to. reflexivity.
Qed.

(** An integer goes through the money parser without loss: the parser
    quantises the integer itself, so that it returns the integer with
    two zero decimals, or nothing when that has too many digits.  The
    integer has 4300 digits at most, beyond which [str] refuses to
    print it. *)
Theorem parse_decimal_int_exact (z : Z) :
  (Z.abs z < 10 ^ 4300)%Z ->
  _parse_decimal (IsObject (VInt z))
  = Ok (quantize_cents (DFinite (z <? 0)%Z (Z.abs z) 0))
  /\ (_parse_decimal (IsObject (VInt z)) = Ok None
      \/ _parse_decimal (IsObject (VInt z))
         = Ok (Some (DFinite (z <? 0)%Z (Z.abs z * 100) (-2)))).
Proof.
  intro Hz.
  assert (Hp : printable (VInt z) = true) by (apply Z.ltb_lt; exact Hz).
  assert (E : _parse_decimal (IsObject (VInt z))
              = Ok (quantize_cents (DFinite (z <? 0)%Z (Z.abs z) 0))).
  { change (_parse_decimal (IsObject (VInt z)))
      with (text <- str (VInt z) ;; Ok (quantized text)).
    unfold str. rewrite Hp.
    change (py_str (VInt z)) with (Z_repr z).
    cbn [bind]. unfold quantized. rewrite Decimal_of_int. reflexivity. }
  split; [exact E|]. rewrite E. unfold quantize_cents.
  destruct (Z.abs z =? 0)%Z eqn:H0.
  - apply Z.eqb_eq in H0. rewrite H0. right. reflexivity.
  - destruct (context_Emax <? _)%Z; [left; reflexivity|].
    destruct (context_prec <? _)%Z; [left; reflexivity|].
    change (-2 <=? 0)%Z with true. cbv iota.
    change (10 ^ (0 + 2))%Z with 100%Z.
    destruct (context_prec <? _)%Z; [left | right]; reflexivity.
Qed.

Lemma parse_decimal_int_exact_witness :
  _parse_decimal (IsObject (VInt (-1250)))
  = Ok (quantize_cents (DFinite true 1250 0)).
Proof.
  apply (proj1 (parse_decimal_int_exact (-1250) ltac:(vm_compute; reflexivity))).
Defined.

End IntegersAsMoney.

(* ================================================================== *)
(** * The normaliser of migration 0010 *)

Section MigrationNormalizer.
Import Tidy.

Variable NFKD : string -> string.
Variable combining : ascii -> bool.

Lemma lower_char_facts (c : ascii) :
  Str.is_space (Str.lower_char c) = Str.is_space c
  /\ Str.lower_char (Str.lower_char c) = Str.lower_char c
  /\ (Str.is_space c = true -> Str.lower_char c = c).
Proof.
  destruct c as [[] [] [] [] [] [] [] []]; vm_compute; repeat split;
    discriminate.
Qed.

Lemma lower_idem (s : string) : Str.lower (Str.lower s) = Str.lower s.
Proof.
  induction s as [|c r IH]; simpl; [reflexivity|].
  rewrite IH, (proj1 (proj2 (lower_char_facts c))). reflexivity.
Qed.

Lemma lower_is_empty (s : string) :
  Str.is_empty (Str.lower s) = Str.is_empty s.
Proof. destruct s; reflexivity. Qed.

Lemma rstrip_lower (s : string) :
  Str.rstrip (Str.lower s) = Str.lower (Str.rstrip s).
Proof.
  induction s as [|c r IH]; [reflexivity|].
  cbn [Str.lower]. rewrite !rstrip_cons, IH, lower_is_empty.
  rewrite (proj1 (lower_char_facts c)).
  destruct (Str.is_space c && Str.is_empty (Str.rstrip r)); reflexivity.
Qed.

Lemma loose_lower (s : string) :
  forall b, loose b (Str.lower s) = loose b s.
Proof.
  induction s as [|c r IH]; intro b; [reflexivity|].
  cbn [Str.lower loose]. rewrite (proj1 (lower_char_facts c)), !IH.
  destruct (Str.is_space c) eqn:Hc; [|reflexivity].
  rewrite (proj2 (proj2 (lower_char_facts c)) Hc). reflexivity.
Qed.

Lemma tidy_lower (s : string) : tidy s -> tidy (Str.lower s).
Proof.
  intros [Hl Hr]. split.
  - rewrite loose_lower. exact Hl.
  - rewrite rstrip_lower, Hr. reflexivity.
Qed.

Lemma collapse_loose (s : string) :
  loose (match s with String c _ => Str.is_space c | "" => true end)
        (Str.collapse_ws s) = true.
Proof.
  induction s as [|c r IH]; [reflexivity|].
  cbn [Str.collapse_ws].
  destruct (Str.is_space c) eqn:Hc.
  - destruct r as [|d r']; [reflexivity|].
    destruct (Str.is_space d) eqn:Hd.
    + exact IH.
    + cbn [loose]. rewrite space_is_space. cbn [andb].
      change (Ascii.eqb Str.space Str.space) with true. exact IH.
  - cbn [loose]. rewrite Hc.
    destruct r as [|d r']; [reflexivity|].
    destruct (Str.is_space d); [exact IH | apply loose_weaken, IH].
Qed.

Lemma loose_lstrip (s : string) :
  loose true s = true -> loose false (Str.lstrip s) = true.
Proof.
  destruct s as [|c r]; [reflexivity|].
  cbn [loose Str.lstrip]. destruct (Str.is_space c) eqn:Hc.
  - intro H. apply andb_true_iff in H as [_ H].
    rewrite (loose_false_lstrip r H). exact H.
  - intro H. cbn [loose]. rewrite Hc. exact H.
Qed.

Lemma strip_collapse_tidy (s : string) :
  tidy (Str.strip (Str.collapse_ws s)).
Proof.
  assert (H : loose true (Str.collapse_ws s) = true).
  { pose proof (collapse_loose s) as H.
    destruct s as [|c r]; [reflexivity|].
    destruct (Str.is_space c); [exact H | apply loose_weaken, H]. }
  split.
  - apply loose_rstrip, loose_lstrip, H.
  - apply rstrip_idem.
Qed.

(** The text [_normalize_for_match] of migration 0010 returns is in
    lower case, has no white space around it, and its words are
    separated by one space each: lowering, stripping or re-joining its
    words leaves it as it is. *)
Theorem migration_normalized_form (value : string) :
  let r := migration_normalize_for_match NFKD combining value in
  Str.lower r = r
  /\ Str.strip r = r
  /\ Str.join " " (Str.split r) = r.
Proof.
  cbv zeta. unfold migration_normalize_for_match.
  set (x := Str.filter _ _).
  pose proof (tidy_lower _ (strip_collapse_tidy x)) as Ht.
  split; [apply lower_idem|].
  split; [apply tidy_strip, Ht | apply join_split_tidy, Ht].
Qed.

End MigrationNormalizer.
